(** * Token creation service: submission pipeline and instruction encoding

    A shallow embedding of the token-creation code of the repository
    (the pump.fun [TokenService], its HTTP route, and the LaunchLab
    [createBonkTokenTx] path) together with the properties that the
    specification states about it.

    Layout of the development:
    - [Js]        JavaScript values used by the code: UTF-16 strings,
                  numbers, thrown values;
    - [Buf]       the part of Node's [Buffer] API used by the encoder;
    - [Chain]     keys, transactions, the RPC / relay / storage / database
                  boundary (events and the environment answering them),
                  and the monad of exceptions and traces;
    - [Pumpfun]   [TokenService] (tokenService.ts);
    - [Launchlab] [createBonkTokenTx] and its helpers;
    - [Router]    the [POST /pumpfun/create-token] handler;
    - [Observe]   how traces are read, [Samples] concrete inputs;
    - then the lemmas and theorems. *)

From Stdlib Require Import ZArith String Ascii Bool Lia QArith Qround Arith List.
Import ListNotations.
Local Open Scope Z_scope.

(* ================================================================== *)
(** ** JavaScript values *)
(* ================================================================== *)

Module Js.

(** A JavaScript string is a sequence of UTF-16 code units; [s.length]
    counts code units. *)
Definition JsString := list Z.

Definition is_ascii (c : Z) : Prop := 0 <= c < 128.

(** String literals of the source are ASCII. *)
Definition lit (s : string) : JsString :=
  map (fun a => Z.of_nat (nat_of_ascii a)) (list_ascii_of_string s).

(** Truthiness of a string: only the empty string is falsy. *)
Definition truthy (s : JsString) : bool :=
  match s with [] => false | _ :: _ => true end.

(** Truthiness of an optional string field ([undefined] is falsy). *)
Definition truthy_opt (s : option JsString) : bool :=
  match s with Some u => truthy u | None => false end.

(** [s || d] on an optional string field. *)
Definition or_default (s : option JsString) (d : JsString) : JsString :=
  match s with
  | Some u => if truthy u then u else d
  | None => d
  end.

Fixpoint starts_with (p s : JsString) : bool :=
  match p, s with
  | [], _ => true
  | a :: p', b :: s' => (a =? b) && starts_with p' s'
  | _ :: _, [] => false
  end.

(** The regular expression [/^(https?:\/\/)/]. *)
Definition urlPattern_test (s : JsString) : bool :=
  starts_with (lit "http://") s || starts_with (lit "https://") s.

(** JavaScript numbers, as far as the validation code observes them:
    finite doubles are rationals, and comparisons on them are exact. *)
Inductive JsNumber :=
| NaN
| Infinity (negative : bool)
| Finite (q : Q).

Definition num_truthy (n : JsNumber) : bool :=
  match n with
  | NaN => false
  | Infinity _ => true
  | Finite q => negb (Qeq_bool q 0)
  end.

Definition isNaN (n : JsNumber) : bool :=
  match n with NaN => true | _ => false end.

(** [n <= k], [n < k] and [n > k] for an integer constant [k]; every
    comparison with NaN is false. *)
Definition num_le (n : JsNumber) (k : Z) : bool :=
  match n with
  | NaN => false
  | Infinity neg => neg
  | Finite q => Qle_bool q (inject_Z k)
  end.

Definition num_gt (n : JsNumber) (k : Z) : bool :=
  match n with
  | NaN => false
  | Infinity neg => negb neg
  | Finite q => negb (Qle_bool q (inject_Z k))
  end.

Definition num_lt (n : JsNumber) (k : Z) : bool :=
  match n with
  | NaN => false
  | Infinity neg => neg
  | Finite q => negb (Qle_bool (inject_Z k) q)
  end.

Definition MAX_SAFE_INTEGER : Z := 2 ^ 53 - 1.

(** What a [throw] carries: an [Error] instance with its message, or
    some other value ([error instanceof Error] is false). *)
Inductive Thrown :=
| ErrorInstance (message : string)
| NonError.

(** [error instanceof Error ? error.message : fallback] *)
Definition message_or (e : Thrown) (fallback : string) : string :=
  match e with
  | ErrorInstance m => m
  | NonError => fallback
  end.

Inductive Outcome (A : Type) :=
| Ok (a : A)
| Throw (e : Thrown).
Arguments Ok {A} a.
Arguments Throw {A} e.

Definition is_ok {A} (o : Outcome A) : bool :=
  match o with Ok _ => true | Throw _ => false end.

End Js.
Export Js.

(* ================================================================== *)
(** ** Node's Buffer, as used by the instruction encoder *)
(* ================================================================== *)

Module Buf.

(** A buffer is its sequence of bytes; the operations below return
    [None] where Node throws a RangeError. *)
Definition Buffer := list Z.

(** [Buffer.alloc(n)]: [n] zero bytes. *)
Definition alloc (n : nat) : Buffer := repeat 0 n.

(** Overwrite [bytes] at [offset]; callers guarantee that it fits. *)
Definition blit (buf : Buffer) (offset : nat) (bytes : list Z) : Buffer :=
  firstn offset buf ++ bytes ++ skipn (offset + length bytes) buf.

(** [buf.writeUInt8(value, offset)] *)
Definition writeUInt8 (buf : Buffer) (value : Z) (offset : nat) : option Buffer :=
  if (0 <=? value) && (value <=? 255) && (offset + 1 <=? length buf)%nat
  then Some (blit buf offset [value])
  else None.

Definition le32 (value : Z) : list Z :=
  [ Z.land value 255;
    Z.land (Z.shiftr value 8) 255;
    Z.land (Z.shiftr value 16) 255;
    Z.land (Z.shiftr value 24) 255 ].

(** [buf.writeUInt32LE(value, offset)] *)
Definition writeUInt32LE (buf : Buffer) (value : Z) (offset : nat) : option Buffer :=
  if (0 <=? value) && (value <=? 4294967295) && (offset + 4 <=? length buf)%nat
  then Some (blit buf offset (le32 value))
  else None.

(** UTF-8 encoding of one code point. *)
Definition utf8_of_code_point (cp : Z) : list Z :=
  if cp <? 128 then [cp]
  else if cp <? 2048 then
    [ Z.lor 192 (Z.shiftr cp 6); Z.lor 128 (Z.land cp 63) ]
  else if cp <? 65536 then
    [ Z.lor 224 (Z.shiftr cp 12);
      Z.lor 128 (Z.land (Z.shiftr cp 6) 63);
      Z.lor 128 (Z.land cp 63) ]
  else
    [ Z.lor 240 (Z.shiftr cp 18);
      Z.lor 128 (Z.land (Z.shiftr cp 12) 63);
      Z.lor 128 (Z.land (Z.shiftr cp 6) 63);
      Z.lor 128 (Z.land cp 63) ].

Definition is_high_surrogate (c : Z) : bool := (55296 <=? c) && (c <=? 56319).
Definition is_low_surrogate (c : Z) : bool := (56320 <=? c) && (c <=? 57343).

(** U+FFFD, written for a surrogate that has no partner. *)
Definition replacement : list Z := [239; 191; 189].

(** The UTF-8 encoding of a string, one byte group per character: a
    surrogate pair is one character of four bytes. *)
Fixpoint utf8_chars (s : JsString) : list (list Z) :=
  match s with
  | [] => []
  | c :: rest =>
      if is_high_surrogate c then
        match rest with
        | d :: rest' =>
            if is_low_surrogate d
            then utf8_of_code_point
                   (65536 + (c - 55296) * 1024 + (d - 56320)) :: utf8_chars rest'
            else replacement :: utf8_chars rest
        | [] => [replacement]
        end
      else if is_low_surrogate c then replacement :: utf8_chars rest
      else utf8_of_code_point c :: utf8_chars rest
  end.

(** [Buffer.from(s, 'utf8')] *)
Definition utf8 (s : JsString) : list Z := concat (utf8_chars s).

(** The characters that fit into [capacity] bytes: a character that does
    not fit whole is not written, and nothing after it. *)
Fixpoint take_fitting (chars : list (list Z)) (capacity : nat) : list Z :=
  match chars with
  | [] => []
  | ch :: rest =>
      if (length ch <=? capacity)%nat
      then ch ++ take_fitting rest (capacity - length ch)
      else []
  end.

(** [buf.write(s, offset, 'utf8')]: writes at most [buf.length - offset]
    bytes. *)
Definition write_utf8 (buf : Buffer) (s : JsString) (offset : nat) : option Buffer :=
  if (offset <=? length buf)%nat
  then Some (blit buf offset (take_fitting (utf8_chars s) (length buf - offset)))
  else None.

(** [buf.write(bytes.toString('hex'), offset, 'hex')]: printing bytes in
    hexadecimal and parsing them back is the identity, so this writes
    [bytes], cut to the room that is left. *)
Definition write_hex_of (buf : Buffer) (bytes : list Z) (offset : nat) : option Buffer :=
  if (offset <=? length buf)%nat
  then Some (blit buf offset (firstn (length buf - offset) bytes))
  else None.

End Buf.

(* ================================================================== *)
(** ** Keys, transactions and the boundary to the outside world *)
(* ================================================================== *)

Module Chain.
Import Buf.

Record PublicKey := mkPublicKey { toBuffer : list Z }.

Record Keypair := mkKeypair { publicKey : PublicKey; secretKey : list Z }.

Definition Blockhash := string.
Definition Signature := string.

Record BlockhashInfo := mkBlockhashInfo
  { blockhash : Blockhash; lastValidBlockHeight : Z }.

Record AccountMeta := mkAccountMeta
  { pubkey : PublicKey; isSigner : bool; isWritable : bool }.

Record TransactionInstruction := mkInstruction
  { ix_programId : PublicKey; ix_keys : list AccountMeta; ix_data : Buffer }.

(** What a signature signs: the compiled message. *)
Record Message := mkMessage
  { msg_payer : option PublicKey;
    msg_recentBlockhash : option Blockhash;
    msg_instructions : list TransactionInstruction }.

Record SignaturePubkeyPair := mkSignaturePair
  { sig_publicKey : PublicKey; sig_message : Message }.

(** [Transaction] (and, for the LaunchLab path, [VersionedTransaction]):
    a mutable object in the source, threaded explicitly here. *)
Record Transaction := mkTransaction
  { feePayer : option PublicKey;
    recentBlockhash : option Blockhash;
    instructions : list TransactionInstruction;
    signatures : list SignaturePubkeyPair }.

Definition newTransaction : Transaction := mkTransaction None None [] [].

Definition add (tx : Transaction) (ix : TransactionInstruction) : Transaction :=
  mkTransaction (feePayer tx) (recentBlockhash tx)
                (instructions tx ++ [ix]) (signatures tx).

Definition set_feePayer (tx : Transaction) (pk : PublicKey) : Transaction :=
  mkTransaction (Some pk) (recentBlockhash tx) (instructions tx) (signatures tx).

Definition set_recentBlockhash (tx : Transaction) (bh : Blockhash) : Transaction :=
  mkTransaction (feePayer tx) (Some bh) (instructions tx) (signatures tx).

Definition compileMessage (tx : Transaction) : Message :=
  mkMessage (feePayer tx) (recentBlockhash tx) (instructions tx).

(** [transaction.sign(...signers)]: replaces the signatures by those of
    [signers] over the current message. *)
Definition sign (tx : Transaction) (signers : list Keypair) : Transaction :=
  mkTransaction (feePayer tx) (recentBlockhash tx) (instructions tx)
    (map (fun kp => mkSignaturePair (publicKey kp) (compileMessage tx)) signers).

(** The signatures of [tx] are those of [signers] over its current
    message (blockhash included). *)
Definition signed_by (tx : Transaction) (signers : list Keypair) : Prop :=
  signatures tx =
  map (fun kp => mkSignaturePair (publicKey kp) (compileMessage tx)) signers.

(** An on-chain execution error, as its JSON text. *)
Definition TransactionError := string.

Record SimulationValue := mkSimulation
  { sim_err : option TransactionError; sim_logs : list string }.

Record ConfirmationValue := mkConfirmation
  { conf_slot : Z; conf_err : option TransactionError }.

Record AccountInfo := mkAccountInfo { acc_data : list Z }.

(** The JSON body of the relay's answer:
    [{ result?: string; error?: { message: string } }]. *)
Record SenderJson := mkSenderJson
  { json_error : option string; json_result : option Signature }.

(** What [axios.post] to the relay does: it throws on a transport error
    and on the 30 s timeout, and otherwise returns the response. *)
Inductive RelayReply :=
| TransportError (message : string)
| RequestTimeout
| Response (data : SenderJson).

(** [!json.result]: a missing result, or an empty one. *)
Definition result_missing (j : SenderJson) : bool :=
  match json_result j with
  | None => true
  | Some s => String.eqb s EmptyString
  end.

(** The four ways in which the relay path fails. *)
Definition relay_failed (r : RelayReply) : bool :=
  match r with
  | TransportError _ => true
  | RequestTimeout => true
  | Response j =>
      match json_error j with
      | Some _ => true
      | None => result_missing j
      end
  end.

Record UploadResult := mkUploadResult { up_uri : JsString; up_imageUrl : JsString }.

(** The argument of [FilebaseService.uploadMetadata] as its parameter
    type declares it (lines 2059-2071): the fields of the request that
    the upload reads.  [socials], which no request of the service has,
    is left out. *)
Record MetadataRequest := mkMetadataRequest
  { md_name : JsString;
    md_symbol : JsString;
    md_description : option JsString;
    md_external_url : option JsString;
    md_imageBuffer : option (list Z);
    md_imageFileName : option JsString }.

Inductive Table := PumpfunTokens | LaunchlabTokens.

(** A token row.  Left out: [initialBuyAmount] (a floating-point
    product), the market-cap columns (null), the social links and the
    pool and vault addresses. *)
Record TokenRow := mkTokenRow
  { row_tokenMint : JsString;
    row_tokenName : JsString;
    row_tokenSymbol : JsString;
    row_creatorAddress : JsString;
    row_metadataUri : JsString;
    row_imageUri : option JsString;
    row_description : option JsString;
    row_initialSupply : Z;
    row_currentSupply : Z;
    row_signature : Signature;
    row_status : string }.

(** Parameters of [raydium.launchpad.createLaunchpad] that depend on the
    request. *)
Record LaunchpadParams := mkLaunchpadParams
  { lp_mintA : PublicKey;
    lp_decimals : JsNumber;
    lp_name : JsString;
    lp_symbol : JsString;
    lp_migrateType : JsString;
    lp_uri : JsString;
    lp_configId : PublicKey;
    lp_platformId : PublicKey;
    lp_feePayer : PublicKey;
    lp_extraSigners : list Keypair }.

(** Result of the direct submission: [{ confirmed; signature?; error? }]. *)
Record SubmitResult := mkSubmitResult
  { confirmed : bool; res_signature : option Signature; res_error : option string }.

(** Every interaction with the outside world, with the answer it got. *)
Inductive Event :=
| KeypairGenerate (kp : Keypair)
| GetAccountInfo (address : PublicKey) (r : Outcome (option AccountInfo))
| GetLatestBlockhash (r : Outcome BlockhashInfo)
| SimulateTransaction (tx : Transaction) (r : Outcome SimulationValue)
| SenderPost (tx : Transaction) (r : RelayReply)
| SendRawTransaction (tx : Transaction) (skipPreflight : option bool)
                     (r : Outcome Signature)
| ConfirmTransaction (signature : Signature) (strategy : option BlockhashInfo)
                     (r : Outcome ConfirmationValue)
| UploadMetadata (req : MetadataRequest) (r : Outcome UploadResult)
| UploadToFilebase (contentType : string) (r : Outcome JsString)
| InitSdk (r : Outcome unit)
| GetTokenInfo (r : Outcome Z)
| CreateLaunchpad (p : LaunchpadParams) (r : Outcome (list TransactionInstruction))
| DbCreate (t : Table) (row : TokenRow) (r : Outcome unit)
| DbUpdateSignature (t : Table) (tokenMint : JsString) (signature : Signature)
                    (r : Outcome unit).

(** The trace of a run, newest event first. *)
Definition Trace := list Event.

(** The outside world: each answer may depend on everything that has
    happened so far. *)
Record Env := mkEnv
  { env_generate : Trace -> Keypair;
    env_getAccountInfo : Trace -> PublicKey -> Outcome (option AccountInfo);
    env_getLatestBlockhash : Trace -> Outcome BlockhashInfo;
    env_simulateTransaction : Trace -> Transaction -> Outcome SimulationValue;
    env_senderPost : Trace -> Transaction -> RelayReply;
    env_sendRawTransaction : Trace -> Transaction -> Outcome Signature;
    env_confirmTransaction : Trace -> Signature -> Outcome ConfirmationValue;
    env_uploadMetadata : Trace -> MetadataRequest -> Outcome UploadResult;
    env_uploadToFilebase : Trace -> string -> Outcome JsString;
    env_initSdk : Trace -> Outcome unit;
    env_getTokenInfo : Trace -> Outcome Z;
    env_createLaunchpad : Trace -> LaunchpadParams -> Outcome (list TransactionInstruction);
    env_dbCreate : Trace -> Table -> TokenRow -> Outcome unit;
    env_dbUpdate : Trace -> Table -> JsString -> Signature -> Outcome unit }.

(** Pure library functions the code calls (bs58, web3.js, Raydium SDK). *)
Record Sdk := mkSdk
  { bs58_decode : JsString -> Outcome (list Z);
    Keypair_fromSecretKey : list Z -> Outcome Keypair;
    PublicKey_of : string -> PublicKey;
    PublicKey_parse : JsString -> Outcome PublicKey;
    toBase58 : PublicKey -> JsString;
    findProgramAddress : list (list Z) -> PublicKey -> PublicKey;
    getPdaLaunchpadConfigId : PublicKey;
    BN_new : JsNumber -> Outcome unit;
    LaunchpadConfig_decode : list Z -> Outcome unit }.

(** *** The monad of the asynchronous code: exceptions and the trace *)

Definition M (A : Type) := Trace -> Outcome A * Trace.

Definition ret {A} (a : A) : M A := fun tr => (Ok a, tr).

Definition throw {A} (e : Thrown) : M A := fun tr => (Throw e, tr).

Definition throwError {A} (message : string) : M A :=
  throw (ErrorInstance message).

Definition bind {A B} (m : M A) (k : A -> M B) : M B :=
  fun tr =>
    match m tr with
    | (Ok a, tr') => k a tr'
    | (Throw e, tr') => (Throw e, tr')
    end.

(** [try { m } catch (e) { h e }] *)
Definition try_catch {A} (m : M A) (h : Thrown -> M A) : M A :=
  fun tr =>
    match m tr with
    | (Ok a, tr') => (Ok a, tr')
    | (Throw e, tr') => h e tr'
    end.

(** A pure computation that may throw. *)
Definition lift {A} (o : Outcome A) : M A := fun tr => (o, tr).

(** A Buffer operation: a RangeError where it returns [None]. *)
Definition lift_range {A} (o : option A) : Outcome A :=
  match o with
  | Some a => Ok a
  | None => Throw (ErrorInstance "RangeError")
  end.

(** A call to the outside world returning or throwing. *)
Definition call {A} (answer : Trace -> Outcome A) (ev : Outcome A -> Event) : M A :=
  fun tr => let r := answer tr in (r, ev r :: tr).

(** [Promise.all([m1, m2])]: both calls are issued, then both awaited;
    the rejection reported is the one of the first call in the array
    that fails. *)
Definition both {A B} (m1 : M A) (m2 : M B) : M (A * B) :=
  fun tr =>
    let (r1, tr1) := m1 tr in
    let (r2, tr2) := m2 tr1 in
    (match r1, r2 with
     | Ok a, Ok b => Ok (a, b)
     | Throw e, _ => Throw e
     | Ok _, Throw e => Throw e
     end, tr2).

End Chain.

Declare Scope m_scope.
Delimit Scope m_scope with m.
Notation "x <- m ;; k" := (Chain.bind m (fun x => k))
  (at level 61, m at next level, right associativity) : m_scope.
Notation "m ;; k" := (Chain.bind m (fun _ => k))
  (at level 61, right associativity) : m_scope.

Definition obind {A B} (o : option A) (k : A -> option B) : option B :=
  match o with Some a => k a | None => None end.

Notation "x <~ o ;; k" := (obind o (fun x => k))
  (at level 61, o at next level, right associativity) : m_scope.

(* ================================================================== *)
(** ** TokenService (pump.fun) *)
(* ================================================================== *)

Module Pumpfun.
Import Buf Chain.
Local Open Scope string_scope.
Local Open Scope m_scope.

Record TokenCreationRequest := mkRequest
  { name : JsString;
    symbol : JsString;
    creatorKeypair : JsString;
    uri : option JsString;
    imageBuffer : option (list Z);
    imageFileName : option JsString;
    external_url : option JsString;
    buyAmount : option JsNumber;
    description : option JsString;
    extensions : option (list (JsString * JsString));
    mayhemMode : option bool }.

(** [{ ...req, uri }] *)
Definition with_uri (req : TokenCreationRequest) (u : JsString) : TokenCreationRequest :=
  mkRequest (name req) (symbol req) (creatorKeypair req) (Some u)
            (imageBuffer req) (imageFileName req) (external_url req)
            (buyAmount req) (description req) (extensions req) (mayhemMode req).

(** The request as [FilebaseService.uploadMetadata] receives it. *)
Definition metadata_request (req : TokenCreationRequest) : MetadataRequest :=
  mkMetadataRequest (name req) (symbol req) (description req)
    (external_url req) (imageBuffer req) (imageFileName req).

(** What [createPumpFunToken] resolves to. *)
Record CreateResult := mkCreateResult
  { success : bool;
    signature : option Signature;
    mintAddress : option JsString;
    message : option string;
    error : option string }.

Record Accounts := mkAccounts
  { tokenMint : Keypair;
    bondingCurve : PublicKey;
    associatedBondingCurve : PublicKey;
    metadata : PublicKey }.

(** One iteration of the direct-submission loop either returns from the
    function or goes on with an updated [result]. *)
Inductive Step :=
| Return (r : SubmitResult)
| Continue (result : SubmitResult).

Definition SEEDS_MINT_AUTHORITY : list Z := lit "mint-authority".
Definition SEEDS_BONDING_CURVE : list Z := lit "bonding-curve".
Definition SEEDS_GLOBAL : list Z := lit "global".
Definition SEEDS_EVENT_AUTHORITY : list Z := lit "__event_authority".
Definition SEEDS_ASSOCIATED_BONDING_CURVE_CONSTANT : list Z :=
  [ 6; 221; 246; 225; 215; 101; 161; 147; 217; 203; 225; 70; 206; 235; 121;
    172; 28; 180; 133; 237; 95; 91; 55; 145; 58; 140; 245; 133; 126; 255; 0;
    169 ].
Definition SEEDS_METADATA_CONSTANT : list Z :=
  [ 11; 112; 101; 177; 227; 209; 124; 69; 56; 157; 82; 127; 107; 4; 195; 205;
    88; 184; 108; 115; 26; 160; 253; 181; 73; 182; 209; 188; 3; 248; 41; 70 ].

Definition maxAttempts : nat := 20.
Definition maxRetries : nat := 3.
Definition STANDARD_INITIAL_SUPPLY : Z := 1000000000.

Definition allocation_error : string :=
  "Failed to find unused mint, bonding curve, or metadata accounts after maximum attempts".

Definition is_null {A} (o : option A) : bool :=
  match o with None => true | Some _ => false end.

(** *** validateRequest *)

Definition validateRequest (req : TokenCreationRequest) : Outcome unit :=
  if negb (truthy (name req)) || negb (truthy (symbol req))
     || negb (truthy (creatorKeypair req))
     || (negb (truthy_opt (uri req)) && is_null (imageBuffer req))
  then Throw (ErrorInstance
    "Missing required fields: name, symbol, creatorKeypair, and either uri or image file")
  else if (32 <? length (name req))%nat
  then Throw (ErrorInstance "Name must be 32 characters or less")
  else if (8 <? length (symbol req))%nat
  then Throw (ErrorInstance "Symbol must be 8 characters or less")
  else if match uri req with
          | Some u => truthy u && (200 <? length u)%nat
          | None => false
          end
  then Throw (ErrorInstance "URI must be 200 characters or less")
  else if match imageBuffer req with
          | Some b => (100000000 <? Z.of_nat (length b))%Z
          | None => false
          end
  then Throw (ErrorInstance "Image file must be less than 100MB for Filebase")
  else if match external_url req with
          | Some u => truthy u && negb (urlPattern_test u)
          | None => false
          end
  then Throw (ErrorInstance "external_url must be a valid URL")
  else if match buyAmount req with
          | Some n => num_truthy n && (num_le n 0 || isNaN n)
          | None => false
          end
  then Throw (ErrorInstance "buyAmount must be a positive number in lamports")
  else if match buyAmount req with
          | Some n => num_truthy n && num_gt n MAX_SAFE_INTEGER
          | None => false
          end
  then Throw (ErrorInstance "buyAmount is too large")
  else Ok tt.

(** *** createPumpFunInstruction: the instruction data *)

Definition discriminator : list Z := [214; 144; 76; 236; 95; 139; 49; 180].

(** [for (i...) data.writeUInt8(discriminator[i], offset++)] *)
Definition write_discriminator (data : Buffer) (offset : nat) : option (Buffer * nat) :=
  fold_left
    (fun st b =>
       st' <~ st ;;
       data' <~ writeUInt8 (fst st') b (snd st') ;;
       Some (data', S (snd st')))
    discriminator (Some (data, offset)).

Definition createPumpFunInstruction_data
    (creatorKeypair : Keypair) (req : TokenCreationRequest) : option Buffer :=
  let nameLength := length (name req) in
  let symbolLength := length (symbol req) in
  let uri := or_default (uri req) [] in
  let uriLength := length uri in
  let bufferSize :=
    (8 + 4 + nameLength + 4 + symbolLength + 4 + uriLength + 32 + 1)%nat in
  let data := alloc bufferSize in
  let offset := 0%nat in
  st <~ write_discriminator data offset ;;
  let data := fst st in
  let offset := snd st in
  data <~ writeUInt32LE data (Z.of_nat nameLength) offset ;;
  let offset := (offset + 4)%nat in
  data <~ write_utf8 data (name req) offset ;;
  let offset := (offset + nameLength)%nat in
  data <~ writeUInt32LE data (Z.of_nat symbolLength) offset ;;
  let offset := (offset + 4)%nat in
  data <~ write_utf8 data (symbol req) offset ;;
  let offset := (offset + symbolLength)%nat in
  data <~ writeUInt32LE data (Z.of_nat uriLength) offset ;;
  let offset := (offset + 4)%nat in
  data <~ write_utf8 data uri offset ;;
  let offset := (offset + uriLength)%nat in
  data <~ write_hex_of data (toBuffer (publicKey creatorKeypair)) offset ;;
  let offset := (offset + 32)%nat in
  let mayhemMode :=
    match mayhemMode req with Some b => b | None => false end in
  data <~ writeUInt8 data (if mayhemMode then 1 else 0) offset ;;
  Some data.

Section TokenService.

Variable sdk : Sdk.
Variable env : Env.

Definition programId : PublicKey :=
  PublicKey_of sdk "6EF8rrecthR5Dkzon8Nwu78hRvfCKubJ14M5uBEwF6P".
Definition mayhemProgramId : PublicKey :=
  PublicKey_of sdk "MAyhSmzXzV1pTf7LsNkrNwkWKTo4ougAJ1PPg47MD4e".
Definition tokenProgramId : PublicKey :=
  PublicKey_of sdk "TokenzQdBNbLqP5VEhdkAS6EPFLC1PHnBqCXEpPxuEb".
Definition associatedTokenProgramId : PublicKey :=
  PublicKey_of sdk "ATokenGPvbdGVxr1b2hvZbsiqW5xWH25efTNsLJA8knL".
Definition metadataProgramId : PublicKey :=
  PublicKey_of sdk "metaqbxxUerdq28cj1RbAWkYQm3ybzjb6a8bt518x1s".
Definition SystemProgram_programId : PublicKey :=
  PublicKey_of sdk "11111111111111111111111111111111".

Definition createPumpFunInstruction
    (tokenMint : PublicKey) (creatorKeypair : Keypair)
    (req : TokenCreationRequest) : Outcome TransactionInstruction :=
  let mintAuthority := findProgramAddress sdk [SEEDS_MINT_AUTHORITY] programId in
  let bondingCurve :=
    findProgramAddress sdk [SEEDS_BONDING_CURVE; toBuffer tokenMint] programId in
  let global := findProgramAddress sdk [SEEDS_GLOBAL] programId in
  let mayhemState :=
    findProgramAddress sdk [lit "mayhem-state"; toBuffer tokenMint] mayhemProgramId in
  let globalParams := findProgramAddress sdk [lit "global-params"] mayhemProgramId in
  let solVault := findProgramAddress sdk [lit "sol-vault"] mayhemProgramId in
  let mayhemTokenVault :=
    findProgramAddress sdk
      [toBuffer solVault; toBuffer tokenProgramId; toBuffer tokenMint]
      associatedTokenProgramId in
  let associatedBondingCurve :=
    findProgramAddress sdk
      [toBuffer bondingCurve; toBuffer tokenProgramId; toBuffer tokenMint]
      associatedTokenProgramId in
  let eventAuthority := findProgramAddress sdk [SEEDS_EVENT_AUTHORITY] programId in
  let keys :=
    [ mkAccountMeta tokenMint true true;
      mkAccountMeta mintAuthority false false;
      mkAccountMeta bondingCurve false true;
      mkAccountMeta associatedBondingCurve false true;
      mkAccountMeta global false false;
      mkAccountMeta (publicKey creatorKeypair) true true;
      mkAccountMeta SystemProgram_programId false false;
      mkAccountMeta tokenProgramId false false;
      mkAccountMeta associatedTokenProgramId false false;
      mkAccountMeta mayhemProgramId false true;
      mkAccountMeta globalParams false false;
      mkAccountMeta solVault false true;
      mkAccountMeta mayhemState false true;
      mkAccountMeta mayhemTokenVault false true;
      mkAccountMeta eventAuthority false false;
      mkAccountMeta programId false false ] in
  match lift_range (createPumpFunInstruction_data creatorKeypair req) with
  | Ok data => Ok (mkInstruction programId keys data)
  | Throw e => Throw e
  end.

(** *** getCreatorKeypair *)

Definition getCreatorKeypair (secretKeyBase58 : JsString) : Outcome Keypair :=
  match bs58_decode sdk secretKeyBase58 with
  | Throw e => Throw e
  | Ok secretKey =>
      if negb (length secretKey =? 64)%nat
      then Throw (ErrorInstance "Invalid creatorKeypair: must be 64 bytes")
      else Keypair_fromSecretKey sdk secretKey
  end.

(** *** Calls to the RPC node, the relay, the storage and the database *)

Definition Keypair_generate : M Keypair :=
  fun tr => let kp := env_generate env tr in (Ok kp, KeypairGenerate kp :: tr).

Definition getAccountInfo (address : PublicKey) : M (option AccountInfo) :=
  call (fun tr => env_getAccountInfo env tr address) (GetAccountInfo address).

Definition getLatestBlockhash : M BlockhashInfo :=
  call (env_getLatestBlockhash env) GetLatestBlockhash.

Definition simulateTransaction (tx : Transaction) : M SimulationValue :=
  call (fun tr => env_simulateTransaction env tr tx) (SimulateTransaction tx).

(** [connection.sendRawTransaction(transaction.serialize(), options)] *)
Definition sendRawTransaction (tx : Transaction) (skipPreflight : option bool)
  : M Signature :=
  call (fun tr => env_sendRawTransaction env tr tx)
       (SendRawTransaction tx skipPreflight).

Definition confirmTransaction (signature : Signature)
    (strategy : option BlockhashInfo) : M ConfirmationValue :=
  call (fun tr => env_confirmTransaction env tr signature)
       (ConfirmTransaction signature strategy).

(** [axios.post(heliusSenderEndpoint, { method: 'sendTransaction', params:
    [base64Tx, { skipPreflight: true, maxRetries: 0 }] }, { timeout: 30000 })] *)
Definition axios_post (tx : Transaction) : M SenderJson :=
  fun tr =>
    let r := env_senderPost env tr tx in
    (match r with
     | TransportError m => Throw (ErrorInstance m)
     | RequestTimeout => Throw (ErrorInstance "timeout of 30000ms exceeded")
     | Response j => Ok j
     end, SenderPost tx r :: tr).

(** [this.filebaseService.uploadMetadata(req)]: the request is handed
    over as it is; the storage sees of it what [uploadMetadata] reads. *)
Definition filebase_uploadMetadata (req : TokenCreationRequest) : M UploadResult :=
  call (fun tr => env_uploadMetadata env tr (metadata_request req))
       (UploadMetadata (metadata_request req)).

Definition PumpfunTokens_create (row : TokenRow) : M unit :=
  call (fun tr => env_dbCreate env tr PumpfunTokens row) (DbCreate PumpfunTokens row).

Definition PumpfunTokens_update (tokenMint : JsString) (signature : Signature) : M unit :=
  call (fun tr => env_dbUpdate env tr PumpfunTokens tokenMint signature)
       (DbUpdateSignature PumpfunTokens tokenMint signature).

(** *** findAvailableAccounts *)

(** The addresses derived from a mint keypair (lines 1499-1518). *)
Definition derive_accounts (tokenMint : Keypair) : Accounts :=
  let bondingCurve :=
    findProgramAddress sdk
      [SEEDS_BONDING_CURVE; toBuffer (publicKey tokenMint)] programId in
  let associatedBondingCurve :=
    findProgramAddress sdk
      [toBuffer bondingCurve; SEEDS_ASSOCIATED_BONDING_CURVE_CONSTANT;
       toBuffer (publicKey tokenMint)]
      associatedTokenProgramId in
  let metadata :=
    findProgramAddress sdk
      [lit "metadata"; SEEDS_METADATA_CONSTANT; toBuffer (publicKey tokenMint)]
      metadataProgramId in
  mkAccounts tokenMint bondingCurve associatedBondingCurve metadata.

(** The loop [for (attempts = 0; attempts < maxAttempts; attempts++)],
    by the number of iterations that remain. *)
Fixpoint findAvailableAccounts_from (remaining : nat) : M Accounts :=
  match remaining with
  | O => throwError allocation_error
  | S remaining' =>
      tokenMint <- Keypair_generate ;;
      let accounts := derive_accounts tokenMint in
      infos <- both (getAccountInfo (publicKey tokenMint))
                 (both (getAccountInfo (bondingCurve accounts))
                    (both (getAccountInfo (associatedBondingCurve accounts))
                          (getAccountInfo (metadata accounts)))) ;;
      let '(mintAccountInfo,
            (bondingCurveInfo, (associatedBondingCurveInfo, metadataInfo))) :=
        infos in
      if is_null mintAccountInfo && is_null bondingCurveInfo
         && is_null associatedBondingCurveInfo && is_null metadataInfo
      then ret accounts
      else findAvailableAccounts_from remaining'
  end.

Definition findAvailableAccounts : M Accounts :=
  findAvailableAccounts_from maxAttempts.

(** *** sendWithHelius *)

(** The method signs the transaction object in place before it sends it;
    a caller that goes on with the same object sees [sign transaction
    signers]. *)
Definition sendWithHelius (transaction : Transaction) (signers : list Keypair)
  : M Signature :=
  try_catch
    (let transaction := sign transaction signers in
     json <- axios_post transaction ;;
     match json_error json with
     | Some message => throwError ("Helius Sender error: " ++ message)
     | None =>
         match json_result json with
         | None => throwError "No result returned from Helius Sender"
         | Some signature =>
             if String.eqb signature ""
             then throwError "No result returned from Helius Sender"
             else
               (* the confirmation is logged, its [err] is not acted upon *)
               confirmation <- confirmTransaction signature None ;;
               ret signature
         end
     end)
    (fun error => throw error).

(** *** storeTokenData, updateTokenSignaturePumpfun

    Methods of the class; [createPumpFunToken] below calls neither. *)

Definition storeTokenData (creatorAddress : JsString)
    (name symbol tokenMint uri : JsString) (image description : option JsString)
    (signature : Signature) : M unit :=
  try_catch
    (PumpfunTokens_create
       (mkTokenRow tokenMint name symbol creatorAddress uri image description
                   STANDARD_INITIAL_SUPPLY STANDARD_INITIAL_SUPPLY
                   signature "bonding"))
    (fun error =>
       throwError ("Failed to store token data: " ++ message_or error "Unknown error")).

Definition updateTokenSignaturePumpfun (tokenMint : JsString) (signature : Signature)
  : M unit :=
  try_catch
    (PumpfunTokens_update tokenMint signature)
    (fun error =>
       throwError ("Failed to store token data: " ++ message_or error "Unknown error")).

(** *** createPumpFunToken *)

(** Lines 1170-1215: the relay attempt and, in its [catch], the direct
    broadcast. *)
Definition createPumpFunToken_submit (transaction : Transaction)
    (tokenMint creatorKeypair : Keypair) : M Signature :=
  try_catch
    (signature <- sendWithHelius transaction [tokenMint; creatorKeypair] ;;
     latestBlockhash <- getLatestBlockhash ;;
     confirmation <- confirmTransaction signature (Some latestBlockhash) ;;
     match conf_err confirmation with
     | Some err => throwError ("Transaction failed: " ++ err)
     | None => ret signature
     end)
    (fun error =>
     let transaction := sign transaction [tokenMint; creatorKeypair] in
     signature <- sendRawTransaction transaction (Some false) ;;
     latestBlockhash <- getLatestBlockhash ;;
     confirmation <- confirmTransaction signature (Some latestBlockhash) ;;
     match conf_err confirmation with
     | Some err => throwError ("Transaction failed: " ++ err)
     | None => ret signature
     end).

Definition createPumpFunToken (req : TokenCreationRequest) : M CreateResult :=
  try_catch
    (lift (validateRequest req) ;;
     creatorKeypair <- lift (getCreatorKeypair (creatorKeypair req)) ;;
     accounts <- findAvailableAccounts ;;
     let tokenMint := tokenMint accounts in
     up <- filebase_uploadMetadata req ;;
     let uri := up_uri up in
     latestBlockhash <- getLatestBlockhash ;;
     pumpFunInstruction <-
       lift (createPumpFunInstruction (publicKey tokenMint) creatorKeypair
                                      (with_uri req uri)) ;;
     let transaction := add newTransaction pumpFunInstruction in
     let transaction := set_feePayer transaction (publicKey creatorKeypair) in
     let transaction := set_recentBlockhash transaction (blockhash latestBlockhash) in
     let transaction := sign transaction [tokenMint; creatorKeypair] in
     simulation <- simulateTransaction transaction ;;
     match sim_err simulation with
     | Some err => throwError ("Transaction simulation failed: " ++ err)
     | None =>
         signature <- createPumpFunToken_submit transaction tokenMint creatorKeypair ;;
         (* a [tokenData] object is built here and dropped: nothing is stored *)
         ret (mkCreateResult true (Some signature)
                (Some (toBase58 sdk (publicKey tokenMint)))
                (Some "Token created and bought successfully") None)
     end)
    (fun error =>
       ret (mkCreateResult false None None None
              (Some (message_or error "Unknown error")))).

(** *** fallbackDirectSubmission *)

(** The body of the loop.  The source has one [try] block; the
    transaction object mutated inside it stays mutated when a later
    statement throws, so the handler is given the transaction as it is at
    the throw. *)
Definition fallbackDirectSubmission_attempt (attempt : nat)
    (transaction : Transaction) (creatorKeypair : Keypair)
    (latestBlockhash : BlockhashInfo) (tokenMint : Keypair)
    (result : SubmitResult) : M (Transaction * Step) :=
  let handler (tx : Transaction) (directError : Thrown) : M (Transaction * Step) :=
    ret (tx, Continue (mkSubmitResult false (res_signature result)
                         (Some (message_or directError "Unknown error")))) in
  try_catch
    (transaction <-
       (if (1 <? attempt)%nat then
          newBlockhash <- getLatestBlockhash ;;
          let transaction := set_recentBlockhash transaction (blockhash newBlockhash) in
          ret (sign transaction [tokenMint; creatorKeypair])
        else ret transaction) ;;
     try_catch
       (signature <- sendRawTransaction transaction None ;;
        confirmation <- confirmTransaction signature (Some latestBlockhash) ;;
        match conf_err confirmation with
        | None => ret (transaction, Return (mkSubmitResult true (Some signature) None))
        | Some err =>
            ret (transaction,
                 Continue (mkSubmitResult false (Some signature)
                             (Some ("Direct submission failed: " ++ err))))
        end)
       (handler transaction))
    (handler transaction).

(** [for (attempt = 1; attempt <= maxRetries; attempt++)], by the number
    of iterations that remain. *)
Fixpoint fallbackDirectSubmission_from (remaining attempt : nat)
    (transaction : Transaction) (creatorKeypair : Keypair)
    (latestBlockhash : BlockhashInfo) (tokenMint : Keypair)
    (result : SubmitResult) : M SubmitResult :=
  match remaining with
  | O => ret result
  | S remaining' =>
      st <- fallbackDirectSubmission_attempt attempt transaction creatorKeypair
              latestBlockhash tokenMint result ;;
      match snd st with
      | Return r => ret r
      | Continue result' =>
          fallbackDirectSubmission_from remaining' (S attempt) (fst st)
            creatorKeypair latestBlockhash tokenMint result'
      end
  end.

Definition fallbackDirectSubmission (transaction : Transaction)
    (creatorKeypair : Keypair) (latestBlockhash : BlockhashInfo)
    (tokenMint : Keypair) : M SubmitResult :=
  fallbackDirectSubmission_from maxRetries 1 transaction creatorKeypair
    latestBlockhash tokenMint
    (mkSubmitResult false None (Some "Direct submission failed")).

End TokenService.
End Pumpfun.

(* ================================================================== *)
(** ** LaunchLab: createBonkTokenTx *)
(* ================================================================== *)

Module Launchlab.
Import Buf Chain.
Local Open Scope string_scope.
Local Open Scope m_scope.

(** Modelled from the spec: the declaration of [LaunchpadRequest]
    (types/types.ts) is not among the sources; its fields are those the
    data model of the specification lists and [createBonkTokenTx]
    reads. *)
Record LaunchpadRequest := mkLaunchpadRequest
  { name : JsString;
    symbol : JsString;
    image : option (list Z);
    imageFileName : option JsString;
    description : option JsString;
    platformId : option JsString;
    website : option JsString;
    createdOn : option JsString;
    twitter : option JsString;
    telegram : option JsString;
    decimals : option JsNumber;
    migrateType : option JsString;
    slippage : option JsNumber;
    buyAmount : option JsNumber }.

Definition is_null {A} (o : option A) : bool :=
  match o with None => true | Some _ => false end.

(** [field && !urlPattern.test(field)] *)
Definition bad_url (field : option JsString) : bool :=
  match field with
  | Some u => truthy u && negb (urlPattern_test u)
  | None => false
  end.

(** [description && description.length > 200] *)
Definition description_too_long (d : option JsString) : bool :=
  match d with
  | Some u => truthy u && (200 <? length u)%nat
  | None => false
  end.

Definition jsstring_eqb (a b : JsString) : bool :=
  (length a =? length b)%nat && starts_with a b.

(** [s || null] *)
Definition or_null (s : option JsString) : option JsString :=
  match s with
  | Some u => if truthy u then Some u else None
  | None => None
  end.

Definition STANDARD_INITIAL_SUPPLY : Z := 1000000000.

Section CreateBonkToken.

Variable sdk : Sdk.
Variable env : Env.

Definition BONK_PLATFROM_ID : PublicKey :=
  PublicKey_of sdk "FfYek5vEz23cMkWsdJwG2oa6EphsvXSHrGpdALN4g6W1".

Definition getAccountInfo (address : PublicKey) : M (option AccountInfo) :=
  call (fun tr => env_getAccountInfo env tr address) (GetAccountInfo address).

Definition getLatestBlockhash : M BlockhashInfo :=
  call (env_getLatestBlockhash env) GetLatestBlockhash.

Definition simulateTransaction (tx : Transaction) : M SimulationValue :=
  call (fun tr => env_simulateTransaction env tr tx) (SimulateTransaction tx).

Definition sendRawTransaction (tx : Transaction) (skipPreflight : option bool)
  : M Signature :=
  call (fun tr => env_sendRawTransaction env tr tx)
       (SendRawTransaction tx skipPreflight).

Definition confirmTransaction (signature : Signature) : M ConfirmationValue :=
  call (fun tr => env_confirmTransaction env tr signature)
       (ConfirmTransaction signature None).

Definition axios_post (tx : Transaction) : M SenderJson :=
  fun tr =>
    let r := env_senderPost env tr tx in
    (match r with
     | TransportError m => Throw (ErrorInstance m)
     | RequestTimeout => Throw (ErrorInstance "timeout of 30000ms exceeded")
     | Response j => Ok j
     end, SenderPost tx r :: tr).

Definition filebase_uploadToFilebase (contentType : string) : M JsString :=
  call (fun tr => env_uploadToFilebase env tr contentType)
       (UploadToFilebase contentType).

Definition initSdk : M unit := call (env_initSdk env) InitSdk.

Definition getTokenInfo : M Z := call (env_getTokenInfo env) GetTokenInfo.

Definition createLaunchpad (p : LaunchpadParams) : M (list TransactionInstruction) :=
  call (fun tr => env_createLaunchpad env tr p) (CreateLaunchpad p).

Definition LaunchlabTokens_create (row : TokenRow) : M unit :=
  call (fun tr => env_dbCreate env tr LaunchlabTokens row)
       (DbCreate LaunchlabTokens row).

Definition LaunchlabTokens_update (tokenMint : JsString) (signature : Signature)
  : M unit :=
  call (fun tr => env_dbUpdate env tr LaunchlabTokens tokenMint signature)
       (DbUpdateSignature LaunchlabTokens tokenMint signature).

(** *** sendWithHelius (module level) *)

Definition sendWithHelius (transaction : Transaction) : M Signature :=
  try_catch
    (json <- axios_post transaction ;;
     match json_error json with
     | Some message => throwError ("Helius Sender error: " ++ message)
     | None =>
         match json_result json with
         | None => throwError "No result returned from Helius Sender"
         | Some signature =>
             if String.eqb signature ""
             then throwError "No result returned from Helius Sender"
             else
               (* the confirmation is logged, its [err] is not acted upon *)
               confirmation <- confirmTransaction signature ;;
               ret signature
         end
     end)
    (fun error => throw error).

(** *** uploadImageToFilebase, createBonkFunTokenMetadata *)

Definition uploadImageToFilebase : M JsString :=
  try_catch
    (filebase_uploadToFilebase "image/png")
    (fun error =>
       throwError ("Failed to upload image to Filebase: "
                   ++ message_or error "Unknown error")).

Definition createBonkFunTokenMetadata (tokenData : LaunchpadRequest)
  : M UploadResult :=
  if negb (truthy (name tokenData)) || negb (truthy (symbol tokenData))
     || is_null (image tokenData)
  then throwError "Missing required fields: name, symbol, and image are required"
  else if (32 <? length (name tokenData))%nat
  then throwError "Name must be 32 characters or less"
  else if (8 <? length (symbol tokenData))%nat
  then throwError "Symbol must be 8 characters or less"
  else if description_too_long (description tokenData)
  then throwError "Description must be 200 characters or less"
  else if match platformId tokenData with
          | Some p => truthy p && negb (is_ok (PublicKey_parse sdk p))
          | None => false
          end
  then throwError "platformId must be a valid Solana public key"
  else
    try_catch
      (imageUrl <- uploadImageToFilebase ;;
       metadataUrl <- filebase_uploadToFilebase "application/json" ;;
       ret (mkUploadResult metadataUrl imageUrl))
      (fun error =>
         throwError ("Failed to upload to Filebase: "
                     ++ message_or error "Unknown error")).

(** *** storeTokenData, updateTokenSignatureLaunchlab *)

Definition storeTokenData (tokenMint tokenName tokenSymbol creatorAddress
    metadataUri : JsString) (imageUri description : option JsString)
    (signature : Signature) : M unit :=
  try_catch
    (LaunchlabTokens_create
       (mkTokenRow tokenMint tokenName tokenSymbol creatorAddress metadataUri
                   (or_null imageUri) (or_null description)
                   STANDARD_INITIAL_SUPPLY STANDARD_INITIAL_SUPPLY
                   signature "active"))
    (fun error =>
       throwError ("Failed to store token data: " ++ message_or error "Unknown error")).

Definition updateTokenSignatureLaunchlab (tokenMint : JsString)
    (signature : Signature) : M unit :=
  try_catch
    (LaunchlabTokens_update tokenMint signature)
    (fun error =>
       throwError ("Failed to store token data: " ++ message_or error "Unknown error")).

(** *** createBonkTokenTx *)

(** Lines 393-436: the checks made before anything else. *)
Definition createBonkTokenTx_validate (tokenData : LaunchpadRequest) : Outcome unit :=
  if negb (truthy (name tokenData)) || negb (truthy (symbol tokenData))
     || is_null (image tokenData)
  then Throw (ErrorInstance
         "Missing required fields: name, symbol, and image are required")
  else if (32 <? length (name tokenData))%nat
  then Throw (ErrorInstance "Name must be 32 characters or less")
  else if (8 <? length (symbol tokenData))%nat
  then Throw (ErrorInstance "Symbol must be 8 characters or less")
  else if description_too_long (description tokenData)
  then Throw (ErrorInstance "Description must be 200 characters or less")
  else if bad_url (createdOn tokenData)
  then Throw (ErrorInstance "createdOn must be a valid URL")
  else if bad_url (website tokenData)
  then Throw (ErrorInstance "website must be a valid URL")
  else if bad_url (twitter tokenData)
  then Throw (ErrorInstance "twitter must be a valid URL")
  else if bad_url (telegram tokenData)
  then Throw (ErrorInstance "telegram must be a valid URL")
  else if match decimals tokenData with
          | Some d => num_truthy d && (isNaN d || num_lt d 0 || num_gt d 9)
          | None => false
          end
  then Throw (ErrorInstance "Decimals must be a number between 0 and 9")
  else if match migrateType tokenData with
          | Some m => truthy m && negb (jsstring_eqb m (lit "amm"))
          | None => false
          end
  then Throw (ErrorInstance "Invalid migrateType")
  else Ok tt.

(** Lines 517-542: the relay attempt and, in its [catch], the direct
    broadcast. *)
Definition createBonkTokenTx_submit (transaction : Transaction) : M Signature :=
  try_catch
    (sendWithHelius transaction)
    (fun error =>
       txid <- sendRawTransaction transaction (Some false) ;;
       (* the confirmation's slot is logged, its [err] is not looked at *)
       confirmation <- confirmTransaction txid ;;
       ret txid).

Definition createBonkTokenTx (mainKp mintKp : Keypair)
    (tokenData : LaunchpadRequest) : M Transaction :=
  try_catch
    (lift (createBonkTokenTx_validate tokenData) ;;
     up <- createBonkFunTokenMetadata tokenData ;;
     let uri := up_uri up in
     let imageUrl := up_imageUrl up in
     if negb (truthy uri) then throwError "Token metadata URI is undefined" else
     initSdk ;;
     let configId := getPdaLaunchpadConfigId sdk in
     configData <- getAccountInfo configId ;;
     match configData with
     | None => throwError "Config not found"
     | Some configData =>
         lift (LaunchpadConfig_decode sdk (acc_data configData)) ;;
         mintBInfo <- getTokenInfo ;;
         lift (BN_new sdk (match slippage tokenData with
                           | Some n => if num_truthy n then n else Finite 100
                           | None => Finite 100
                           end)) ;;
         platform <-
           lift (match platformId tokenData with
                 | Some p => if truthy p then PublicKey_parse sdk p
                             else Ok BONK_PLATFROM_ID
                 | None => Ok BONK_PLATFROM_ID
                 end) ;;
         ixs <- createLaunchpad
                  (mkLaunchpadParams (publicKey mintKp)
                     (match decimals tokenData with
                      | Some d => if num_truthy d then d else Finite 6
                      | None => Finite 6
                      end)
                     (name tokenData) (symbol tokenData)
                     (or_default (migrateType tokenData) (lit "amm"))
                     uri configId platform (publicKey mainKp) [mintKp]) ;;
         bh <- getLatestBlockhash ;;
         let transaction :=
           mkTransaction (Some (publicKey mainKp)) (Some (blockhash bh)) ixs [] in
         let transaction := sign transaction [mainKp; mintKp] in
         (* the result of the simulation is logged, nothing more *)
         sim <- simulateTransaction transaction ;;
         signature <- createBonkTokenTx_submit transaction ;;
         storeTokenData (toBase58 sdk (publicKey mintKp))
           (name tokenData) (symbol tokenData)
           (toBase58 sdk (publicKey mainKp)) uri (Some imageUrl)
           (or_null (description tokenData)) "" ;;
         ret transaction
     end)
    (fun error => throw error).

End CreateBonkToken.
End Launchlab.

(* ================================================================== *)
(** ** The route POST /pumpfun/create-token *)
(* ================================================================== *)

Module Router.
Import Buf Chain Pumpfun.
Local Open Scope string_scope.
Local Open Scope m_scope.

(** The uploaded file ([req.file]). *)
Record File := mkFile { buffer : list Z; originalname : JsString }.

Inductive ResponseBody :=
| ErrorBody (error : string)
| SuccessBody (result : CreateResult).

Record HttpResponse := mkResponse { status : Z; body : ResponseBody }.

(** Lines 910-919: [{ ...req.body, mayhemMode: true }], then the file. *)
Definition tokenData_of (body : TokenCreationRequest) (file : option File)
  : TokenCreationRequest :=
  let tokenData :=
    mkRequest (name body) (symbol body) (creatorKeypair body) (uri body)
              (imageBuffer body) (imageFileName body) (external_url body)
              (buyAmount body) (description body) (extensions body)
              (Some true) in
  match file with
  | Some f =>
      mkRequest (name tokenData) (symbol tokenData) (creatorKeypair tokenData)
                (uri tokenData) (Some (buffer f)) (Some (originalname f))
                (external_url tokenData) (buyAmount tokenData)
                (description tokenData) (extensions tokenData)
                (mayhemMode tokenData)
  | None => tokenData
  end.

(** The handler, over the service method it calls. *)
Definition create_token_handler
    (createPumpFunToken : TokenCreationRequest -> M CreateResult)
    (body : TokenCreationRequest) (file : option File) : M HttpResponse :=
  try_catch
    (let tokenData := tokenData_of body file in
     if negb (truthy (name tokenData)) || negb (truthy (symbol tokenData))
        || negb (truthy (creatorKeypair tokenData))
        || (negb (truthy_opt (uri tokenData)) && is_null (imageBuffer tokenData))
     then ret (mkResponse 400 (ErrorBody
       "Missing required fields: name, symbol, creatorKeypair, and either uri or image file"))
     else if (32 <? length (name tokenData))%nat
     then ret (mkResponse 400 (ErrorBody "Name must be 32 characters or less"))
     else if (8 <? length (symbol tokenData))%nat
     then ret (mkResponse 400 (ErrorBody "Symbol must be 8 characters or less"))
     else if match uri tokenData with
             | Some u => truthy u && (200 <? length u)%nat
             | None => false
             end
     then ret (mkResponse 400 (ErrorBody "URI must be 200 characters or less"))
     else if match buyAmount tokenData with
             | Some n => num_truthy n && (isNaN n || num_le n 0)
             | None => false
             end
     then ret (mkResponse 400 (ErrorBody "buyAmount must be a positive number"))
     else if match buyAmount tokenData with
             | Some n => num_truthy n && num_gt n MAX_SAFE_INTEGER
             | None => false
             end
     then ret (mkResponse 400 (ErrorBody "buyAmount is too large"))
     else
       result <- createPumpFunToken tokenData ;;
       if success result
       then ret (mkResponse 200 (SuccessBody result))
       else ret (mkResponse 500 (ErrorBody
                   (match error result with
                    | Some e => if String.eqb e "" then "Token creation failed" else e
                    | None => "Token creation failed"
                    end))))
    (fun error =>
       ret (mkResponse 500 (ErrorBody (message_or error "Server error")))).

(** The route as deployed: the handler over [TokenService]. *)
Definition post_create_token (sdk : Sdk) (env : Env)
    (body : TokenCreationRequest) (file : option File) : M HttpResponse :=
  create_token_handler (createPumpFunToken sdk env) body file.

End Router.

(* ================================================================== *)
(** ** Reading a trace; the shapes the specification talks about *)
(* ================================================================== *)

Module Observe.
Import Buf Chain Pumpfun.

Definition is_relay_post (e : Event) : bool :=
  match e with SenderPost _ _ => true | _ => false end.

Definition is_direct_send (e : Event) : bool :=
  match e with SendRawTransaction _ _ _ => true | _ => false end.

(** A broadcast, by either path. *)
Definition is_broadcast (e : Event) : bool :=
  is_relay_post e || is_direct_send e.

Definition is_blockhash_fetch (e : Event) : bool :=
  match e with GetLatestBlockhash _ => true | _ => false end.

Definition is_generate (e : Event) : bool :=
  match e with KeypairGenerate _ => true | _ => false end.

Definition is_db (e : Event) : bool :=
  match e with
  | DbCreate _ _ _ => true
  | DbUpdateSignature _ _ _ _ => true
  | _ => false
  end.

Definition count (p : Event -> bool) (tr : Trace) : nat :=
  length (filter p tr).

(** A simulation that reported an execution error. *)
Definition is_failed_simulation (e : Event) : bool :=
  match e with
  | SimulateTransaction _ (Ok sim) =>
      match sim_err sim with Some _ => true | None => false end
  | _ => false
  end.

(** Neither a broadcast, nor a simulation that reported an error, nor a
    database write. *)
Definition is_quiet (e : Event) : bool :=
  negb (is_broadcast e || is_failed_simulation e || is_db e).

(** The execution errors that simulations in the trace reported. *)
Definition simulation_errors (tr : Trace) : list TransactionError :=
  flat_map (fun e =>
              match e with
              | SimulateTransaction _ (Ok sim) =>
                  match sim_err sim with Some err => [err] | None => [] end
              | _ => []
              end) tr.

(** The execution errors that confirmations in the trace carried. *)
Definition confirmation_errors (tr : Trace) : list TransactionError :=
  flat_map (fun e =>
              match e with
              | ConfirmTransaction _ _ (Ok c) =>
                  match conf_err c with Some err => [err] | None => [] end
              | _ => []
              end) tr.

(** The rows created in the database, newest first. *)
Definition rows_created (tr : Trace) : list TokenRow :=
  flat_map (fun e =>
              match e with
              | DbCreate _ row (Ok _) => [row]
              | _ => []
              end) tr.

(** *** Instruction data *)

Definition mayhem_byte (req : TokenCreationRequest) : Z :=
  if match mayhemMode req with Some b => b | None => false end then 1 else 0.

Definition claimed_size (req : TokenCreationRequest) : nat :=
  53 + length (name req) + length (symbol req) + length (or_default (uri req) []).

(** Discriminator, then name, symbol and uri each as a 4-byte
    little-endian length and its bytes, the creator key, the flag. *)
Definition claimed_layout (creatorKeypair : Keypair) (req : TokenCreationRequest)
  : list Z :=
  discriminator
  ++ le32 (Z.of_nat (length (name req))) ++ utf8 (name req)
  ++ le32 (Z.of_nat (length (symbol req))) ++ utf8 (symbol req)
  ++ le32 (Z.of_nat (length (or_default (uri req) [])))
  ++ utf8 (or_default (uri req) [])
  ++ toBuffer (publicKey creatorKeypair)
  ++ [mayhem_byte req].

Definition laid_out_as_claimed (creatorKeypair : Keypair)
    (req : TokenCreationRequest) : Prop :=
  exists data,
    createPumpFunInstruction_data creatorKeypair req = Some data
    /\ length data = claimed_size req
    /\ data = claimed_layout creatorKeypair req.

(** A string as the engine can hold it: its length fits 32 bits. *)
Definition js_length_ok (s : JsString) : Prop :=
  Z.of_nat (length s) < 4294967296.

(** *** Direct submission: every send but the very first event follows
    a successful blockhash fetch, carries that blockhash and is signed
    over it (the trace is newest first). *)
Fixpoint sends_refreshed (signers : list Keypair) (tr : Trace) : Prop :=
  match tr with
  | [] => True
  | e :: older =>
      match e, older with
      | SendRawTransaction tx _ _, GetLatestBlockhash (Ok bh) :: _ =>
          recentBlockhash tx = Some (blockhash bh) /\ signed_by tx signers
      | SendRawTransaction _ _ _, _ :: _ => False
      | _, _ => True
      end /\ sends_refreshed signers older
  end.

(** The newest event is a confirmation of [signature] without error. *)
Definition confirmed_clean (signature : Signature) (tr : Trace) : Prop :=
  match tr with
  | ConfirmTransaction s _ (Ok c) :: _ => s = signature /\ conf_err c = None
  | _ => False
  end.

(** How an iteration of the direct-submission loop ends, given the
    events [evs] it added: it returns a confirmed result and its newest
    event is a clean confirmation, or it goes on with a failure. *)
Definition attempt_ends (step : Step) (evs : Trace) : Prop :=
  match step with
  | Return r =>
      confirmed r = true /\ res_error r = None
      /\ exists s, res_signature r = Some s
                   /\ forall acc, confirmed_clean s (evs ++ acc)
  | Continue r =>
      confirmed r = false /\ res_error r <> None
      /\ forall s acc, ~ confirmed_clean s (evs ++ acc)
  end.

(** The newest event is a confirmation of [signature] that returned,
    with or without an execution error. *)
Definition confirmation_returned (signature : Signature) (tr : Trace) : Prop :=
  match tr with
  | ConfirmTransaction s _ (Ok _) :: _ => s = signature
  | _ => False
  end.

(** *** Account allocation: one probe of the loop *)

Record Probe := mkProbe
  { probe_mint : Keypair;
    answer_mint : Outcome (option AccountInfo);
    answer_bondingCurve : Outcome (option AccountInfo);
    answer_associated : Outcome (option AccountInfo);
    answer_metadata : Outcome (option AccountInfo) }.

Definition answers (p : Probe) : list (Outcome (option AccountInfo)) :=
  [answer_mint p; answer_bondingCurve p; answer_associated p; answer_metadata p].

Definition answered_null (r : Outcome (option AccountInfo)) : bool :=
  match r with Ok None => true | _ => false end.

Definition answered (r : Outcome (option AccountInfo)) : bool :=
  match r with Ok _ => true | Throw _ => false end.

(** All four addresses are unoccupied. *)
Definition unoccupied (p : Probe) : bool := forallb answered_null (answers p).

(** All four queries were answered and some address is occupied. *)
Definition occupied (p : Probe) : bool :=
  forallb answered (answers p) && negb (unoccupied p).

(** The first query that failed, if any. *)
Definition rejection (p : Probe) : option Thrown :=
  match find (fun r => negb (answered r)) (answers p) with
  | Some (Throw e) => Some e
  | _ => None
  end.

(** The events of one probe, newest first: the keypair is generated,
    then the mint and its three derived addresses are queried. *)
Definition probe_events (sdk : Sdk) (p : Probe) : Trace :=
  let a := derive_accounts sdk (probe_mint p) in
  [ GetAccountInfo (metadata a) (answer_metadata p);
    GetAccountInfo (associatedBondingCurve a) (answer_associated p);
    GetAccountInfo (bondingCurve a) (answer_bondingCurve p);
    GetAccountInfo (publicKey (probe_mint p)) (answer_mint p);
    KeypairGenerate (probe_mint p) ].

(** The probe the environment answers when the loop starts an iteration
    at trace [tr]. *)
Definition probe_at (sdk : Sdk) (env : Env) (tr : Trace) : Probe :=
  let kp := env_generate env tr in
  let a := derive_accounts sdk kp in
  let t0 := KeypairGenerate kp :: tr in
  let r1 := env_getAccountInfo env t0 (publicKey kp) in
  let t1 := GetAccountInfo (publicKey kp) r1 :: t0 in
  let r2 := env_getAccountInfo env t1 (bondingCurve a) in
  let t2 := GetAccountInfo (bondingCurve a) r2 :: t1 in
  let r3 := env_getAccountInfo env t2 (associatedBondingCurve a) in
  let t3 := GetAccountInfo (associatedBondingCurve a) r3 :: t2 in
  let r4 := env_getAccountInfo env t3 (metadata a) in
  mkProbe kp r1 r2 r3 r4.

(** How a run of the allocation ends, read off its newest probe. *)
Definition allocation_outcome (sdk : Sdk) (newest : Probe) (probes : nat)
    (budget : nat) (r : Outcome Accounts) : Prop :=
  (unoccupied newest = true
   /\ r = Ok (derive_accounts sdk (probe_mint newest)))
  \/ (occupied newest = true /\ probes = budget
      /\ r = Throw (ErrorInstance allocation_error))
  \/ (exists e, rejection newest = Some e /\ r = Throw e).

(** [{ ...r, mayhemMode: true }] *)
Definition force_mayhem (r : TokenCreationRequest) : TokenCreationRequest :=
  mkRequest (name r) (symbol r) (creatorKeypair r) (uri r) (imageBuffer r)
    (imageFileName r) (external_url r) (buyAmount r) (description r)
    (extensions r) (Some true).

(** The validation messages of the three entry points. *)
Definition pumpfun_length_errors : list string :=
  [ "Missing required fields: name, symbol, creatorKeypair, and either uri or image file";
    "Name must be 32 characters or less";
    "Symbol must be 8 characters or less" ]%string.

Definition launchlab_length_errors : list string :=
  [ "Missing required fields: name, symbol, and image are required";
    "Name must be 32 characters or less";
    "Symbol must be 8 characters or less" ]%string.

(** *** What createPumpFunToken resolves to *)

(** The object the [catch] of [createPumpFunToken] returns for an error
    with the given message (lines 1243-1249). *)
Definition failure (message : string) : CreateResult :=
  mkCreateResult false None None None (Some message).

(** The same for the value caught:
    [error instanceof Error ? error.message : 'Unknown error']. *)
Definition caught (e : Thrown) : CreateResult :=
  failure (message_or e "Unknown error"%string).

(** The object returned at the end of the [try] block (lines 1236-1241). *)
Definition created (signature : Signature) (mintAddress : JsString) : CreateResult :=
  mkCreateResult true (Some signature) (Some mintAddress)
    (Some "Token created and bought successfully"%string) None.

(** The message of the error with which a call of the submission block
    ends it: the rejection of the direct send, of the blockhash fetch or
    of the confirmation awaited with a blockhash, or the execution error
    such a confirmation reports (line 1213; on the relay path the same
    errors are caught by the inner [catch], line 1191). *)
Definition failure_message (e : Event) : option string :=
  match e with
  | SendRawTransaction _ _ (Throw e) => Some (message_or e "Unknown error"%string)
  | GetLatestBlockhash (Throw e) => Some (message_or e "Unknown error"%string)
  | ConfirmTransaction _ (Some _) (Throw e) =>
      Some (message_or e "Unknown error"%string)
  | ConfirmTransaction _ (Some _) (Ok c) =>
      match conf_err c with
      | Some err => Some ("Transaction failed: " ++ err)%string
      | None => None
      end
  | _ => None
  end.

End Observe.

(* ================================================================== *)
(** ** Concrete inputs and environments *)
(* ================================================================== *)

Module Samples.
Import Buf Chain Observe.
Local Open Scope string_scope.

Definition key (b : Z) : PublicKey := mkPublicKey (repeat b 32).

Definition creator : Keypair := mkKeypair (key 1) (repeat 1 64).
Definition mint : Keypair := mkKeypair (key 2) (repeat 2 64).

Definition configId : PublicKey := key 9.

Definition sdk : Sdk :=
  mkSdk (fun _ => Ok (repeat 1 64))
        (fun sk => Ok (mkKeypair (mkPublicKey (firstn 32 sk)) sk))
        (fun _ => key 3)
        (fun _ => Ok (key 4))
        (fun pk => toBuffer pk)
        (fun _ _ => key 5)
        configId
        (fun _ => Ok tt)
        (fun _ => Ok tt).

Definition is_config (pk : PublicKey) : bool :=
  match toBuffer pk with b :: _ => (b =? 9)%Z | [] => false end.

(** How the relay, the node's simulation and its confirmations answer. *)
Record Weather := mkWeather
  { relay : RelayReply;
    simulation : SimulationValue;
    send : Outcome Signature;
    confirmation : ConfirmationValue }.

(** An environment in which everything but the above succeeds; only the
    launchpad configuration account exists. *)
Definition env_of (w : Weather) : Env :=
  mkEnv (fun _ => mint)
        (fun _ pk => if is_config pk then Ok (Some (mkAccountInfo [])) else Ok None)
        (fun _ => Ok (mkBlockhashInfo "blockhash" 100))
        (fun _ _ => Ok (simulation w))
        (fun _ _ => relay w)
        (fun _ _ => send w)
        (fun _ _ => Ok (confirmation w))
        (fun _ _ => Ok (mkUploadResult (lit "https://ipfs/meta") (lit "https://ipfs/img")))
        (fun _ _ => Ok (lit "https://ipfs/file"))
        (fun _ => Ok tt)
        (fun _ => Ok 9)
        (fun _ _ => Ok [])
        (fun _ _ _ => Ok tt)
        (fun _ _ _ _ => Ok tt).

Definition accepted : RelayReply := Response (mkSenderJson None (Some "sig-relay")).
Definition clean_simulation : SimulationValue := mkSimulation None [].
Definition failed_simulation : SimulationValue :=
  mkSimulation (Some "{InstructionError:[0,Custom]}") ["Program failed"].
Definition clean_confirmation : ConfirmationValue := mkConfirmation 7 None.
Definition failed_confirmation : ConfirmationValue :=
  mkConfirmation 7 (Some "{InstructionError:[0,Custom]}").

Definition fair : Weather :=
  mkWeather accepted clean_simulation (Ok "sig-direct") clean_confirmation.

(** The simulation reports an execution error. *)
Definition simulation_fails : Weather :=
  mkWeather accepted failed_simulation (Ok "sig-direct") clean_confirmation.

(** The relay accepts; the transaction is confirmed with an error. *)
Definition relay_then_failed_confirmation : Weather :=
  mkWeather accepted clean_simulation (Ok "sig-direct") failed_confirmation.

(** The relay times out; the node accepts; confirmed with an error. *)
Definition direct_then_failed_confirmation : Weather :=
  mkWeather RequestTimeout clean_simulation (Ok "sig-direct") failed_confirmation.

(** The relay times out and the node rejects every submission. *)
Definition node_rejects : Weather :=
  mkWeather RequestTimeout clean_simulation
    (Throw (ErrorInstance "Blockhash not found")) clean_confirmation.

(** The relay times out; the node accepts and confirms. *)
Definition relay_times_out : Weather :=
  mkWeather RequestTimeout clean_simulation (Ok "sig-direct") clean_confirmation.

(** Name "Test", symbol "TST", an image. *)
Definition request : Pumpfun.TokenCreationRequest :=
  Pumpfun.mkRequest (lit "Test") (lit "TST") (lit "secret") None
    (Some [1; 2; 3]) (Some (lit "t.png")) None None None None None.

(** The same with a pre-generated uri and the flag set. *)
Definition request_with_uri : Pumpfun.TokenCreationRequest :=
  Pumpfun.mkRequest (lit "Test") (lit "TST") (lit "secret")
    (Some (lit "https://x.io/m.json"))
    None None None None None None (Some true).

(** A name of one non-ASCII character, U+00E9. *)
Definition request_accent : Pumpfun.TokenCreationRequest :=
  Pumpfun.mkRequest [233] (lit "TST") (lit "secret") (Some (lit "u"))
    None None None None None None None.

(** A name of 33 characters. *)
Definition request_long_name : Pumpfun.TokenCreationRequest :=
  Pumpfun.mkRequest (repeat 65 33) (lit "TST") (lit "secret") None
    (Some [1; 2; 3]) None None None None None (Some false).

Definition launch_request : Launchlab.LaunchpadRequest :=
  Launchlab.mkLaunchpadRequest (lit "Test") (lit "TST") (Some [1; 2; 3])
    None None None None None None None None None None None.

Definition launch_request_long_symbol : Launchlab.LaunchpadRequest :=
  Launchlab.mkLaunchpadRequest (lit "Test") (repeat 66 9) (Some [1; 2; 3])
    None None None None None None None None None None None.

Definition unsigned_tx : Transaction :=
  mkTransaction (Some (key 1)) (Some "blockhash") [] [].

Definition signed_tx : Transaction := sign unsigned_tx [mint; creator].

Definition latest : BlockhashInfo := mkBlockhashInfo "blockhash" 100.

(** Every address is occupied. *)
Definition crowded_env : Env :=
  mkEnv (fun _ => mint)
        (fun _ _ => Ok (Some (mkAccountInfo [])))
        (fun _ => Ok (mkBlockhashInfo "blockhash" 100))
        (fun _ _ => Ok clean_simulation)
        (fun _ _ => accepted)
        (fun _ _ => Ok "sig-direct")
        (fun _ _ => Ok clean_confirmation)
        (fun _ _ => Ok (mkUploadResult (lit "https://ipfs/meta") (lit "https://ipfs/img")))
        (fun _ _ => Ok (lit "https://ipfs/file"))
        (fun _ => Ok tt)
        (fun _ => Ok 9)
        (fun _ _ => Ok [])
        (fun _ _ _ => Ok tt)
        (fun _ _ _ _ => Ok tt).

Definition timeout_env : Env := env_of relay_times_out.

End Samples.

(* ================================================================== *)
(** ** Further readings of requests, buffers and traces *)
(* ================================================================== *)

Module Inspect.
Import Buf Chain Pumpfun Observe.
Local Open Scope string_scope.

Definition is_code_unit (c : Z) : Prop := 0 <= c < 65536.

(** A string field as the encoder leaves it: the length in code units,
    then that many bytes of the UTF-8 encoding. *)
Definition written_field (s : JsString) : list Z :=
  le32 (Z.of_nat (length s)) ++ firstn (length s) (utf8 s).

(** The instruction data for any name, symbol and uri. *)
Definition written_layout (creatorKeypair : Keypair) (req : TokenCreationRequest)
  : list Z :=
  discriminator
  ++ written_field (name req)
  ++ written_field (symbol req)
  ++ written_field (or_default (uri req) [])
  ++ toBuffer (publicKey creatorKeypair)
  ++ [mayhem_byte req].

(** [{ ...req, uri, buyAmount }] *)
Definition with_uri_and_amount (req : TokenCreationRequest)
    (uri : option JsString) (buyAmount : option JsNumber) : TokenCreationRequest :=
  mkRequest (name req) (symbol req) (creatorKeypair req) uri (imageBuffer req)
    (imageFileName req) (external_url req) buyAmount (description req)
    (extensions req) (mayhemMode req).

(** What validation leaves possible for [buyAmount]. *)
Definition buyAmount_accepted (n : JsNumber) : Prop :=
  match n with
  | NaN => True
  | Infinity _ => False
  | Finite q => (q == 0 \/ (0 < q /\ q <= inject_Z MAX_SAFE_INTEGER))%Q
  end.

(** The transactions that were simulated, posted or sent, newest first. *)
Definition transactions_of (tr : Trace) : list Transaction :=
  flat_map (fun e =>
              match e with
              | SimulateTransaction tx _ => [tx]
              | SenderPost tx _ => [tx]
              | SendRawTransaction tx _ _ => [tx]
              | _ => []
              end) tr.

(** The keypairs that were generated, newest first. *)
Definition generated (tr : Trace) : list Keypair :=
  flat_map (fun e => match e with KeypairGenerate kp => [kp] | _ => [] end) tr.

(** The strategies confirmations were asked with. *)
Definition confirm_strategies (tr : Trace) : list (option BlockhashInfo) :=
  flat_map (fun e =>
              match e with
              | ConfirmTransaction _ strategy _ => [strategy]
              | _ => []
              end) tr.

(** The error the newest event stands for in the direct-submission
    loop. *)
Definition surfaced_error (tr : Trace) : option string :=
  match tr with
  | GetLatestBlockhash (Throw e) :: _ => Some (message_or e "Unknown error")
  | SendRawTransaction _ _ (Throw e) :: _ => Some (message_or e "Unknown error")
  | ConfirmTransaction _ _ (Throw e) :: _ => Some (message_or e "Unknown error")
  | ConfirmTransaction _ _ (Ok c) :: _ =>
      match conf_err c with
      | Some err => Some ("Direct submission failed: " ++ err)
      | None => None
      end
  | _ => None
  end.

Definition is_db_update (e : Event) : bool :=
  match e with DbUpdateSignature _ _ _ _ => true | _ => false end.

Definition is_simulation (e : Event) : bool :=
  match e with SimulateTransaction _ _ => true | _ => false end.

(** The signature of the newest confirmation that came back with an
    execution error. *)
Fixpoint failed_signature (tr : Trace) : option Signature :=
  match tr with
  | [] => None
  | ConfirmTransaction s _ (Ok c) :: older =>
      match conf_err c with
      | Some _ => Some s
      | None => failed_signature older
      end
  | _ :: older => failed_signature older
  end.

(** [a], and [b] where [a] has nothing. *)
Definition or_else {A} (a b : option A) : option A :=
  match a with Some _ => a | None => b end.

(** What the checks of [createBonkTokenTx] leave possible for
    [decimals]. *)
Definition decimals_accepted (n : JsNumber) : Prop :=
  match n with
  | NaN => True
  | Infinity _ => False
  | Finite q => (q == 0 \/ (0 < q /\ q <= 9))%Q
  end.

(** An optional link is absent, empty, or starts with http:// or
    https://. *)
Definition link_accepted (field : option JsString) : Prop :=
  forall u, field = Some u -> u = [] \/ urlPattern_test u = true.

(** The parameters [createLaunchpad] was called with, newest first. *)
Definition launchpads (tr : Trace) : list LaunchpadParams :=
  flat_map (fun e => match e with CreateLaunchpad p _ => [p] | _ => [] end) tr.

(** Launch parameters that stem from the request and the two keypairs
    and are within the bounds the request was checked against. *)
Definition launch_as_requested (sdk : Sdk) (mainKp mintKp : Keypair)
    (tokenData : Launchlab.LaunchpadRequest) (p : LaunchpadParams) : Prop :=
  lp_mintA p = publicKey mintKp
  /\ lp_feePayer p = publicKey mainKp
  /\ lp_extraSigners p = [mintKp]
  /\ lp_configId p = getPdaLaunchpadConfigId sdk
  /\ lp_name p = Launchlab.name tokenData
  /\ (1 <= length (lp_name p) <= 32)%nat
  /\ lp_symbol p = Launchlab.symbol tokenData
  /\ (1 <= length (lp_symbol p) <= 8)%nat
  /\ lp_migrateType p = lit "amm"
  /\ lp_uri p <> []
  /\ (exists q,
        lp_decimals p = Finite q
        /\ (0 < q /\ q <= 9)%Q
        /\ (Launchlab.decimals tokenData = Some (Finite q) \/ q = 6%Q))
  /\ match Launchlab.or_null (Launchlab.platformId tokenData) with
     | Some s => PublicKey_parse sdk s = Ok (lp_platformId p)
     | None => lp_platformId p = Launchlab.BONK_PLATFROM_ID sdk
     end.

End Inspect.

(* ================================================================== *)
(** ** Base58, the text form of Solana addresses *)
(* ================================================================== *)

Module Base58.
Local Open Scope string_scope.

(** The Bitcoin alphabet, which [bs58] and [new PublicKey(string)] use. *)
Definition alphabet : string :=
  "123456789ABCDEFGHJKLMNPQRSTUVWXYZabcdefghijkmnopqrstuvwxyz".

Fixpoint index_from (i : Z) (c : ascii) (s : string) : option Z :=
  match s with
  | EmptyString => None
  | String a s' => if Ascii.eqb a c then Some i else index_from (i + 1) c s'
  end.

Fixpoint digits (s : string) : option (list Z) :=
  match s with
  | EmptyString => Some []
  | String c s' =>
      match index_from 0 c alphabet, digits s' with
      | Some d, Some ds => Some (d :: ds)
      | _, _ => None
      end
  end.

Definition value (ds : list Z) : Z :=
  fold_left (fun acc d => acc * 58 + d) ds 0.

Fixpoint leading_zeros (ds : list Z) : nat :=
  match ds with
  | d :: ds' => if (d =? 0)%Z then S (leading_zeros ds') else O
  | [] => O
  end.

(** The bytes of [n], least significant first; [fuel] bounds their
    number. *)
Fixpoint bytes_le (fuel : nat) (n : Z) : list Z :=
  match fuel with
  | O => []
  | S fuel' => if (n =? 0)%Z then [] else (n mod 256) :: bytes_le fuel' (n / 256)
  end.

(** A leading '1' stands for a zero byte; the rest is a number in base
    58, most significant digit first. *)
Definition decode (s : string) : option (list Z) :=
  match digits s with
  | Some ds =>
      Some (repeat 0 (leading_zeros ds)
              ++ rev (bytes_le (List.length ds) (value ds)))%list
  | None => None
  end.

End Base58.

(* ================================================================== *)
(** ** Further requests and environments *)
(* ================================================================== *)

Module Cases.
Import Buf Chain.
Local Open Scope string_scope.

(** A request with an image whose external_url is not a URL. *)
Definition request_bad_url : Pumpfun.TokenCreationRequest :=
  Pumpfun.mkRequest (lit "Test") (lit "TST") (lit "secret") None
    (Some [1; 2; 3]) (Some (lit "t.png")) (Some (lit "example.org"))
    None None None None.

(** The sample request with a description. *)
Definition request_described : Pumpfun.TokenCreationRequest :=
  Pumpfun.mkRequest (lit "Test") (lit "TST") (lit "secret") None
    (Some [1; 2; 3]) (Some (lit "t.png")) None None
    (Some (lit "A test token")) None None.

(** Fair weather, with a storage that refuses a request without a
    description. *)
Definition strict_storage : Env :=
  mkEnv (fun _ => Samples.mint)
        (fun _ _ => Ok None)
        (fun _ => Ok (mkBlockhashInfo "blockhash" 100))
        (fun _ _ => Ok Samples.clean_simulation)
        (fun _ _ => Samples.accepted)
        (fun _ _ => Ok "sig-direct")
        (fun _ _ => Ok Samples.clean_confirmation)
        (fun _ md =>
           match md_description md with
           | Some _ => Ok (mkUploadResult (lit "https://ipfs/meta") (lit "https://ipfs/img"))
           | None => Throw (ErrorInstance "description required")
           end)
        (fun _ _ => Ok (lit "https://ipfs/file"))
        (fun _ => Ok tt)
        (fun _ => Ok 9)
        (fun _ _ => Ok [])
        (fun _ _ _ => Ok tt)
        (fun _ _ _ _ => Ok tt).

(** An SDK whose [PublicKey] constructor decodes Base58. *)
Definition sdk58 : Sdk :=
  mkSdk (fun _ => Ok (repeat 1 64))
        (fun sk => Ok (mkKeypair (mkPublicKey (firstn 32 sk)) sk))
        (fun s => mkPublicKey (match Base58.decode s with
                               | Some b => b
                               | None => []
                               end))
        (fun _ => Ok (Samples.key 4))
        (fun pk => toBuffer pk)
        (fun _ _ => Samples.key 5)
        Samples.configId
        (fun _ => Ok tt)
        (fun _ => Ok tt).

End Cases.

(* ================================================================== *)
(** ** TokenService.submitTransaction: the bundler, then the fallback *)
(* ================================================================== *)

Module Bundler.
Import Buf Chain Pumpfun.
Local Open Scope string_scope.
Local Open Scope m_scope.

(** What [submitTransaction] returns:
    [{ success; signature; mintAddress; error }]. *)
Record Submission := mkSubmission
  { sub_success : bool;
    sub_signature : option Signature;
    sub_mintAddress : JsString;
    sub_error : option string }.

(** [result.signature] is set and not the empty string. *)
Definition truthy_signature (o : option Signature) : option Signature :=
  match o with
  | Some s => if String.eqb s "" then None else Some s
  | None => None
  end.

Section SubmitTransaction.

Variable sdk : Sdk.
Variable env : Env.

(** [this.jitoBundler.executeAndConfirm] (../jito/jitoService) is not
    among the sources: any behaviour is allowed for it.  It is handed the
    transaction object, which it may change, so it yields the transaction
    as it leaves it next to its result and the calls it made. *)
Variable executeAndConfirm :
  Transaction -> Keypair -> BlockhashInfo -> list Keypair ->
  Trace -> Outcome SubmitResult * Transaction * Trace.

Definition submitTransaction (transaction : Transaction)
    (creatorKeypair : Keypair) (latestBlockhash : BlockhashInfo)
    (tokenMint : Keypair) : M Submission :=
  fun tr =>
    let '(answer, transaction, tr) :=
      executeAndConfirm transaction creatorKeypair latestBlockhash [tokenMint] tr in
    (result <-
       try_catch
         (result <- lift answer ;;
          (if confirmed result then
             match truthy_signature (res_signature result) with
             | Some signature =>
                 updateTokenSignaturePumpfun env
                   (toBase58 sdk (publicKey tokenMint)) signature
             | None => ret tt
             end
           else ret tt) ;;
          ret result)
         (fun jitoError =>
            ret (mkSubmitResult false None
                   (Some (message_or jitoError "Jito bundler failed")))) ;;
     result <-
       (if negb (confirmed result)
        then fallbackDirectSubmission env transaction creatorKeypair
               latestBlockhash tokenMint
        else ret result) ;;
     ret (mkSubmission (confirmed result) (res_signature result)
            (toBase58 sdk (publicKey tokenMint)) (res_error result))) tr.

End SubmitTransaction.




(** A bundler that confirms with signature "sig-jito" and leaves the
    transaction as it is. *)
Definition confirming_bundler :
  Transaction -> Keypair -> BlockhashInfo -> list Keypair ->
  Trace -> Outcome SubmitResult * Transaction * Trace :=
  fun transaction _ _ _ tr =>
    (Ok (mkSubmitResult true (Some "sig-jito") None), transaction, tr).

(** The node accepts and confirms; the database is down. *)
Definition database_down : Env :=
  mkEnv (fun _ => Samples.mint)
        (fun _ _ => Ok None)
        (fun _ => Ok Samples.latest)
        (fun _ _ => Ok Samples.clean_simulation)
        (fun _ _ => Samples.accepted)
        (fun _ _ => Ok "sig-direct")
        (fun _ _ => Ok Samples.clean_confirmation)
        (fun _ _ => Ok (mkUploadResult (lit "https://ipfs/meta") (lit "https://ipfs/img")))
        (fun _ _ => Ok (lit "https://ipfs/file"))
        (fun _ => Ok tt)
        (fun _ => Ok 9)
        (fun _ _ => Ok [])
        (fun _ _ _ => Throw (ErrorInstance "connection refused"))
        (fun _ _ _ _ => Throw (ErrorInstance "connection refused")).

End Bundler.

(* ================================================================== *)
(** ** Exceptions and a trace, over any kind of event *)
(* ================================================================== *)

Module Eff.
Section OverEvents.

Context {E : Type}.

(** A computation that adds to the trace (newest event first) and
    returns or throws. *)
Definition M (A : Type) := list E -> Outcome A * list E.

Definition ret {A} (a : A) : M A := fun tr => (Ok a, tr).

Definition throwError {A} (message : string) : M A :=
  fun tr => (Throw (ErrorInstance message), tr).

Definition bind {A B} (m : M A) (k : A -> M B) : M B :=
  fun tr =>
    match m tr with
    | (Ok a, tr') => k a tr'
    | (Throw e, tr') => (Throw e, tr')
    end.

(** [try { m } catch (e) { h e }] *)
Definition try_catch {A} (m : M A) (h : Thrown -> M A) : M A :=
  fun tr =>
    match m tr with
    | (Ok a, tr') => (Ok a, tr')
    | (Throw e, tr') => h e tr'
    end.

(** A pure computation that may throw. *)
Definition lift {A} (o : Outcome A) : M A := fun tr => (o, tr).

End OverEvents.

(** The text of [error.message] in a template literal, in a
    [catch (error: any)]: the message of an Error object; a thrown value
    without a message prints as "undefined". *)
Definition message_of (error : Thrown) : string :=
  match error with
  | ErrorInstance m => m
  | NonError => "undefined"
  end.
End Eff.

(* ================================================================== *)
(** ** FilebaseService: uploads to the S3 gateway *)
(* ================================================================== *)

Module Filebase.
Import Chain Eff.

(** What [s3Client.send] does: it resolves, or it rejects with an Error
    object (a service exception or a network error of the AWS client),
    of which the message is kept. *)
Inductive S3Reply (A : Type) :=
| Rejected (message : string)
| Resolved (a : A).
Arguments Rejected {A} message.
Arguments Resolved {A} a.

Record PutObjectOutput := mkPutOutput { put_ETag : option JsString }.

(** [Metadata] is an object used as a map from header names to values. *)
Record HeadObjectOutput := mkHeadOutput
  { head_Metadata : option (list (JsString * JsString));
    head_ETag : option JsString }.

(** The metadata document of [uploadMetadata]; its one attribute has
    trait_type "symbol". *)
Record Document := mkDocument
  { doc_name : JsString;
    doc_symbol : JsString;
    doc_description : JsString;
    doc_image : JsString;
    doc_external_url : JsString;
    doc_attribute_symbol : JsString }.

(** The body of an upload: the bytes of a file, or
    [Buffer.from(JSON.stringify(metadata, null, 2))]. *)
Inductive Body :=
| Bytes (content : list Z)
| Json (document : Document).

(** The calls to the outside world, with their answers. *)
Inductive Event :=
| Now (ms : N)
| Random (text : JsString)
| PutObject (key : JsString) (body : Body) (contentType filename : JsString)
            (r : S3Reply PutObjectOutput)
| HeadObject (key : JsString) (r : S3Reply HeadObjectOutput).

(** Newest event first. *)
Definition Trace := list Event.

(** The clock ([Date.now()]), the text of a random number
    ([Math.random().toString(36)]) and the S3 client. *)
Record World := mkWorld
  { world_now : Trace -> N;
    world_random : Trace -> JsString;
    world_put : Trace -> JsString -> Body -> JsString -> JsString
                -> S3Reply PutObjectOutput;
    world_head : Trace -> JsString -> S3Reply HeadObjectOutput }.

Definition F (A : Type) := @Eff.M Event A.

(** [await s3Client.send(command)] *)
Definition send {A} (answer : Trace -> S3Reply A) (ev : S3Reply A -> Event) : F A :=
  fun tr =>
    let r := answer tr in
    (match r with
     | Rejected m => Throw (ErrorInstance m)
     | Resolved a => Ok a
     end, ev r :: tr).

(** *** Strings *)

(** A digit in a radix up to 36: 0-9, then a-z. *)
Definition digit (d : Z) : Z := if d <? 10 then 48 + d else 87 + d.

Fixpoint to_radix_rev (fuel : nat) (radix n : Z) : list Z :=
  match fuel with
  | O => []
  | S fuel' =>
      if n <? radix then [digit n]
      else digit (n mod radix) :: to_radix_rev fuel' radix (n / radix)
  end.

(** [n.toString(radix)] for a non-negative integer. *)
Definition toString (radix : Z) (n : N) : JsString :=
  rev (to_radix_rev (S (N.to_nat (N.log2 n))) radix (Z.of_N n)).

(** [s.substring(from, to)] for [from <= to]. *)
Definition substring (from to : nat) (s : JsString) : JsString :=
  firstn (to - from) (skipn from s).

(** [filename.split('.').pop()]: what follows the last dot, and the whole
    name when it has no dot. *)
Fixpoint last_segment (s : JsString) : JsString :=
  match s with
  | [] => []
  | c :: s' =>
      if existsb (Z.eqb 46) s' then last_segment s'
      else if c =? 46 then s' else c :: s'
  end.

(** [a || b] on strings that may be undefined. *)
Definition or_opt (a b : option JsString) : option JsString :=
  match a with
  | Some s => if truthy s then a else b
  | None => b
  end.

(** [Metadata?.[key]] *)
Definition lookup (metadata : option (list (JsString * JsString)))
    (key : JsString) : option JsString :=
  match metadata with
  | Some entries =>
      match find (fun kv => Launchlab.jsstring_eqb (fst kv) key) entries with
      | Some kv => Some (snd kv)
      | None => None
      end
  | None => None
  end.

(** [etag.replace] with the pattern of one double quote, globally:
    every double quote is removed. *)
Definition strip_quotes (s : JsString) : JsString :=
  filter (fun c => negb (c =? 34)) s.

Definition filebaseGateway : JsString :=
  lit "https://agricultural-gray-ocelot.myfilebase.com/ipfs".

(** [`file-${Date.now()}-${Math.random().toString(36).substring(2, 8)}.${fileExt}`] *)
Definition object_key (ms : N) (random : JsString) (filename : JsString) : JsString :=
  let fileExt := or_default (Some (last_segment filename)) [] in
  (lit "file-" ++ toString 10 ms ++ lit "-" ++ substring 2 8 random
   ++ lit "." ++ fileExt)%list.

(** Lines 2016-2022: the content identifier from the metadata of the
    object, else its ETag without the quotes, else the object key. *)
Definition finalHash (headResponse : HeadObjectOutput) (key : JsString) : JsString :=
  let metadata := head_Metadata headResponse in
  let ipfsHashFromMetadata :=
    or_opt (lookup metadata (lit "cid"))
      (or_opt (lookup metadata (lit "ipfs-hash"))
         (or_opt (lookup metadata (lit "x-amz-meta-cid"))
                 (lookup metadata (lit "ipfs-pin-status")))) in
  or_default
    (or_opt ipfsHashFromMetadata
       (match head_ETag headResponse with
        | Some etag => Some (strip_quotes etag)
        | None => None
        end))
    key.

Section FilebaseService.

Variable world : World.

Definition Date_now : F N :=
  fun tr => let ms := world_now world tr in (Ok ms, Now ms :: tr).

Definition Math_random_toString36 : F JsString :=
  fun tr => let text := world_random world tr in (Ok text, Random text :: tr).

Definition uploadToFilebase (content : Body) (filename contentType : JsString)
  : F JsString :=
  try_catch
    (bind Date_now (fun ms =>
     bind Math_random_toString36 (fun random =>
     let key := object_key ms random filename in
     bind (send (fun tr => world_put world tr key content contentType filename)
                (PutObject key content contentType filename)) (fun response =>
     if negb (truthy_opt (put_ETag response))
     then throwError "Invalid response from Filebase S3: Missing ETag"
     else
       bind (send (fun tr => world_head world tr key) (HeadObject key))
            (fun headResponse =>
       let finalHash := finalHash headResponse key in
       ret (filebaseGateway ++ lit "/" ++ finalHash)%list)))))
    (fun error =>
       throwError ("Failed to upload to Filebase S3: " ++ message_of error)%string).

(** Lines 2092-2119: the metadata document and its upload, once
    [imageUrl] is known. *)
Definition uploadMetadata_document (req : Pumpfun.TokenCreationRequest)
    (imageUrl : JsString) : F UploadResult :=
  let metadata :=
    mkDocument (Pumpfun.name req) (Pumpfun.symbol req)
      (or_default (Pumpfun.description req)
                  (Pumpfun.name req ++ lit " token"))
      (if truthy imageUrl then imageUrl
       else or_default (Pumpfun.external_url req) [])
      (or_default (Pumpfun.external_url req) [])
      (Pumpfun.symbol req) in
  bind Date_now (fun ms =>
  bind Math_random_toString36 (fun random =>
  let metadataId := toString 36 ms ++ substring 2 8 random in
  let metadataPath := lit "metadata-" ++ metadataId ++ lit ".json" in
  bind (uploadToFilebase (Json metadata) metadataPath (lit "application/json"))
       (fun uri =>
  ret (mkUploadResult uri imageUrl)))).

Definition uploadMetadata (req : Pumpfun.TokenCreationRequest) : F UploadResult :=
  bind
    (match Pumpfun.imageBuffer req, Pumpfun.imageFileName req with
     | Some imageBuffer, Some imageFileName =>
         if truthy imageFileName
         then
           bind Date_now (fun ms =>
           let imagePath :=
             lit "images/" ++ toString 10 ms ++ lit "-" ++ imageFileName in
           uploadToFilebase (Bytes imageBuffer) imagePath (lit "image/jpeg"))
         else ret []
     | _, _ => ret []
     end)
    (uploadMetadata_document req).

End FilebaseService.

(** *** Reading a trace *)

(** The bodies uploaded, oldest first, each with its content type. *)
Definition uploads (tr : Trace) : list (Body * JsString) :=
  rev (flat_map (fun e =>
                   match e with
                   | PutObject _ body contentType _ _ => [(body, contentType)]
                   | _ => []
                   end) tr).

(** The S3 requests of the trace, oldest first: [(true, key, resolved)]
    for a PutObject and [(false, key, resolved)] for a HeadObject. *)
Definition requests (tr : Trace) : list (bool * JsString * bool) :=
  rev (flat_map (fun e =>
                   match e with
                   | PutObject key _ _ _ (Resolved _) => [(true, key, true)]
                   | PutObject key _ _ _ (Rejected _) => [(true, key, false)]
                   | HeadObject key (Resolved _) => [(false, key, true)]
                   | HeadObject key (Rejected _) => [(false, key, false)]
                   | _ => []
                   end) tr).

(** The image [uploadMetadata] takes from a request: a buffer that comes
    with a non-empty file name. *)
Definition image_of (req : Pumpfun.TokenCreationRequest) : option (list Z) :=
  match Pumpfun.imageBuffer req, Pumpfun.imageFileName req with
  | Some imageBuffer, Some imageFileName =>
      if truthy imageFileName then Some imageBuffer else None
  | _, _ => None
  end.

Definition image_upload (req : Pumpfun.TokenCreationRequest)
  : list (Body * JsString) :=
  match image_of req with
  | Some imageBuffer => [(Bytes imageBuffer, lit "image/jpeg")]
  | None => []
  end.

(** The metadata document for a request and the address of its image,
    empty when none was uploaded. *)
Definition document_for (req : Pumpfun.TokenCreationRequest) (imageUrl : JsString)
  : Document :=
  mkDocument (Pumpfun.name req) (Pumpfun.symbol req)
    (or_default (Pumpfun.description req) (Pumpfun.name req ++ lit " token"))
    (if truthy imageUrl then imageUrl
     else or_default (Pumpfun.external_url req) [])
    (or_default (Pumpfun.external_url req) [])
    (Pumpfun.symbol req).

(** A world in which every request resolves; the object has the given
    metadata and no ETag of its own. *)
Definition calm (metadata : option (list (JsString * JsString))) : World :=
  mkWorld (fun _ => 1700000000000%N)
          (fun _ => lit "0.4fzyo82mvyr")
          (fun _ _ _ _ _ => Resolved (mkPutOutput (Some (lit "etag"))))
          (fun _ _ => Resolved (mkHeadOutput metadata None)).

End Filebase.

(* ================================================================== *)
(** ** PinataService: uploads to the pinning service *)
(* ================================================================== *)

Module Pinata.
Import Chain Eff.

(** The request, with the fields [uploadMetadata(req: any)] reads;
    [creatorKeypair] is a string, as [getCreatorKeypair] declares it. *)
Record Request := mkRequest
  { imageBuffer : option (list Z);
    imageFileName : option JsString;
    owner : option JsString;
    creatorKeypair : JsString;
    name : option JsString;
    symbol : option JsString;
    description : option JsString;
    external_url : option JsString;
    attributes : option (list (JsString * JsString)) }.

(** The metadata object; [properties.files] has the one entry
    [{ uri: imageUrl, type: "image/jpeg" }], [properties.creators] the
    one entry [{ address, share: 100 }]. *)
Record Document := mkDocument
  { doc_name : JsString;
    doc_symbol : JsString;
    doc_description : JsString;
    doc_image : JsString;
    doc_external_url : JsString;
    doc_attributes : list (JsString * JsString);
    doc_file_uri : JsString;
    doc_creator_address : JsString }.

(** What [axios.post] to the pinning service does: it rejects, with
    [error.response?.data?.error?.details] set or not, or it resolves
    with a body whose [IpfsHash] is set or not. *)
Inductive PinReply :=
| PinRejected (details : option string)
| Pinned (IpfsHash : option JsString).

Inductive Event :=
| PinFile (file : list Z) (filename : JsString) (r : PinReply)
| PinJSON (name : JsString) (content : Document) (r : PinReply).

Definition Trace := list Event.

Record World := mkWorld
  { world_pinFile : Trace -> list Z -> JsString -> PinReply;
    world_pinJSON : Trace -> JsString -> Document -> PinReply }.

(** The text of a value that may be undefined, in a template literal. *)
Definition text (s : option JsString) : JsString :=
  match s with Some u => u | None => lit "undefined" end.

(** [s?.slice(0, n)] *)
Definition slice (s : option JsString) (n : nat) : option JsString :=
  match s with Some u => Some (firstn n u) | None => None end.

Definition is_null {A} (o : option A) : bool :=
  match o with None => true | Some _ => false end.

Section PinataService.

Variable sdk : Sdk.
Variable world : World.

(** [process.env.PINATA_GATEWAY || 'https://gateway.pinata.cloud/ipfs'] *)
Variable pinataGateway : JsString.

(** [pinToIPFS]: the response body, or an Error made of the details of
    the rejection. *)
Definition pinToIPFS (answer : Trace -> PinReply) (ev : PinReply -> Event)
  : @M Event (option JsString) :=
  fun tr =>
    let r := answer tr in
    (match r with
     | PinRejected details =>
         Throw (ErrorInstance
                  (match details with
                   | Some d => if String.eqb d "" then "Failed to upload to Pinata"
                               else d
                   | None => "Failed to upload to Pinata"
                   end))
     | Pinned IpfsHash => Ok IpfsHash
     end, ev r :: tr).

(** Lines 28-34, the same method as [TokenService.getCreatorKeypair]. *)
Definition getCreatorKeypair (secretKeyBase58 : JsString) : Outcome Keypair :=
  match bs58_decode sdk secretKeyBase58 with
  | Throw e => Throw e
  | Ok secretKey =>
      if negb (length secretKey =? 64)%nat
      then Throw (ErrorInstance "Invalid creatorKeypair: must be 64 bytes")
      else Keypair_fromSecretKey sdk secretKey
  end.

Definition uploadMetadata (req : Request) : @M Event UploadResult :=
  match imageBuffer req, imageFileName req with
  | Some buffer, Some fileName =>
      if negb (truthy fileName)
      then throwError "Image buffer and filename are required for metadata upload"
      else
        try_catch
          (bind (pinToIPFS (fun tr => world_pinFile world tr buffer fileName)
                           (PinFile buffer fileName)) (fun imageUpload =>
           let imageUrl := pinataGateway ++ lit "/" ++ text imageUpload in
           bind (lift
                   (if truthy_opt (owner req)
                    then Ok (or_default (owner req) [])
                    else match getCreatorKeypair (creatorKeypair req) with
                         | Ok creatorKeypair =>
                             Ok (toBase58 sdk (publicKey creatorKeypair))
                         | Throw e => Throw e
                         end)) (fun address =>
           let metadata :=
             mkDocument
               (or_default (slice (name req) 32) (lit "Unnamed Token"))
               (or_default (slice (symbol req) 8) (lit "TOKEN"))
               (or_default (description req) (lit "A Pump.fun token"))
               imageUrl
               (or_default (external_url req) [])
               (match attributes req with Some a => a | None => [] end)
               imageUrl
               address in
           let metadataName :=
             or_default (name req) (lit "token") ++ lit "-metadata.json" in
           bind (pinToIPFS (fun tr => world_pinJSON world tr metadataName metadata)
                           (PinJSON metadataName metadata)) (fun metadataUpload =>
           let uri := pinataGateway ++ lit "/" ++ text metadataUpload in
           ret (mkUploadResult uri imageUrl)))))
          (fun error =>
             throwError ("Failed to upload metadata: " ++ message_of error)%string)
  | _, _ =>
      throwError "Image buffer and filename are required for metadata upload"
  end.

End PinataService.

(** The request comes with an image: a buffer and a non-empty name. *)
Definition has_image (req : Request) : bool :=
  negb (is_null (imageBuffer req)) && truthy_opt (imageFileName req).

(** A request with an image and a creator key that does not decode to 64
    bytes. *)
Definition request_bad_key : Request :=
  mkRequest (Some [1; 2; 3]) (Some (lit "t.png")) None (lit "short")
    (Some (lit "Test")) (Some (lit "TST")) None None None.

Definition sdk_short_key : Sdk :=
  mkSdk (fun _ => Ok (repeat 1 10))
        (fun sk => Ok (mkKeypair (mkPublicKey (firstn 32 sk)) sk))
        (fun _ => Samples.key 3)
        (fun _ => Ok (Samples.key 4))
        (fun pk => toBuffer pk)
        (fun _ _ => Samples.key 5)
        Samples.configId
        (fun _ => Ok tt)
        (fun _ => Ok tt).

Definition pins_everything : World :=
  mkWorld (fun _ _ _ => Pinned (Some (lit "QmImage")))
          (fun _ _ _ => Pinned (Some (lit "QmMeta"))).

End Pinata.

(* ================================================================== *)
(** ** TokenService.storeTokenData, column by column *)
(* ================================================================== *)

Module Records.
Import Chain Eff.

(** The argument of [storeTokenData]. *)
Record TokenData := mkTokenData
  { name : JsString;
    symbol : JsString;
    creatorKeypair : JsString;
    buyAmount : option JsNumber;
    tokenMint : JsString;
    uri : JsString;
    image : option JsString;
    description : option JsString;
    bondingCurveAddress : JsString;
    associatedBondingCurveAddress : JsString;
    signature : Signature;
    extensions : option (list (JsString * JsString));
    mayhemMode : option bool }.

(** A row of [PumpfunTokens], without the two market caps (null) and the
    two dates. *)
Record Row := mkRow
  { row_tokenMint : JsString;
    row_tokenName : JsString;
    row_tokenSymbol : JsString;
    row_creatorAddress : JsString;
    row_metadataUri : JsString;
    row_imageUri : option JsString;
    row_description : option JsString;
    row_socialMedia : option (list (JsString * JsString));
    row_initialSupply : Z;
    row_currentSupply : Z;
    row_bondingCurveAddress : JsString;
    row_associatedBondingCurveAddress : JsString;
    row_signature : Signature;
    row_status : string;
    row_initialBuyAmount : option Z;
    row_mayhemMode : bool }.

Inductive Event :=
| Create (row : Row) (r : Outcome unit).

Definition Trace := list Event.

(** [Number.isFinite] *)
Definition isFinite (n : JsNumber) : bool :=
  match n with Finite _ => true | _ => false end.

(** [Math.floor] of a number that is finite. *)
Definition floor (n : JsNumber) : Z :=
  match n with Finite q => Qfloor q | _ => 0 end.

(** The text of a number that is not finite, in a template literal. *)
Definition text (n : JsNumber) : string :=
  match n with
  | NaN => "NaN"
  | Infinity false => "Infinity"
  | Infinity true => "-Infinity"
  | Finite _ => ""
  end.

Section StoreTokenData.

Variable sdk : Sdk.
Variable create : Trace -> Row -> Outcome unit.

Definition PumpfunTokens_create (row : Row) : @M Event unit :=
  fun tr => let r := create tr row in (r, Create row r :: tr).

Definition storeTokenData (data : TokenData) : @M Event unit :=
  try_catch
    (let STANDARD_INITIAL_SUPPLY := 1000000000 in
     let buyAmountNum :=
       match buyAmount data with
       | Some n => if num_truthy n then Some n else None
       | None => None
       end in
     if match buyAmountNum with
        | Some n => negb (isFinite n)
        | None => false
        end
     then throwError ("buyAmount must be a valid number, got "
                      ++ match buyAmount data with
                         | Some n => text n
                         | None => ""
                         end)%string
     else
       let initialBuyAmount :=
         match buyAmountNum with
         | Some n => Some (floor n)
         | None => None
         end in
       bind (lift (Pumpfun.getCreatorKeypair sdk (creatorKeypair data)))
            (fun creator =>
       PumpfunTokens_create
         (mkRow (tokenMint data) (name data) (symbol data)
                (toBase58 sdk (publicKey creator))
                (uri data)
                (Launchlab.or_null (image data))
                (Launchlab.or_null (description data))
                (extensions data)
                STANDARD_INITIAL_SUPPLY STANDARD_INITIAL_SUPPLY
                (bondingCurveAddress data)
                (associatedBondingCurveAddress data)
                (signature data)
                "bonding"
                initialBuyAmount
                (match mayhemMode data with Some b => b | None => false end))))
    (fun error =>
       throwError ("Failed to store token data: "
                   ++ message_or error "Unknown error")%string).

End StoreTokenData.

(** What is stored for a buy amount: nothing for none, zero or NaN, and
    else the amount rounded down. *)
Definition stored_amount (amount : option JsNumber) : option Z :=
  match amount with
  | Some (Finite q) => if Qeq_bool q 0 then None else Some (Qfloor q)
  | _ => None
  end.

(** A buy amount [storeTokenData] refuses. *)
Definition refused_amount (amount : option JsNumber) : bool :=
  match amount with Some (Infinity _) => true | _ => false end.

Definition half_a_unit : TokenData :=
  mkTokenData (lit "Test") (lit "TST") (lit "secret") (Some (Finite (1 # 2)))
    (lit "mint") (lit "https://ipfs/meta") None None (lit "curve")
    (lit "associated") "sig"%string None None.

End Records.

(* ================================================================== *)
(** * Properties *)
(* ================================================================== *)

Import Buf Chain Observe.

(* ------------------------------------------------------------------ *)
(** ** Buffer writes *)
(* ------------------------------------------------------------------ *)

Section BufferWrites.

Lemma length_blit (buf : Buffer) (off : nat) (w : list Z) :
  (off + length w <= length buf)%nat -> length (blit buf off w) = length buf.
Proof.
  intros H. unfold blit.
  rewrite !length_app, length_firstn, length_skipn. lia.
Qed.

(** Writing over zeros right after a prefix extends the prefix. *)
Lemma blit_zeros (p w : list Z) (off n k : nat) :
  off = length p -> n = (length w + k)%nat ->
  blit (p ++ repeat 0 n) off w = (p ++ w) ++ repeat 0 k.
Proof.
  intros -> ->. unfold blit.
  rewrite firstn_app, firstn_all, Nat.sub_diag, firstn_O, app_nil_r.
  rewrite skipn_app.
  rewrite (skipn_all2 p) by lia.
  replace (length p + length w - length p)%nat with (length w) by lia.
  rewrite repeat_app, skipn_app, repeat_length, Nat.sub_diag, skipn_O.
  rewrite skipn_all2 by (rewrite repeat_length; lia).
  now rewrite <- app_assoc.
Qed.

Lemma writeUInt8_zeros (p : list Z) (v : Z) (off n k : nat) :
  off = length p -> n = S k -> 0 <= v <= 255 ->
  writeUInt8 (p ++ repeat 0 n) v off = Some ((p ++ [v]) ++ repeat 0 k).
Proof.
  intros Hoff Hn Hv. unfold writeUInt8.
  replace ((0 <=? v) && (v <=? 255)) with true by (symmetry; apply andb_true_iff; lia).
  replace (off + 1 <=? length (p ++ repeat 0%Z n))%nat with true.
  - cbn [andb]. f_equal. apply blit_zeros; [assumption | cbn [length]; lia].
  - symmetry. apply Nat.leb_le. rewrite length_app, repeat_length. lia.
Qed.

Lemma writeUInt32LE_zeros (p : list Z) (v : Z) (off n k : nat) :
  off = length p -> n = (4 + k)%nat -> 0 <= v < 4294967296 ->
  writeUInt32LE (p ++ repeat 0 n) v off = Some ((p ++ le32 v) ++ repeat 0 k).
Proof.
  intros Hoff Hn Hv. unfold writeUInt32LE.
  replace ((0 <=? v) && (v <=? 4294967295)) with true
    by (symmetry; apply andb_true_iff; lia).
  replace (off + 4 <=? length (p ++ repeat 0%Z n))%nat with true.
  - cbn [andb]. f_equal. apply blit_zeros; [assumption | cbn [length le32]; lia].
  - symmetry. apply Nat.leb_le. rewrite length_app, repeat_length. lia.
Qed.

(** An ASCII string is its own UTF-8 encoding, one byte a character. *)
Lemma utf8_chars_ascii (s : JsString) :
  Forall is_ascii s -> utf8_chars s = map (fun c => [c]) s.
Proof.
  induction 1 as [| c s Hc _ IH]; [reflexivity |].
  unfold is_ascii in Hc. cbn [utf8_chars map].
  unfold is_high_surrogate, is_low_surrogate, utf8_of_code_point.
  replace (55296 <=? c) with false by (symmetry; apply Z.leb_gt; lia).
  replace (56320 <=? c) with false by (symmetry; apply Z.leb_gt; lia).
  replace (c <? 128) with true by (symmetry; apply Z.ltb_lt; lia).
  cbn [andb]. now rewrite IH.
Qed.

Lemma utf8_ascii (s : JsString) : Forall is_ascii s -> utf8 s = s.
Proof.
  intros H. unfold utf8. rewrite (utf8_chars_ascii s H).
  clear H. induction s as [| c s IH]; [reflexivity |].
  cbn [map concat app]. now rewrite IH.
Qed.

Lemma take_fitting_singletons (s : list Z) (capacity : nat) :
  (length s <= capacity)%nat ->
  take_fitting (map (fun c => [c]) s) capacity = s.
Proof.
  revert capacity. induction s as [| c s IH]; intros capacity H; [reflexivity |].
  cbn [length] in H. cbn [map take_fitting length].
  replace (1 <=? capacity)%nat with true by (symmetry; apply Nat.leb_le; lia).
  cbn [app]. f_equal. apply IH. lia.
Qed.

Lemma length_take_fitting (chars : list (list Z)) (capacity : nat) :
  (length (take_fitting chars capacity) <= capacity)%nat.
Proof.
  revert capacity. induction chars as [| ch rest IH]; intros capacity.
  - cbn. lia.
  - cbn [take_fitting]. destruct (length ch <=? capacity)%nat eqn:E.
    + apply Nat.leb_le in E. rewrite length_app.
      specialize (IH (capacity - length ch)%nat). lia.
    + cbn. lia.
Qed.

Lemma write_utf8_zeros (p : list Z) (s : JsString) (off n k : nat) :
  off = length p -> n = (length s + k)%nat -> Forall is_ascii s ->
  write_utf8 (p ++ repeat 0 n) s off = Some ((p ++ s) ++ repeat 0 k).
Proof.
  intros Hoff Hn Hs. unfold write_utf8.
  assert (Hlen : length (p ++ repeat 0 n) = (off + n)%nat)
    by (rewrite length_app, repeat_length; lia).
  rewrite Hlen.
  replace (off <=? off + n)%nat with true by (symmetry; apply Nat.leb_le; lia).
  rewrite (utf8_chars_ascii s Hs), take_fitting_singletons by lia.
  f_equal. now apply blit_zeros.
Qed.

Lemma write_hex_of_zeros (p bytes : list Z) (off n k : nat) :
  off = length p -> n = (length bytes + k)%nat ->
  write_hex_of (p ++ repeat 0 n) bytes off = Some ((p ++ bytes) ++ repeat 0 k).
Proof.
  intros Hoff Hn. unfold write_hex_of.
  assert (Hlen : length (p ++ repeat 0 n) = (off + n)%nat)
    by (rewrite length_app, repeat_length; lia).
  rewrite Hlen.
  replace (off <=? off + n)%nat with true by (symmetry; apply Nat.leb_le; lia).
  rewrite firstn_all2 by lia.
  f_equal. now apply blit_zeros.
Qed.

(** The writes succeed within bounds and keep the length. *)
Lemma writeUInt8_length (buf : Buffer) (v : Z) (off : nat) :
  0 <= v <= 255 -> (off + 1 <= length buf)%nat ->
  exists buf', writeUInt8 buf v off = Some buf' /\ length buf' = length buf.
Proof.
  intros Hv Hoff. unfold writeUInt8.
  replace ((0 <=? v) && (v <=? 255)) with true by (symmetry; apply andb_true_iff; lia).
  replace (off + 1 <=? length buf)%nat with true by (symmetry; apply Nat.leb_le; lia).
  eexists; split; [reflexivity |]. apply length_blit. cbn [length]. lia.
Qed.

Lemma writeUInt32LE_length (buf : Buffer) (v : Z) (off : nat) :
  0 <= v < 4294967296 -> (off + 4 <= length buf)%nat ->
  exists buf', writeUInt32LE buf v off = Some buf' /\ length buf' = length buf.
Proof.
  intros Hv Hoff. unfold writeUInt32LE.
  replace ((0 <=? v) && (v <=? 4294967295)) with true
    by (symmetry; apply andb_true_iff; lia).
  replace (off + 4 <=? length buf)%nat with true by (symmetry; apply Nat.leb_le; lia).
  eexists; split; [reflexivity |]. apply length_blit. cbn [length le32]. lia.
Qed.

Lemma write_utf8_length (buf : Buffer) (s : JsString) (off : nat) :
  (off <= length buf)%nat ->
  exists buf', write_utf8 buf s off = Some buf' /\ length buf' = length buf.
Proof.
  intros Hoff. unfold write_utf8.
  replace (off <=? length buf)%nat with true by (symmetry; apply Nat.leb_le; lia).
  eexists; split; [reflexivity |]. apply length_blit.
  pose proof (length_take_fitting (utf8_chars s) (length buf - off)). lia.
Qed.

Lemma write_hex_of_length (buf : Buffer) (bytes : list Z) (off : nat) :
  (off <= length buf)%nat ->
  exists buf', write_hex_of buf bytes off = Some buf' /\ length buf' = length buf.
Proof.
  intros Hoff. unfold write_hex_of.
  replace (off <=? length buf)%nat with true by (symmetry; apply Nat.leb_le; lia).
  eexists; split; [reflexivity |]. apply length_blit.
  rewrite length_firstn. lia.
Qed.

Lemma write_bytes_zeros (bs p : list Z) (n k : nat) :
  n = (length bs + k)%nat -> Forall (fun b => 0 <= b <= 255) bs ->
  fold_left
    (fun st b =>
       obind st (fun st' =>
       obind (writeUInt8 (fst st') b (snd st')) (fun data' =>
       Some (data', S (snd st')))))
    bs (Some (p ++ repeat 0 n, length p))
  = Some ((p ++ bs) ++ repeat 0 k, (length p + length bs)%nat).
Proof.
  revert p n. induction bs as [| b bs IH]; intros p n Hn Hbs.
  - cbn in *. subst n. now rewrite app_nil_r, Nat.add_0_r.
  - inversion Hbs as [| ? ? Hb Hbs']; subst.
    cbn [fold_left obind fst snd].
    rewrite (writeUInt8_zeros p b (length p) _ (length bs + k))
      by (cbn [length]; lia).
    cbn [obind].
    replace (S (length p)) with (length (p ++ [b]))
      by (rewrite length_app; cbn; lia).
    etransitivity; [apply (IH (p ++ [b]) _ eq_refl Hbs') |].
    rewrite <- (app_assoc p [b] bs). cbn [app length].
    rewrite length_app. cbn [length]. f_equal. f_equal. lia.
Qed.

Lemma write_discriminator_zeros (n k : nat) :
  n = (8 + k)%nat ->
  Pumpfun.write_discriminator (alloc n) 0 =
  Some (Pumpfun.discriminator ++ repeat 0 k, 8%nat).
Proof.
  intros Hn. unfold Pumpfun.write_discriminator, alloc.
  apply (write_bytes_zeros Pumpfun.discriminator [] n k).
  - cbn. lia.
  - unfold Pumpfun.discriminator. repeat constructor; lia.
Qed.

End BufferWrites.

(* ------------------------------------------------------------------ *)
(** ** The instruction data of createPumpFunInstruction *)
(* ------------------------------------------------------------------ *)

Section InstructionData.
Import Pumpfun.

Lemma length_le32 (v : Z) : length (le32 v) = 4%nat.
Proof. reflexivity. Qed.

Lemma length_discriminator : length discriminator = 8%nat.
Proof. reflexivity. Qed.

Lemma mayhem_byte_range (req : TokenCreationRequest) : 0 <= mayhem_byte req <= 255.
Proof. unfold mayhem_byte. destruct (mayhemMode req) as [[|] |]; lia. Qed.

Ltac len :=
  rewrite ?length_app, ?length_le32, ?length_discriminator; cbn [length]; lia.

(** For ASCII strings every field lands where the layout says. *)
Lemma createPumpFunInstruction_data_ascii
    (creatorKeypair : Keypair) (req : TokenCreationRequest) :
  js_length_ok (name req) -> js_length_ok (symbol req) ->
  js_length_ok (or_default (uri req) []) ->
  Forall is_ascii (name req) -> Forall is_ascii (symbol req) ->
  Forall is_ascii (or_default (uri req) []) ->
  length (toBuffer (publicKey creatorKeypair)) = 32%nat ->
  createPumpFunInstruction_data creatorKeypair req
  = Some (claimed_layout creatorKeypair req).
Proof.
  unfold js_length_ok. intros Ln Ls Lu An As Au Lk.
  unfold createPumpFunInstruction_data, claimed_layout.
  rewrite (utf8_ascii _ An), (utf8_ascii _ As), (utf8_ascii _ Au).
  fold (mayhem_byte req).
  set (nm := name req) in *. set (sy := symbol req) in *.
  set (u := or_default (uri req) []) in *.
  set (pk := toBuffer (publicKey creatorKeypair)) in *.
  cbv zeta.
  rewrite (write_discriminator_zeros _ (45 + length nm + length sy + length u))
    by lia.
  cbn [obind fst snd].
  rewrite (writeUInt32LE_zeros discriminator _ _ _
             (41 + length nm + length sy + length u)); [| len | lia | lia].
  cbn [obind].
  rewrite (write_utf8_zeros _ nm _ _ (41 + length sy + length u));
    [| len | lia | assumption].
  cbn [obind].
  rewrite (writeUInt32LE_zeros _ _ _ _ (37 + length sy + length u));
    [| len | lia | lia].
  cbn [obind].
  rewrite (write_utf8_zeros _ sy _ _ (37 + length u)); [| len | lia | assumption].
  cbn [obind].
  rewrite (writeUInt32LE_zeros _ _ _ _ (33 + length u)); [| len | lia | lia].
  cbn [obind].
  rewrite (write_utf8_zeros _ u _ _ 33); [| len | lia | assumption].
  cbn [obind].
  rewrite (write_hex_of_zeros _ pk _ _ 1); [| len | lia].
  cbn [obind].
  rewrite (writeUInt8_zeros _ (mayhem_byte req) _ _ 0);
    [| len | reflexivity | apply mayhem_byte_range].
  cbn [obind repeat]. rewrite app_nil_r, <- !app_assoc. reflexivity.
Qed.

Lemma length_claimed_layout_ascii
    (creatorKeypair : Keypair) (req : TokenCreationRequest) :
  Forall is_ascii (name req) -> Forall is_ascii (symbol req) ->
  Forall is_ascii (or_default (uri req) []) ->
  length (toBuffer (publicKey creatorKeypair)) = 32%nat ->
  length (claimed_layout creatorKeypair req) = claimed_size req.
Proof.
  intros An As Au Lk. unfold claimed_layout, claimed_size.
  rewrite (utf8_ascii _ An), (utf8_ascii _ As), (utf8_ascii _ Au).
  rewrite !length_app, !length_le32, length_discriminator, Lk. cbn [length]. lia.
Qed.

(** Whatever the characters, the buffer is built and has the size that
    was allocated. *)
Lemma createPumpFunInstruction_data_length
    (creatorKeypair : Keypair) (req : TokenCreationRequest) :
  js_length_ok (name req) -> js_length_ok (symbol req) ->
  js_length_ok (or_default (uri req) []) ->
  exists data,
    createPumpFunInstruction_data creatorKeypair req = Some data
    /\ length data = claimed_size req.
Proof.
  unfold js_length_ok. intros Ln Ls Lu.
  unfold createPumpFunInstruction_data, claimed_size.
  set (nm := name req) in *. set (sy := symbol req) in *.
  set (u := or_default (uri req) []) in *.
  cbv zeta.
  rewrite (write_discriminator_zeros _ (45 + length nm + length sy + length u))
    by lia.
  cbn [obind fst snd].
  set (b0 := discriminator ++ repeat 0 (45 + length nm + length sy + length u)).
  assert (L0 : length b0 = (53 + length nm + length sy + length u)%nat)
    by (unfold b0; rewrite length_app, repeat_length, length_discriminator; lia).
  destruct (writeUInt32LE_length b0 (Z.of_nat (length nm)) 8) as (b1 & E1 & L1);
    [lia | lia |]. rewrite E1. cbn [obind].
  destruct (write_utf8_length b1 nm (8 + 4)) as (b2 & E2 & L2); [lia |].
  rewrite E2. cbn [obind].
  destruct (writeUInt32LE_length b2 (Z.of_nat (length sy)) (8 + 4 + length nm))
    as (b3 & E3 & L3); [lia | lia |]. rewrite E3. cbn [obind].
  destruct (write_utf8_length b3 sy (8 + 4 + length nm + 4)) as (b4 & E4 & L4);
    [lia |]. rewrite E4. cbn [obind].
  destruct (writeUInt32LE_length b4 (Z.of_nat (length u))
              (8 + 4 + length nm + 4 + length sy)) as (b5 & E5 & L5);
    [lia | lia |]. rewrite E5. cbn [obind].
  destruct (write_utf8_length b5 u (8 + 4 + length nm + 4 + length sy + 4))
    as (b6 & E6 & L6); [lia |]. rewrite E6. cbn [obind].
  destruct (write_hex_of_length b6 (toBuffer (publicKey creatorKeypair))
              (8 + 4 + length nm + 4 + length sy + 4 + length u))
    as (b7 & E7 & L7); [lia |]. rewrite E7. cbn [obind].
  fold (mayhem_byte req).
  destruct (writeUInt8_length b7 (mayhem_byte req)
              (8 + 4 + length nm + 4 + length sy + 4 + length u + 32))
    as (b8 & E8 & L8); [apply mayhem_byte_range | lia |].
  rewrite E8. cbn [obind].
  exists b8. split; [reflexivity | lia].
Qed.

(** The buffer built for the name U+00E9, symbol "TST" and uri "u": the
    name field holds 195 alone, the length of the symbol follows. *)
Example createPumpFunInstruction_data_accent :
  createPumpFunInstruction_data Samples.creator Samples.request_accent
  = Some ([214; 144; 76; 236; 95; 139; 49; 180]
          ++ [1; 0; 0; 0] ++ [195]
          ++ [3; 0; 0; 0] ++ [84; 83; 84]
          ++ [1; 0; 0; 0] ++ [117]
          ++ repeat 1 32 ++ [0]).
Proof. vm_compute. reflexivity. Qed.

(** C10 at a failing input: the one-character name U+00E9 has the two
    UTF-8 bytes 195 and 169, but the buffer, sized in code units, has
    one byte for it.  The name field holds 195 alone, an incomplete
    character, and the length of the symbol follows: the length prefix
    is not followed by the name bytes, and the buffer is not laid out as
    discriminator, name, symbol, uri, creator key and flag. *)
Theorem createPumpFunInstruction_data_non_ascii_name :
  utf8 (name Samples.request_accent) = [195; 169]
  /\ createPumpFunInstruction_data Samples.creator Samples.request_accent
     = Some (discriminator
             ++ [1; 0; 0; 0] ++ [195]
             ++ [3; 0; 0; 0] ++ [84; 83; 84]
             ++ [1; 0; 0; 0] ++ [117]
             ++ repeat 1 32 ++ [0])
  /\ ~ laid_out_as_claimed Samples.creator Samples.request_accent.
Proof.
  split; [reflexivity |]. split; [vm_compute; reflexivity |].
  intros (data & _ & Hlen & Hdata).
  rewrite Hdata in Hlen. vm_compute in Hlen. discriminate Hlen.
Qed.

(** Where the code does what its comments say: for every request the
    data buffer has byte length exactly 53 + name.length + symbol.length
    + uri.length (code units); and when name, symbol and uri are ASCII
    it is laid out, in order, as the 8-byte discriminator, name, symbol
    and uri each as a 4-byte little-endian length followed by its bytes,
    the 32-byte creator key, and a final byte that is 1 if mayhemMode is
    set and 0 otherwise. *)
Theorem createPumpFunInstruction_data_layout
    (creatorKeypair : Keypair) (req : TokenCreationRequest) :
  js_length_ok (name req) -> js_length_ok (symbol req) ->
  js_length_ok (or_default (uri req) []) ->
  (exists data,
      createPumpFunInstruction_data creatorKeypair req = Some data
      /\ length data = claimed_size req)
  /\ (Forall is_ascii (name req) -> Forall is_ascii (symbol req) ->
      Forall is_ascii (or_default (uri req) []) ->
      length (toBuffer (publicKey creatorKeypair)) = 32%nat ->
      laid_out_as_claimed creatorKeypair req).
Proof.
  intros Ln Ls Lu. split.
  - now apply createPumpFunInstruction_data_length.
  - intros An As Au Lk. exists (claimed_layout creatorKeypair req).
    split; [now apply createPumpFunInstruction_data_ascii |].
    split; [now apply length_claimed_layout_ascii | reflexivity].
Qed.

Lemma createPumpFunInstruction_data_layout_witness :
  js_length_ok (name Samples.request_with_uri)
  /\ Forall is_ascii (name Samples.request_with_uri)
  /\ laid_out_as_claimed Samples.creator Samples.request_with_uri.
Proof.
  split; [unfold js_length_ok; vm_compute; reflexivity |].
  split; [repeat constructor; unfold is_ascii; lia |].
  apply (createPumpFunInstruction_data_layout
           Samples.creator Samples.request_with_uri).
  - unfold js_length_ok. vm_compute. reflexivity.
  - unfold js_length_ok. vm_compute. reflexivity.
  - unfold js_length_ok. vm_compute. reflexivity.
  - repeat constructor; unfold is_ascii; lia.
  - repeat constructor; unfold is_ascii; lia.
  - repeat constructor; unfold is_ascii; lia.
  - reflexivity.
Defined.

End InstructionData.

(* ------------------------------------------------------------------ *)
(** ** Running the monad *)
(* ------------------------------------------------------------------ *)

Section Running.

Context {A B : Type}.

Lemma bind_ok_inv (m : M A) (k : A -> M B) (tr tr' : Trace) (b : B) :
  bind m k tr = (Ok b, tr') ->
  exists a t, m tr = (Ok a, t) /\ k a t = (Ok b, tr').
Proof.
  unfold bind. destruct (m tr) as [[a | e] t]; intros H.
  - now exists a, t.
  - discriminate H.
Qed.

Lemma bind_ok (m : M A) (k : A -> M B) (tr t : Trace) (a : A) :
  m tr = (Ok a, t) -> bind m k tr = k a t.
Proof. unfold bind. now intros ->. Qed.

Lemma bind_throw (m : M A) (k : A -> M B) (tr t : Trace) (e : Thrown) :
  m tr = (Throw e, t) -> bind m k tr = (Throw e, t).
Proof. unfold bind. now intros ->. Qed.

Lemma try_catch_ok (m : M A) (h : Thrown -> M A) (tr t : Trace) (a : A) :
  m tr = (Ok a, t) -> try_catch m h tr = (Ok a, t).
Proof. unfold try_catch. now intros ->. Qed.

Lemma try_catch_throw (m : M A) (h : Thrown -> M A) (tr t : Trace) (e : Thrown) :
  m tr = (Throw e, t) -> try_catch m h tr = h e t.
Proof. unfold try_catch. now intros ->. Qed.

End Running.

(* ------------------------------------------------------------------ *)
(** ** Validation comes first (C7) *)
(* ------------------------------------------------------------------ *)

Section Validation.

Variable sdk : Sdk.
Variable env : Env.

Lemma validateRequest_too_long (req : Pumpfun.TokenCreationRequest) :
  (32 < length (Pumpfun.name req))%nat \/ (8 < length (Pumpfun.symbol req))%nat ->
  exists msg, In msg pumpfun_length_errors
              /\ Pumpfun.validateRequest req = Throw (ErrorInstance msg).
Proof.
  intros H. unfold Pumpfun.validateRequest, pumpfun_length_errors.
  destruct (negb (truthy (Pumpfun.name req)) || _ || _ || _).
  - eexists; split; [| reflexivity]. cbn; auto.
  - destruct (32 <? length (Pumpfun.name req))%nat eqn:En.
    + eexists; split; [| reflexivity]. cbn; auto.
    + destruct (8 <? length (Pumpfun.symbol req))%nat eqn:Es.
      * eexists; split; [| reflexivity]. cbn; auto.
      * apply Nat.ltb_ge in En, Es. lia.
Qed.

Lemma createBonkTokenTx_validate_too_long (tokenData : Launchlab.LaunchpadRequest) :
  (32 < length (Launchlab.name tokenData))%nat
  \/ (8 < length (Launchlab.symbol tokenData))%nat ->
  exists msg, In msg launchlab_length_errors
              /\ Launchlab.createBonkTokenTx_validate tokenData
                 = Throw (ErrorInstance msg).
Proof.
  intros H. unfold Launchlab.createBonkTokenTx_validate, launchlab_length_errors.
  destruct (negb (truthy (Launchlab.name tokenData)) || _ || _).
  - eexists; split; [| reflexivity]. cbn; auto.
  - destruct (32 <? length (Launchlab.name tokenData))%nat eqn:En.
    + eexists; split; [| reflexivity]. cbn; auto.
    + destruct (8 <? length (Launchlab.symbol tokenData))%nat eqn:Es.
      * eexists; split; [| reflexivity]. cbn; auto.
      * apply Nat.ltb_ge in En, Es. lia.
Qed.

Lemma tokenData_of_name (body : Pumpfun.TokenCreationRequest)
    (file : option Router.File) :
  Pumpfun.name (Router.tokenData_of body file) = Pumpfun.name body
  /\ Pumpfun.symbol (Router.tokenData_of body file) = Pumpfun.symbol body.
Proof. unfold Router.tokenData_of. destruct file; split; reflexivity. Qed.

Lemma create_token_handler_too_long
    (svc : Pumpfun.TokenCreationRequest -> M Pumpfun.CreateResult)
    (body : Pumpfun.TokenCreationRequest) (file : option Router.File) (tr : Trace) :
  (32 < length (Pumpfun.name body))%nat \/ (8 < length (Pumpfun.symbol body))%nat ->
  exists msg, In msg pumpfun_length_errors
              /\ Router.create_token_handler svc body file tr
                 = (Ok (Router.mkResponse 400 (Router.ErrorBody msg)), tr).
Proof.
  intros H. unfold Router.create_token_handler, try_catch, pumpfun_length_errors.
  destruct (tokenData_of_name body file) as [Hn Hs].
  cbv zeta. rewrite Hn, Hs.
  destruct (negb (truthy (Pumpfun.name body)) || _ || _ || _).
  - eexists; split; [| reflexivity]. cbn; auto.
  - destruct (32 <? length (Pumpfun.name body))%nat eqn:En.
    + eexists; split; [| reflexivity]. cbn; auto.
    + destruct (8 <? length (Pumpfun.symbol body))%nat eqn:Es.
      * eexists; split; [| reflexivity]. cbn; auto.
      * apply Nat.ltb_ge in En, Es. lia.
Qed.

(** C7: a request whose name exceeds 32 characters or whose symbol
    exceeds 8 fails with a validation error and the trace is left as it
    was: no RPC, relay, storage or database call is made.  This holds for
    [createPumpFunToken], for [createBonkTokenTx] and for the route.
    Lengths are in UTF-16 code units, as [.length] counts them; a string
    of more than 32 characters has more than 32 code units. *)
Theorem length_validation_before_any_call (tr : Trace) :
  (forall req,
      (32 < length (Pumpfun.name req))%nat
      \/ (8 < length (Pumpfun.symbol req))%nat ->
      exists msg,
        In msg pumpfun_length_errors
        /\ Pumpfun.createPumpFunToken sdk env req tr
           = (Ok (Pumpfun.mkCreateResult false None None None (Some msg)), tr))
  /\ (forall mainKp mintKp tokenData,
      (32 < length (Launchlab.name tokenData))%nat
      \/ (8 < length (Launchlab.symbol tokenData))%nat ->
      exists msg,
        In msg launchlab_length_errors
        /\ Launchlab.createBonkTokenTx sdk env mainKp mintKp tokenData tr
           = (Throw (ErrorInstance msg), tr))
  /\ (forall body file,
      (32 < length (Pumpfun.name body))%nat
      \/ (8 < length (Pumpfun.symbol body))%nat ->
      exists msg,
        In msg pumpfun_length_errors
        /\ Router.post_create_token sdk env body file tr
           = (Ok (Router.mkResponse 400 (Router.ErrorBody msg)), tr)).
Proof.
  split; [| split].
  - intros req H.
    destruct (validateRequest_too_long req H) as (msg & Hin & Hv).
    exists msg. split; [assumption |].
    unfold Pumpfun.createPumpFunToken, try_catch, bind, lift.
    rewrite Hv. reflexivity.
  - intros mainKp mintKp tokenData H.
    destruct (createBonkTokenTx_validate_too_long tokenData H) as (msg & Hin & Hv).
    exists msg. split; [assumption |].
    unfold Launchlab.createBonkTokenTx, try_catch, bind, lift.
    rewrite Hv. reflexivity.
  - intros body file H. now apply create_token_handler_too_long.
Qed.

End Validation.

Lemma length_validation_before_any_call_witness :
  (32 < length (Pumpfun.name Samples.request_long_name))%nat
  /\ exists msg,
       In msg pumpfun_length_errors
       /\ Pumpfun.createPumpFunToken Samples.sdk (Samples.env_of Samples.fair)
            Samples.request_long_name []
          = (Ok (Pumpfun.mkCreateResult false None None None (Some msg)), []).
Proof.
  assert (Hn : (32 < length (Pumpfun.name Samples.request_long_name))%nat)
    by (vm_compute; lia).
  split; [exact Hn |].
  exact (proj1 (length_validation_before_any_call
                  Samples.sdk (Samples.env_of Samples.fair) [])
               Samples.request_long_name (or_introl Hn)).
Defined.

(* ------------------------------------------------------------------ *)
(** ** The route forces mayhemMode (C8) *)
(* ------------------------------------------------------------------ *)

Section Route.

(** C8: whatever [mayhemMode] is in the request body, or if it is absent,
    the request handed to token creation has [mayhemMode = true]: the
    object the route builds carries the flag, and the route behaves the
    same over any service as over that service with the flag forced to
    true. *)
Theorem route_passes_mayhemMode_true
    (body : Pumpfun.TokenCreationRequest) (file : option Router.File) :
  Pumpfun.mayhemMode (Router.tokenData_of body file) = Some true
  /\ (forall svc tr,
        Router.create_token_handler svc body file tr
        = Router.create_token_handler (fun r => svc (force_mayhem r)) body file tr)
  /\ (forall sdk env tr,
        Router.post_create_token sdk env body file tr
        = Router.create_token_handler
            (fun r => Pumpfun.createPumpFunToken sdk env (force_mayhem r))
            body file tr).
Proof.
  assert (Hforce : force_mayhem (Router.tokenData_of body file)
                   = Router.tokenData_of body file)
    by (unfold force_mayhem, Router.tokenData_of; destruct file; reflexivity).
  assert (Hsvc : forall svc tr,
             Router.create_token_handler svc body file tr
             = Router.create_token_handler (fun r => svc (force_mayhem r))
                 body file tr).
  { intros svc tr. unfold Router.create_token_handler. cbv zeta.
    rewrite Hforce. reflexivity. }
  split; [| split].
  - unfold Router.tokenData_of. destruct file; reflexivity.
  - exact Hsvc.
  - intros sdk env tr. unfold Router.post_create_token. apply Hsvc.
Qed.

End Route.

(* ------------------------------------------------------------------ *)
(** ** Account allocation (C5) *)
(* ------------------------------------------------------------------ *)

Section Allocation.

Variable sdk : Sdk.
Variable env : Env.

(** One iteration: the probe is made; the loop returns when all four
    addresses are free, rejects when a query failed, and goes on
    otherwise. *)
Lemma findAvailableAccounts_from_step (n : nat) (tr : Trace) :
  Pumpfun.findAvailableAccounts_from sdk env (S n) tr
  = let p := probe_at sdk env tr in
    let t := probe_events sdk p ++ tr in
    if unoccupied p
    then (Ok (Pumpfun.derive_accounts sdk (probe_mint p)), t)
    else match rejection p with
         | Some e => (Throw e, t)
         | None => Pumpfun.findAvailableAccounts_from sdk env n t
         end.
Proof.
  cbn [Pumpfun.findAvailableAccounts_from].
  unfold probe_at, Pumpfun.Keypair_generate, Pumpfun.getAccountInfo,
    bind, both, call, ret.
  cbv beta iota zeta.
  set (kp := env_generate env tr).
  set (a := Pumpfun.derive_accounts sdk kp).
  destruct (env_getAccountInfo env (KeypairGenerate kp :: tr) (publicKey kp))
    as [[i1 |] | e1];
  match goal with
  | |- context [env_getAccountInfo env ?t (Pumpfun.bondingCurve a)] =>
      destruct (env_getAccountInfo env t (Pumpfun.bondingCurve a))
        as [[i2 |] | e2]
  end;
  match goal with
  | |- context [env_getAccountInfo env ?t (Pumpfun.associatedBondingCurve a)] =>
      destruct (env_getAccountInfo env t (Pumpfun.associatedBondingCurve a))
        as [[i3 |] | e3]
  end;
  match goal with
  | |- context [env_getAccountInfo env ?t (Pumpfun.metadata a)] =>
      destruct (env_getAccountInfo env t (Pumpfun.metadata a))
        as [[i4 |] | e4]
  end;
  reflexivity.
Qed.

Lemma probe_trichotomy (p : Probe) :
  unoccupied p = false -> rejection p = None -> occupied p = true.
Proof.
  destruct p as [kp [[? |] | ?] [[? |] | ?] [[? |] | ?] [[? |] | ?]];
    cbn; intros; congruence.
Qed.

Lemma findAvailableAccounts_from_probes (n : nat) (tr : Trace) :
  exists probes,
    snd (Pumpfun.findAvailableAccounts_from sdk env n tr)
    = flat_map (probe_events sdk) probes ++ tr
    /\ (length probes <= n)%nat
    /\ match probes with
       | [] => n = 0%nat
               /\ fst (Pumpfun.findAvailableAccounts_from sdk env n tr)
                  = Throw (ErrorInstance Pumpfun.allocation_error)
       | newest :: earlier =>
           Forall (fun p => occupied p = true) earlier
           /\ allocation_outcome sdk newest (length probes) n
                (fst (Pumpfun.findAvailableAccounts_from sdk env n tr))
       end.
Proof.
  revert tr. induction n as [| n IH]; intros tr.
  - exists []. cbn. auto.
  - rewrite findAvailableAccounts_from_step. cbv zeta.
    set (p := probe_at sdk env tr).
    destruct (unoccupied p) eqn:Hu; [| destruct (rejection p) as [e |] eqn:Hr].
    + exists [p]. cbn [flat_map snd fst length]. rewrite app_nil_r.
      split; [reflexivity |]. split; [lia |]. split; [constructor |].
      left. auto.
    + exists [p]. cbn [flat_map snd fst length]. rewrite app_nil_r.
      split; [reflexivity |]. split; [lia |]. split; [constructor |].
      right. right. eauto.
    + pose proof (probe_trichotomy p Hu Hr) as Ho.
      destruct (IH (probe_events sdk p ++ tr)) as (probes & Htr & Hlen & Hres).
      exists (probes ++ [p]). split; [| split].
      * rewrite Htr, flat_map_app. cbn [flat_map].
        rewrite app_nil_r, <- app_assoc. reflexivity.
      * rewrite length_app. cbn [length]. lia.
      * destruct probes as [| newest earlier].
        -- destruct Hres as [-> Hres]. cbn [app length]. split; [constructor |].
           right. left. auto.
        -- destruct Hres as [Hearlier Hout]. cbn [app]. split.
           ++ apply Forall_app. split; [assumption | now constructor].
           ++ cbn [length] in *. rewrite length_app. cbn [length].
              destruct Hout as [Hout | [(Ho' & Hn & Hout) | Hout]].
              ** left. exact Hout.
              ** right. left. repeat split; [assumption | lia | assumption].
              ** right. right. exact Hout.
Qed.

(** C5: account allocation runs a sequence of probes, at least one and
    at most 20.  Each probe generates a mint keypair of its own and
    queries the mint and its three derived addresses together.  Every
    probe but the newest found an address occupied (it was discarded and
    the loop went on).  The run returns the tuple of the newest probe
    exactly when that probe found all four addresses unoccupied; it fails
    with the allocation error exactly when the 20th probe found an
    address occupied; a query that fails rejects the run. *)
Theorem findAvailableAccounts_allocation (tr : Trace) :
  exists newest earlier,
    snd (Pumpfun.findAvailableAccounts sdk env tr)
    = flat_map (probe_events sdk) (newest :: earlier) ++ tr
    /\ (length (newest :: earlier) <= 20)%nat
    /\ Forall (fun p => occupied p = true) earlier
    /\ allocation_outcome sdk newest (length (newest :: earlier)) 20
         (fst (Pumpfun.findAvailableAccounts sdk env tr))
    /\ (unoccupied newest = true
        <-> exists accounts,
            fst (Pumpfun.findAvailableAccounts sdk env tr) = Ok accounts).
Proof.
  unfold Pumpfun.findAvailableAccounts.
  destruct (findAvailableAccounts_from_probes Pumpfun.maxAttempts tr)
    as (probes & Htr & Hlen & Hres).
  destruct probes as [| newest earlier].
  - destruct Hres as [H _]. discriminate H.
  - destruct Hres as [Hearlier Hout].
    exists newest, earlier. repeat split; try assumption.
    + intros Hu. destruct Hout as [[_ ->] | [(Ho & _) | (e & Hr & _)]].
      * eauto.
      * unfold occupied in Ho. rewrite Hu in Ho.
        rewrite andb_false_r in Ho. discriminate Ho.
      * exfalso. revert Hu Hr.
        destruct newest as [kp [[? |] | ?] [[? |] | ?] [[? |] | ?] [[? |] | ?]];
          cbn; congruence.
    + intros (accounts & Hacc).
      destruct Hout as [[Hu _] | [(_ & _ & Hf) | (e & _ & Hf)]].
      * exact Hu.
      * rewrite Hf in Hacc. discriminate Hacc.
      * rewrite Hf in Hacc. discriminate Hacc.
Qed.

End Allocation.

(** When every address is occupied the budget of 20 probes is used up. *)
Example findAvailableAccounts_crowded :
  fst (Pumpfun.findAvailableAccounts Samples.sdk Samples.crowded_env [])
  = Throw (ErrorInstance Pumpfun.allocation_error)
  /\ count is_generate
       (snd (Pumpfun.findAvailableAccounts Samples.sdk Samples.crowded_env []))
     = 20%nat
  /\ length (snd (Pumpfun.findAvailableAccounts Samples.sdk Samples.crowded_env []))
     = 100%nat.
Proof. vm_compute. repeat split; reflexivity. Qed.

(** When every address is free the first probe is returned. *)
Example findAvailableAccounts_free :
  fst (Pumpfun.findAvailableAccounts Samples.sdk (Samples.env_of Samples.fair) [])
  = Ok (Pumpfun.derive_accounts Samples.sdk Samples.mint)
  /\ count is_generate
       (snd (Pumpfun.findAvailableAccounts Samples.sdk
               (Samples.env_of Samples.fair) []))
     = 1%nat.
Proof. vm_compute. repeat split; reflexivity. Qed.

(* ------------------------------------------------------------------ *)
(** ** Counting events *)
(* ------------------------------------------------------------------ *)

Section Counting.

Lemma count_app (p : Event -> bool) (a b : Trace) :
  count p (a ++ b) = (count p a + count p b)%nat.
Proof. unfold count. now rewrite filter_app, length_app. Qed.

Lemma count_none (p : Event -> bool) (tr : Trace) :
  Forall (fun e => p e = false) tr -> count p tr = 0%nat.
Proof.
  unfold count. induction 1 as [| e tr He _ IH]; [reflexivity |].
  cbn [filter]. now rewrite He.
Qed.

End Counting.

(* ------------------------------------------------------------------ *)
(** ** The direct-submission fallback (C4) *)
(* ------------------------------------------------------------------ *)

Section DirectSubmission.

Variable env : Env.
Variables (creatorKeypair tokenMint : Keypair) (latestBlockhash : BlockhashInfo).

Ltac run_attempt :=
  unfold Pumpfun.fallbackDirectSubmission_attempt,
    Pumpfun.getLatestBlockhash, Pumpfun.sendRawTransaction,
    Pumpfun.confirmTransaction, try_catch, bind, call, ret;
  cbv beta iota zeta.

Ltac close_attempt :=
  split; [reflexivity |]; unfold attempt_ends; cbn;
  repeat split;
  try reflexivity; try discriminate; try lia; try assumption;
  try (intros ? ? [_ ?]; congruence);
  try (intros ? ? ?; assumption);
  try (eexists; split; [reflexivity |]; intros ?; split;
       [reflexivity | assumption]).

(** The first attempt sends the transaction as it was given. *)
Lemma fallbackDirectSubmission_first_attempt
    (transaction : Transaction) (result : SubmitResult) (tr : Trace) :
  exists tx' step evs a rest,
    Pumpfun.fallbackDirectSubmission_attempt env 1 transaction creatorKeypair
      latestBlockhash tokenMint result tr = (Ok (tx', step), evs ++ tr)
    /\ evs = rest ++ [SendRawTransaction transaction None a]
    /\ count is_direct_send evs = 1%nat
    /\ count is_blockhash_fetch evs = 0%nat
    /\ sends_refreshed [tokenMint; creatorKeypair] evs
    /\ attempt_ends step evs.
Proof.
  run_attempt. cbn [Nat.ltb Nat.leb].
  destruct (env_sendRawTransaction env tr transaction) as [s | e] eqn:Es;
    cbv beta iota zeta.
  - match goal with
    | |- context [env_confirmTransaction env ?t s] =>
        destruct (env_confirmTransaction env t s) as [c | e] eqn:Ec
    end; cbv beta iota zeta.
    + destruct (conf_err c) as [err |] eqn:Eerr; cbv beta iota zeta.
      * eexists _, _, [_; _], _, [_]. close_attempt.
      * eexists _, _, [_; _], _, [_]. close_attempt.
    + eexists _, _, [_; _], _, [_]. close_attempt.
  - eexists _, _, [_], _, []. close_attempt.
Qed.

(** A later attempt first fetches a blockhash; what it sends carries
    that blockhash and is signed over it. *)
Lemma fallbackDirectSubmission_retry_attempt (attempt : nat)
    (transaction : Transaction) (result : SubmitResult) (tr : Trace) :
  (2 <= attempt)%nat ->
  exists tx' step evs,
    Pumpfun.fallbackDirectSubmission_attempt env attempt transaction
      creatorKeypair latestBlockhash tokenMint result tr
    = (Ok (tx', step), evs ++ tr)
    /\ (count is_direct_send evs <= 1)%nat
    /\ count is_blockhash_fetch evs = 1%nat
    /\ (forall acc, sends_refreshed [tokenMint; creatorKeypair] acc ->
                    sends_refreshed [tokenMint; creatorKeypair] (evs ++ acc))
    /\ attempt_ends step evs.
Proof.
  intros Ha. destruct attempt as [| [| a]]; [lia | lia |].
  run_attempt. cbn [Nat.ltb Nat.leb].
  destruct (env_getLatestBlockhash env tr) as [bh | e] eqn:Eb;
    cbv beta iota zeta.
  - match goal with
    | |- context [env_sendRawTransaction env ?t ?x] =>
        destruct (env_sendRawTransaction env t x) as [s | e] eqn:Es
    end; cbv beta iota zeta.
    + match goal with
      | |- context [env_confirmTransaction env ?t s] =>
          destruct (env_confirmTransaction env t s) as [c | e] eqn:Ec
      end; cbv beta iota zeta.
      * destruct (conf_err c) as [err |] eqn:Eerr; cbv beta iota zeta.
        -- eexists _, _, [_; _; _]. close_attempt.
        -- eexists _, _, [_; _; _]. close_attempt.
      * eexists _, _, [_; _; _]. close_attempt.
    + eexists _, _, [_; _]. close_attempt.
  - eexists _, _, [_]. close_attempt.
Qed.

Lemma fallbackDirectSubmission_from_S (n attempt : nat)
    (transaction : Transaction) (result : SubmitResult) :
  Pumpfun.fallbackDirectSubmission_from env (S n) attempt transaction
    creatorKeypair latestBlockhash tokenMint result
  = bind (Pumpfun.fallbackDirectSubmission_attempt env attempt transaction
            creatorKeypair latestBlockhash tokenMint result)
      (fun st =>
         match snd st with
         | Pumpfun.Return r => ret r
         | Pumpfun.Continue result' =>
             Pumpfun.fallbackDirectSubmission_from env n (S attempt) (fst st)
               creatorKeypair latestBlockhash tokenMint result'
         end).
Proof. reflexivity. Qed.

(** The iterations after the first, by induction on their number. *)
Lemma fallbackDirectSubmission_from_retries (n : nat) :
  forall attempt transaction result tr,
    (2 <= attempt)%nat -> confirmed result = false -> res_error result <> None ->
    exists r new,
      Pumpfun.fallbackDirectSubmission_from env n attempt transaction
        creatorKeypair latestBlockhash tokenMint result tr = (Ok r, new ++ tr)
      /\ (count is_direct_send new <= n)%nat
      /\ (count is_blockhash_fetch new <= n)%nat
      /\ (forall acc, sends_refreshed [tokenMint; creatorKeypair] acc ->
                      sends_refreshed [tokenMint; creatorKeypair] (new ++ acc))
      /\ ((confirmed r = true /\ res_error r = None
           /\ exists s, res_signature r = Some s
                        /\ forall acc, confirmed_clean s (new ++ acc))
          \/ (confirmed r = false /\ res_error r <> None
              /\ count is_blockhash_fetch new = n
              /\ forall s acc, ~ confirmed_clean s acc ->
                               ~ confirmed_clean s (new ++ acc))).
Proof.
  induction n as [| n IH]; intros attempt transaction result tr Ha Hc He.
  - exists result, []. cbn. split; [reflexivity |].
    split; [lia |]. split; [lia |]. split; [auto |].
    right. repeat split; auto.
  - rewrite fallbackDirectSubmission_from_S.
    destruct (fallbackDirectSubmission_retry_attempt attempt transaction result
                tr Ha) as (tx' & step & evs & E & Hs & Hf & Hr & Hend).
    rewrite (bind_ok _ _ _ _ _ E). cbn [fst snd].
    destruct step as [r | result']; unfold attempt_ends in Hend.
    + exists r, evs. unfold ret. split; [reflexivity |].
      split; [lia |]. split; [lia |]. split; [exact Hr |].
      left. exact Hend.
    + destruct Hend as (Hc' & He' & Hn).
      destruct (IH (S attempt) tx' result' (evs ++ tr)) as
        (r & new & E2 & Hs2 & Hf2 & Hr2 & Hend2); [lia | assumption | assumption |].
      exists r, (new ++ evs). rewrite E2, app_assoc.
      split; [reflexivity |]. rewrite !count_app.
      split; [lia |]. split; [lia |]. split.
      * intros acc Hacc. rewrite <- app_assoc. apply Hr2, Hr, Hacc.
      * destruct Hend2 as [(Hc2 & He2 & s & Hsig & Hclean)
                          | (Hc2 & He2 & Hcount & Hnot)].
        -- left. repeat split; try assumption. exists s. split; [assumption |].
           intros acc. rewrite <- app_assoc. apply Hclean.
        -- right. repeat split; try assumption; [lia |].
           intros s acc _. rewrite <- app_assoc. apply Hnot, Hn.
Qed.

(** The loop as a whole: the first attempt, then at most two retries. *)
Lemma fallbackDirectSubmission_retries
    (transaction : Transaction) (tr : Trace) :
  exists r new,
    Pumpfun.fallbackDirectSubmission env transaction creatorKeypair
      latestBlockhash tokenMint tr = (Ok r, new ++ tr)
    /\ (1 <= count is_direct_send new <= 3)%nat
    /\ (count is_blockhash_fetch new <= 2)%nat
    /\ (exists a rest, new = rest ++ [SendRawTransaction transaction None a])
    /\ sends_refreshed [tokenMint; creatorKeypair] new
    /\ ((confirmed r = true
         /\ exists s, res_signature r = Some s /\ confirmed_clean s new)
        \/ (confirmed r = false
            /\ (exists msg, res_error r = Some msg)
            /\ count is_blockhash_fetch new = 2%nat
            /\ forall s, ~ confirmed_clean s new)).
Proof.
  unfold Pumpfun.fallbackDirectSubmission, Pumpfun.maxRetries.
  rewrite fallbackDirectSubmission_from_S.
  destruct (fallbackDirectSubmission_first_attempt transaction
              (mkSubmitResult false None (Some "Direct submission failed"%string))
              tr)
    as (tx' & step & evs & a & rest & E & Hevs & Hs & Hf & Hr & Hend).
  rewrite (bind_ok _ _ _ _ _ E). cbn [fst snd].
  destruct step as [r | result']; unfold attempt_ends in Hend.
  - destruct Hend as (Hc & He & s & Hsig & Hclean).
    exists r, evs. unfold ret. split; [reflexivity |].
    split; [lia |]. split; [lia |]. split; [eauto |]. split; [exact Hr |].
    left. split; [assumption |]. exists s. split; [assumption |].
    specialize (Hclean []). now rewrite app_nil_r in Hclean.
  - destruct Hend as (Hc & He & Hn).
    destruct (fallbackDirectSubmission_from_retries 2 2 tx' result' (evs ++ tr))
      as (r & new & E2 & Hs2 & Hf2 & Hr2 & Hend2); [lia | assumption | assumption |].
    exists r, (new ++ evs). rewrite E2, app_assoc.
    split; [reflexivity |]. rewrite !count_app.
    split; [lia |]. split; [lia |]. split.
    { exists a, (new ++ rest). rewrite Hevs, app_assoc. reflexivity. }
    split; [apply Hr2, Hr |].
    destruct Hend2 as [(Hc2 & He2 & s & Hsig & Hclean)
                      | (Hc2 & He2 & Hcount & Hnot)].
    + left. split; [assumption |]. exists s. split; [assumption | apply Hclean].
    + right. split; [assumption |]. split.
      { destruct (res_error r) as [msg |]; [eauto | congruence]. }
      split; [lia |].
      intros s. apply Hnot. specialize (Hn s []). now rewrite app_nil_r in Hn.
Qed.

End DirectSubmission.

(** A node that rejects every submission: three sends, two blockhash
    fetches, and the last error is returned. *)
Example fallbackDirectSubmission_node_rejects :
  fst (Pumpfun.fallbackDirectSubmission (Samples.env_of Samples.node_rejects)
         Samples.signed_tx Samples.creator Samples.latest Samples.mint [])
  = Ok (mkSubmitResult false None (Some "Blockhash not found"%string))
  /\ map is_direct_send
       (snd (Pumpfun.fallbackDirectSubmission
               (Samples.env_of Samples.node_rejects)
               Samples.signed_tx Samples.creator
               Samples.latest Samples.mint []))
     = [true; false; true; false; true].
Proof. vm_compute. split; reflexivity. Qed.

(** A node that accepts and confirms: one send, no retry. *)
Example fallbackDirectSubmission_accepts :
  Pumpfun.fallbackDirectSubmission Samples.timeout_env
    Samples.signed_tx Samples.creator Samples.latest
    Samples.mint []
  = (Ok (mkSubmitResult true (Some "sig-direct"%string) None),
     [ ConfirmTransaction "sig-direct"%string (Some Samples.latest)
         (Ok Samples.clean_confirmation);
       SendRawTransaction Samples.signed_tx None (Ok "sig-direct"%string) ]).
Proof. vm_compute. reflexivity. Qed.

(* ------------------------------------------------------------------ *)
(** ** Relay failure falls back to direct broadcast (C3) *)
(* ------------------------------------------------------------------ *)

Section RelayFallback.

Variable env : Env.

(** The four failure modes, spelled out. *)
Lemma relay_failed_modes (r : RelayReply) :
  relay_failed r = true <->
  (exists m, r = TransportError m)
  \/ r = RequestTimeout
  \/ (exists j m, r = Response j /\ json_error j = Some m)
  \/ (exists j, r = Response j /\ json_error j = None
                /\ (json_result j = None \/ json_result j = Some EmptyString)).
Proof.
  split.
  - destruct r as [m | | j]; cbn; intros H.
    + left. eauto.
    + right. left. reflexivity.
    + destruct (json_error j) as [m |] eqn:Ee.
      * right. right. left. eauto.
      * right. right. right. exists j. split; [reflexivity |]. split; [assumption |].
        unfold result_missing in H. destruct (json_result j) as [s |]; [| auto].
        right. f_equal. now apply String.eqb_eq.
  - intros [(m & ->) | [-> | [(j & m & -> & He) | (j & -> & He & Hr)]]]; cbn;
      try reflexivity.
    + now rewrite He.
    + rewrite He. unfold result_missing. destruct Hr as [-> | ->]; reflexivity.
Qed.

Lemma pumpfun_sendWithHelius_relay_failed
    (transaction : Transaction) (signers : list Keypair) (tr : Trace) :
  relay_failed (env_senderPost env tr (sign transaction signers)) = true ->
  exists e,
    Pumpfun.sendWithHelius env transaction signers tr
    = (Throw e,
       SenderPost (sign transaction signers)
         (env_senderPost env tr (sign transaction signers)) :: tr).
Proof.
  unfold Pumpfun.sendWithHelius, Pumpfun.axios_post, try_catch, bind,
    throwError, throw.
  cbv beta iota zeta.
  destruct (env_senderPost env tr (sign transaction signers)) as [m | | j];
    cbn; intros H; eauto.
  destruct (json_error j) as [m |]; [eauto |].
  unfold result_missing in H.
  destruct (json_result j) as [s |]; [| eauto].
  rewrite H. eauto.
Qed.

Lemma launchlab_sendWithHelius_relay_failed (transaction : Transaction) (tr : Trace) :
  relay_failed (env_senderPost env tr transaction) = true ->
  exists e,
    Launchlab.sendWithHelius env transaction tr
    = (Throw e, SenderPost transaction (env_senderPost env tr transaction) :: tr).
Proof.
  unfold Launchlab.sendWithHelius, Launchlab.axios_post, try_catch, bind,
    throwError, throw.
  cbv beta iota zeta.
  destruct (env_senderPost env tr transaction) as [m | | j];
    cbn; intros H; eauto.
  destruct (json_error j) as [m |]; [eauto |].
  unfold result_missing in H.
  destruct (json_result j) as [s |]; [| eauto].
  rewrite H. eauto.
Qed.

(** C3: when the relay submission fails in any of its four modes (an
    RPC-level error in the response, a missing result, a transport error,
    a timeout), the operation does not end there: the very next event is
    a direct [sendRawTransaction] of the same transaction with
    [skipPreflight = false], no further broadcast follows, and the
    operation succeeds exactly when that direct path does (pump.fun: the
    node accepts and the confirmation is clean; LaunchLab: the node
    accepts and the confirmation returns). *)
Theorem relay_failure_falls_back_to_direct_broadcast
    (pumpTx launchTx : Transaction) (tokenMint creatorKeypair : Keypair)
    (tr : Trace) :
  relay_failed
    (env_senderPost env tr (sign pumpTx [tokenMint; creatorKeypair])) = true ->
  relay_failed (env_senderPost env tr launchTx) = true ->
  (let tx := sign pumpTx [tokenMint; creatorKeypair] in
   let post := SenderPost tx (env_senderPost env tr tx) in
   let a := env_sendRawTransaction env (post :: tr) tx in
   let run := Pumpfun.createPumpFunToken_submit env pumpTx tokenMint
                creatorKeypair tr in
   exists rest,
     snd run = rest ++ SendRawTransaction tx (Some false) a :: post :: tr
     /\ count is_broadcast rest = 0%nat
     /\ forall s, fst run = Ok s <-> (a = Ok s /\ confirmed_clean s rest))
  /\ (let post := SenderPost launchTx (env_senderPost env tr launchTx) in
      let a := env_sendRawTransaction env (post :: tr) launchTx in
      let run := Launchlab.createBonkTokenTx_submit env launchTx tr in
      exists rest,
        snd run = rest ++ SendRawTransaction launchTx (Some false) a :: post :: tr
        /\ count is_broadcast rest = 0%nat
        /\ forall s, fst run = Ok s <-> (a = Ok s /\ confirmation_returned s rest)).
Proof.
  intros Hp Hl. split; cbv zeta.
  - destruct (pumpfun_sendWithHelius_relay_failed pumpTx
                [tokenMint; creatorKeypair] tr Hp) as (e & E).
    unfold Pumpfun.createPumpFunToken_submit.
    rewrite (try_catch_throw _ _ _ _ _ (bind_throw _ _ _ _ _ E)).
    unfold Pumpfun.sendRawTransaction, Pumpfun.getLatestBlockhash,
      Pumpfun.confirmTransaction, bind, call, ret, throwError, throw.
    cbv beta iota zeta.
    match goal with
    | |- context [env_sendRawTransaction env ?t ?x] =>
        destruct (env_sendRawTransaction env t x) as [s0 | e0]
    end; cbv beta iota zeta.
    + match goal with
      | |- context [env_getLatestBlockhash env ?t] =>
          destruct (env_getLatestBlockhash env t) as [bh | e1]
      end; cbv beta iota zeta.
      * match goal with
        | |- context [env_confirmTransaction env ?t s0] =>
            destruct (env_confirmTransaction env t s0) as [c | e2]
        end; cbv beta iota zeta.
        -- destruct (conf_err c) as [err |] eqn:Eerr; cbv beta iota zeta.
           ++ eexists [_; _]. split; [reflexivity |]. split; [reflexivity |].
              cbn. intros s. split; [discriminate |].
              intros (_ & _ & H). congruence.
           ++ eexists [_; _]. split; [reflexivity |]. split; [reflexivity |].
              cbn. intros s. split.
              ** intros H. inversion H; subst. auto.
              ** intros (H & _). inversion H; subst. reflexivity.
        -- eexists [_; _]. split; [reflexivity |]. split; [reflexivity |].
           cbn. intros s. split; [discriminate | intros (_ & H); contradiction].
      * eexists [_]. split; [reflexivity |]. split; [reflexivity |].
        cbn. intros s. split; [discriminate | intros (_ & H); contradiction].
    + exists []. split; [reflexivity |]. split; [reflexivity |].
      cbn. intros s. split; [discriminate | intros (H & _); discriminate].
  - destruct (launchlab_sendWithHelius_relay_failed launchTx tr Hl) as (e & E).
    unfold Launchlab.createBonkTokenTx_submit.
    rewrite (try_catch_throw _ _ _ _ _ E).
    unfold Launchlab.sendRawTransaction, Launchlab.confirmTransaction,
      bind, call, ret.
    cbv beta iota zeta.
    match goal with
    | |- context [env_sendRawTransaction env ?t ?x] =>
        destruct (env_sendRawTransaction env t x) as [s0 | e0]
    end; cbv beta iota zeta.
    + match goal with
      | |- context [env_confirmTransaction env ?t s0] =>
          destruct (env_confirmTransaction env t s0) as [c | e2]
      end; cbv beta iota zeta.
      * eexists [_]. split; [reflexivity |]. split; [reflexivity |].
        cbn. intros s. split.
        -- intros H. inversion H; subst. auto.
        -- intros (H & _). inversion H; subst. reflexivity.
      * eexists [_]. split; [reflexivity |]. split; [reflexivity |].
        cbn. intros s. split; [discriminate | intros (_ & H); contradiction].
    + exists []. split; [reflexivity |]. split; [reflexivity |].
      cbn. intros s. split; [discriminate | intros (H & _); discriminate].
Qed.

End RelayFallback.

Lemma relay_failure_falls_back_to_direct_broadcast_witness :
  relay_failed (env_senderPost Samples.timeout_env [] Samples.signed_tx) = true
  /\ exists rest,
       snd (Pumpfun.createPumpFunToken_submit Samples.timeout_env
              Samples.unsigned_tx Samples.mint Samples.creator [])
       = rest ++ [SendRawTransaction Samples.signed_tx (Some false)
                    (env_sendRawTransaction Samples.timeout_env
                       [SenderPost Samples.signed_tx
                          (env_senderPost Samples.timeout_env []
                             Samples.signed_tx)]
                       Samples.signed_tx);
                  SenderPost Samples.signed_tx
                    (env_senderPost Samples.timeout_env [] Samples.signed_tx)]
       /\ count is_broadcast rest = 0%nat
       /\ forall s,
            fst (Pumpfun.createPumpFunToken_submit Samples.timeout_env
                   Samples.unsigned_tx Samples.mint Samples.creator []) = Ok s
            <-> (env_sendRawTransaction Samples.timeout_env
                   [SenderPost Samples.signed_tx
                      (env_senderPost Samples.timeout_env [] Samples.signed_tx)]
                   Samples.signed_tx = Ok s
                 /\ confirmed_clean s rest).
Proof.
  split; [reflexivity |].
  exact (proj1 (relay_failure_falls_back_to_direct_broadcast
                  Samples.timeout_env
                  Samples.unsigned_tx Samples.unsigned_tx
                  Samples.mint Samples.creator [] eq_refl eq_refl)).
Defined.

(* ------------------------------------------------------------------ *)
(** ** Runs on concrete environments (C1, C2, C6) *)
(* ------------------------------------------------------------------ *)

Section ConcreteRuns.

(** C1 at a failing input: in [createBonkTokenTx] the simulation reports
    an execution error and the transaction is posted to the relay all
    the same; the call resolves and the token row is written. *)
Theorem createBonkTokenTx_broadcasts_after_failed_simulation :
  simulation_errors
    (snd (Launchlab.createBonkTokenTx Samples.sdk
            (Samples.env_of Samples.simulation_fails)
            Samples.creator Samples.mint Samples.launch_request []))
  = ["{InstructionError:[0,Custom]}"%string]
  /\ count is_broadcast
       (snd (Launchlab.createBonkTokenTx Samples.sdk
               (Samples.env_of Samples.simulation_fails)
               Samples.creator Samples.mint Samples.launch_request []))
     = 1%nat
  /\ is_ok (fst (Launchlab.createBonkTokenTx Samples.sdk
                   (Samples.env_of Samples.simulation_fails)
                   Samples.creator Samples.mint Samples.launch_request []))
     = true
  /\ length (rows_created
               (snd (Launchlab.createBonkTokenTx Samples.sdk
                       (Samples.env_of Samples.simulation_fails)
                       Samples.creator Samples.mint Samples.launch_request [])))
     = 1%nat.
Proof. vm_compute. repeat split; reflexivity. Qed.

(** C2 at two failing inputs: in [createBonkTokenTx] a confirmation
    that carries an execution error is not a failure, neither after the
    relay accepted the transaction nor after the direct broadcast. *)
Theorem createBonkTokenTx_succeeds_on_failed_confirmation :
  (confirmation_errors
     (snd (Launchlab.createBonkTokenTx Samples.sdk
             (Samples.env_of Samples.relay_then_failed_confirmation)
             Samples.creator Samples.mint Samples.launch_request []))
   = ["{InstructionError:[0,Custom]}"%string]
   /\ count is_direct_send
        (snd (Launchlab.createBonkTokenTx Samples.sdk
                (Samples.env_of Samples.relay_then_failed_confirmation)
                Samples.creator Samples.mint Samples.launch_request []))
      = 0%nat
   /\ is_ok (fst (Launchlab.createBonkTokenTx Samples.sdk
                    (Samples.env_of Samples.relay_then_failed_confirmation)
                    Samples.creator Samples.mint Samples.launch_request []))
      = true)
  /\ (confirmation_errors
        (snd (Launchlab.createBonkTokenTx Samples.sdk
                (Samples.env_of Samples.direct_then_failed_confirmation)
                Samples.creator Samples.mint Samples.launch_request []))
      = ["{InstructionError:[0,Custom]}"%string]
      /\ count is_direct_send
           (snd (Launchlab.createBonkTokenTx Samples.sdk
                   (Samples.env_of Samples.direct_then_failed_confirmation)
                   Samples.creator Samples.mint Samples.launch_request []))
         = 1%nat
      /\ is_ok (fst (Launchlab.createBonkTokenTx Samples.sdk
                       (Samples.env_of Samples.direct_then_failed_confirmation)
                       Samples.creator Samples.mint Samples.launch_request []))
         = true).
Proof. vm_compute. repeat split; reflexivity. Qed.

(** C6 at a failing input: [createPumpFunToken] succeeds, by the relay
    and by the direct path, and no row is created or updated.  (On the
    LaunchLab path one row is created, after the confirmation, with an
    empty signature, and it is not updated.) *)
Theorem createPumpFunToken_succeeds_without_record :
  (fst (Pumpfun.createPumpFunToken Samples.sdk (Samples.env_of Samples.fair)
          Samples.request [])
   = Ok (Pumpfun.mkCreateResult true (Some "sig-relay"%string)
           (Some (repeat 2 32))
           (Some "Token created and bought successfully"%string) None)
   /\ count is_db
        (snd (Pumpfun.createPumpFunToken Samples.sdk
                (Samples.env_of Samples.fair) Samples.request []))
      = 0%nat)
  /\ (fst (Pumpfun.createPumpFunToken Samples.sdk Samples.timeout_env
             Samples.request [])
      = Ok (Pumpfun.mkCreateResult true (Some "sig-direct"%string)
              (Some (repeat 2 32))
              (Some "Token created and bought successfully"%string) None)
      /\ count is_db
           (snd (Pumpfun.createPumpFunToken Samples.sdk Samples.timeout_env
                   Samples.request []))
         = 0%nat)
  /\ (map row_signature
        (rows_created
           (snd (Launchlab.createBonkTokenTx Samples.sdk
                   (Samples.env_of Samples.fair)
                   Samples.creator Samples.mint Samples.launch_request [])))
      = [EmptyString]
      /\ count is_db
           (snd (Launchlab.createBonkTokenTx Samples.sdk
                   (Samples.env_of Samples.fair)
                   Samples.creator Samples.mint Samples.launch_request []))
         = 1%nat).
Proof. vm_compute. repeat split; reflexivity. Qed.

End ConcreteRuns.

(* ------------------------------------------------------------------ *)
(** ** The pump.fun path end to end: what the sibling path does *)
(* ------------------------------------------------------------------ *)

Section PumpfunPipeline.

Variable sdk : Sdk.
Variable env : Env.

Lemma quiet_trace (new : Trace) :
  Forall (fun e => is_quiet e = true) new ->
  simulation_errors new = []
  /\ count is_broadcast new = 0%nat
  /\ count is_db new = 0%nat
  /\ count is_direct_send new = 0%nat.
Proof.
  induction 1 as [| e new He _ IH]; [repeat split; reflexivity |].
  destruct IH as (H1 & H2 & H3 & H4). unfold count in *.
  destruct e as [| | | tx [sim | ] | | | | | | | | | |];
    cbn in He; try discriminate He; cbn; auto.
  unfold is_quiet, is_failed_simulation in He. cbn in He.
  destruct (sim_err sim); [discriminate He | cbn; auto].
Qed.

Lemma after_failed_simulation (tx : Transaction) (sim : SimulationValue)
    (err : TransactionError) (acc : Trace) :
  sim_err sim = Some err ->
  Forall (fun e => is_quiet e = true) acc ->
  simulation_errors (SimulateTransaction tx (Ok sim) :: acc) = [err]
  /\ count is_broadcast (SimulateTransaction tx (Ok sim) :: acc) = 0%nat
  /\ count is_db (SimulateTransaction tx (Ok sim) :: acc) = 0%nat.
Proof.
  intros Herr Hq. destruct (quiet_trace acc Hq) as (H1 & H2 & H3 & _).
  unfold count, simulation_errors in *. cbn. rewrite Herr, H1. auto.
Qed.

Lemma simulation_errors_app (a b : Trace) :
  simulation_errors (a ++ b) = simulation_errors a ++ simulation_errors b.
Proof. unfold simulation_errors. apply flat_map_app. Qed.

Lemma confirmed_clean_app (s : Signature) (a b : Trace) :
  confirmed_clean s a -> confirmed_clean s (a ++ b).
Proof. destruct a as [| e a]; [contradiction | exact (fun H => H)]. Qed.

Lemma try_catch_bind {A B} (m : M A) (k : A -> M B) (h : Thrown -> M B)
    (tr : Trace) :
  try_catch (bind m k) h tr
  = match m tr with
    | (Ok a, t) => try_catch (k a) h t
    | (Throw e, t) => h e t
    end.
Proof. unfold try_catch, bind. destruct (m tr) as [[a | e] t]; reflexivity. Qed.

(** The allocation loop only generates keypairs and reads accounts. *)
Lemma findAvailableAccounts_quiet (tr : Trace) :
  exists new,
    snd (Pumpfun.findAvailableAccounts sdk env tr) = new ++ tr
    /\ Forall (fun e => is_quiet e = true) new.
Proof.
  destruct (findAvailableAccounts_from_probes sdk env Pumpfun.maxAttempts tr)
    as (probes & Htr & _).
  exists (flat_map (probe_events sdk) probes). split; [exact Htr |].
  apply Forall_flat_map. apply Forall_forall. intros p _.
  unfold probe_events. repeat constructor.
Qed.

Ltac destruct_answer :=
  match goal with
  | |- context [env_senderPost ?e ?t ?x] =>
      destruct (env_senderPost e t x) as [? | | ?]
  | |- context [env_sendRawTransaction ?e ?t ?x] =>
      destruct (env_sendRawTransaction e t x) as [? | ?]
  | |- context [env_getLatestBlockhash ?e ?t] =>
      destruct (env_getLatestBlockhash e t) as [? | ?]
  | |- context [env_confirmTransaction ?e ?t ?x] =>
      destruct (env_confirmTransaction e t x) as [? | ?]
  | |- context [match json_error ?j with _ => _ end] =>
      destruct (json_error j) as [? |]
  | |- context [match json_result ?j with _ => _ end] =>
      destruct (json_result j) as [? |]
  | |- context [if String.eqb ?s ?t then _ else _] =>
      destruct (String.eqb s t)
  | |- context [match conf_err ?c with _ => _ end] =>
      destruct (conf_err c) as [? |] eqn:?
  end; cbv beta iota zeta.

Lemma trace_cons (e : Event) (l new tr : Trace) :
  l = new ++ tr -> e :: l = (e :: new) ++ tr.
Proof. now intros ->. Qed.

Lemma trace_nil (tr : Trace) : tr = [] ++ tr.
Proof. reflexivity. Qed.

(** [?new ++ tr] for the events consed onto [tr]. *)
Ltac split_trace :=
  repeat apply trace_cons; first [apply trace_nil | reflexivity].

(** Every path through the submission block: one relay post, at most
    one direct send, and a success has a clean confirmation of the
    returned signature as its newest event. *)
Lemma createPumpFunToken_submit_trace
    (transaction : Transaction) (tokenMint creatorKeypair : Keypair) (tr : Trace) :
  exists new,
    snd (Pumpfun.createPumpFunToken_submit env transaction tokenMint
           creatorKeypair tr) = new ++ tr
    /\ count is_relay_post new = 1%nat
    /\ (count is_direct_send new <= 1)%nat
    /\ simulation_errors new = []
    /\ count is_db new = 0%nat
    /\ forall s,
         fst (Pumpfun.createPumpFunToken_submit env transaction tokenMint
                creatorKeypair tr) = Ok s ->
         confirmed_clean s new.
Proof.
  unfold Pumpfun.createPumpFunToken_submit, Pumpfun.sendWithHelius,
    Pumpfun.axios_post, Pumpfun.sendRawTransaction, Pumpfun.getLatestBlockhash,
    Pumpfun.confirmTransaction, try_catch, bind, call, ret, throwError, throw.
  cbv beta iota zeta.
  repeat destruct_answer;
    (eexists; split; [cbn [snd]; split_trace |]);
    cbn; repeat split; try lia; try congruence.
Qed.

(** A run that ends in the [catch] after quiet events only. *)
Lemma createPumpFunToken_fails_quietly
    (run : Outcome Pumpfun.CreateResult * Trace) (new tr : Trace) (msg : string) :
  run = (Ok (Pumpfun.mkCreateResult false None None None (Some msg)), new ++ tr) ->
  Forall (fun e => is_quiet e = true) new ->
  exists new',
    snd run = new' ++ tr
    /\ count is_db new' = 0%nat
    /\ (simulation_errors new' <> [] ->
        count is_broadcast new' = 0%nat
        /\ exists m,
             fst run = Ok (Pumpfun.mkCreateResult false None None None (Some m)))
    /\ (forall r, fst run = Ok r -> Pumpfun.success r = true ->
                  simulation_errors new' = []
                  /\ exists s, Pumpfun.signature r = Some s
                               /\ confirmed_clean s new').
Proof.
  intros -> Hq. destruct (quiet_trace new Hq) as (H1 & H2 & H3 & _).
  exists new. cbn [fst snd]. repeat split; try assumption.
  - eauto.
  - inversion H; subst. discriminate.
Qed.

Ltac fails_quietly :=
  eapply createPumpFunToken_fails_quietly;
  [ unfold ret, throwError, throw; cbv beta iota zeta; apply f_equal; split_trace
  | repeat constructor; assumption ].

(** The pump.fun path as a whole.  Nothing is written to the database.
    When the simulation reports an execution error nothing is broadcast
    and the call returns a failure.  A success has a clean simulation
    and, as its newest event, a confirmation without error of the
    signature it returns. *)
Lemma createPumpFunToken_pipeline
    (req : Pumpfun.TokenCreationRequest) (tr : Trace) :
  exists new,
    snd (Pumpfun.createPumpFunToken sdk env req tr) = new ++ tr
    /\ count is_db new = 0%nat
    /\ (simulation_errors new <> [] ->
        count is_broadcast new = 0%nat
        /\ exists m,
             fst (Pumpfun.createPumpFunToken sdk env req tr)
             = Ok (Pumpfun.mkCreateResult false None None None (Some m)))
    /\ (forall r,
          fst (Pumpfun.createPumpFunToken sdk env req tr) = Ok r ->
          Pumpfun.success r = true ->
          simulation_errors new = []
          /\ exists s, Pumpfun.signature r = Some s /\ confirmed_clean s new).
Proof.
  unfold Pumpfun.createPumpFunToken, Pumpfun.filebase_uploadMetadata,
    Pumpfun.getLatestBlockhash, Pumpfun.simulateTransaction, lift, call.
  rewrite try_catch_bind. cbv beta iota zeta.
  destruct (Pumpfun.validateRequest req) as [[] | e0]; [| fails_quietly].
  rewrite try_catch_bind. cbv beta iota zeta.
  destruct (Pumpfun.getCreatorKeypair sdk (Pumpfun.creatorKeypair req))
    as [creatorKeypair | e1]; [| fails_quietly].
  rewrite try_catch_bind.
  destruct (findAvailableAccounts_quiet tr) as (new1 & Htr1 & Hq1).
  destruct (Pumpfun.findAvailableAccounts sdk env tr) as [[accounts | e2] t1];
    cbn [snd] in Htr1; subst t1; [| fails_quietly].
  rewrite try_catch_bind. cbv beta iota zeta.
  destruct (env_uploadMetadata env (new1 ++ tr) (Pumpfun.metadata_request req))
    as [up | e3]; [| fails_quietly].
  rewrite try_catch_bind. cbv beta iota zeta.
  match goal with
  | |- context [env_getLatestBlockhash env ?t] =>
      destruct (env_getLatestBlockhash env t) as [bh | e4]
  end; [| fails_quietly].
  rewrite try_catch_bind. cbv beta iota zeta.
  destruct (Pumpfun.createPumpFunInstruction sdk _ creatorKeypair _)
    as [ix | e5]; [| fails_quietly].
  rewrite try_catch_bind. cbv beta iota zeta.
  match goal with
  | |- context [env_simulateTransaction env ?t ?x] =>
      destruct (env_simulateTransaction env t x) as [sim | e6] eqn:Esim
  end; [| fails_quietly].
  destruct (sim_err sim) as [err |] eqn:Eerr.
  - (* the simulation reports an error: the [throw], then the [catch] *)
    unfold try_catch, throwError, throw, ret. cbv beta iota zeta.
    eexists. split; [cbn [snd]; split_trace |]. cbn [fst].
    match goal with
    | |- context [SimulateTransaction ?tx (Ok sim) :: ?acc] =>
        assert (Hq : Forall (fun e => is_quiet e = true) acc)
          by (repeat constructor; assumption);
        destruct (after_failed_simulation tx sim err acc Eerr Hq)
          as (S1 & S2 & S3)
    end.
    repeat split.
    + exact S3.
    + exact S2.
    + eauto.
    + inversion H; subst. discriminate.
    + inversion H; subst. discriminate.
  - (* a clean simulation: the submission block *)
    rewrite try_catch_bind.
    pose (acc := GetLatestBlockhash (Ok bh)
                 :: UploadMetadata (Pumpfun.metadata_request req) (Ok up)
                 :: new1).
    match goal with
    | |- context [Pumpfun.createPumpFunToken_submit env ?x ?m ?c
                    (SimulateTransaction ?tx (Ok sim) :: ?rest)] =>
        change rest with (acc ++ tr);
        assert (Hq : Forall (fun e => is_quiet e = true)
                       (SimulateTransaction tx (Ok sim) :: acc))
          by (constructor;
              [ unfold is_quiet, is_failed_simulation; cbn; now rewrite Eerr
              | repeat constructor; assumption ]);
        destruct (createPumpFunToken_submit_trace x m c
                    (SimulateTransaction tx (Ok sim) :: acc ++ tr))
          as (new2 & Htr2 & _ & _ & Hsim2 & Hdb2 & Hclean);
        destruct (Pumpfun.createPumpFunToken_submit env x m c
                    (SimulateTransaction tx (Ok sim) :: acc ++ tr))
          as [[s | e7] t2]; cbn [fst snd] in Htr2, Hclean; subst t2;
        destruct (quiet_trace _ Hq) as (H1 & H2 & H3 & _);
        exists (new2 ++ SimulateTransaction tx (Ok sim) :: acc)
    end.
    + unfold try_catch, ret. cbv beta iota zeta. cbn [fst snd].
      split; [now rewrite <- app_assoc |].
      rewrite count_app, simulation_errors_app, Hsim2, Hdb2, H1, H3.
      split; [reflexivity |]. split.
      * intros Hne. now elim Hne.
      * intros r H Hs. split; [reflexivity |].
        inversion H; subst. cbn. exists s. split; [reflexivity |].
        apply confirmed_clean_app, Hclean. reflexivity.
    + unfold ret. cbv beta iota zeta. cbn [fst snd].
      split; [now rewrite <- app_assoc |].
      rewrite count_app, simulation_errors_app, Hsim2, Hdb2, H1, H3.
      split; [reflexivity |]. split.
      * intros Hne. now elim Hne.
      * intros r H Hs. inversion H; subst. discriminate Hs.
Qed.

End PumpfunPipeline.

(* ------------------------------------------------------------------ *)
(** ** The direct-broadcast fallback is bounded (C4) *)
(* ------------------------------------------------------------------ *)

Section BoundedFallback.

Variable env : Env.

(** C4: the direct-broadcast fallback [fallbackDirectSubmission] always
    returns.  It submits at least once and at most 3 times; the first
    thing it does is to send the transaction it was given; every later
    submission comes right after a successful fetch of a fresh blockhash,
    carries that blockhash and is signed over it by the mint and the
    creator.  The result is confirmed exactly when the newest event is a
    confirmation without error of the returned signature; otherwise all
    three attempts were made (each of the two retries fetched a
    blockhash, and no run fetches more than two) and the result is a
    failure with an error message.  The
    fallback written inline in [createPumpFunToken] submits at most
    once. *)
Theorem direct_fallback_bounded_retries
    (transaction : Transaction) (creatorKeypair tokenMint : Keypair)
    (latestBlockhash : BlockhashInfo) (tr : Trace) :
  (exists r new,
      Pumpfun.fallbackDirectSubmission env transaction creatorKeypair
        latestBlockhash tokenMint tr = (Ok r, new ++ tr)
      /\ (1 <= count is_direct_send new <= 3)%nat
      /\ (count is_blockhash_fetch new <= 2)%nat
      /\ (exists a rest, new = rest ++ [SendRawTransaction transaction None a])
      /\ sends_refreshed [tokenMint; creatorKeypair] new
      /\ ((confirmed r = true
           /\ exists s, res_signature r = Some s /\ confirmed_clean s new)
          \/ (confirmed r = false
              /\ (exists msg, res_error r = Some msg)
              /\ count is_blockhash_fetch new = 2%nat
              /\ forall s, ~ confirmed_clean s new)))
  /\ (exists new,
        snd (Pumpfun.createPumpFunToken_submit env transaction tokenMint
               creatorKeypair tr) = new ++ tr
        /\ (count is_direct_send new <= 1)%nat).
Proof.
  split.
  - apply fallbackDirectSubmission_retries.
  - destruct (createPumpFunToken_submit_trace env transaction tokenMint
                creatorKeypair tr) as (new & Htr & _ & Hsend & _).
    exists new. auto.
Qed.

End BoundedFallback.

(* ------------------------------------------------------------------ *)
(** ** createPumpFunToken resolves, it never rejects (C9) *)
(* ------------------------------------------------------------------ *)

Section NeverThrows.
Import Pumpfun.

Variable sdk : Sdk.
Variable env : Env.

Ltac destruct_answer :=
  match goal with
  | |- context [env_senderPost ?e ?t ?x] =>
      destruct (env_senderPost e t x) as [? | | ?]
  | |- context [env_sendRawTransaction ?e ?t ?x] =>
      destruct (env_sendRawTransaction e t x) as [? | ?]
  | |- context [env_getLatestBlockhash ?e ?t] =>
      destruct (env_getLatestBlockhash e t) as [? | ?]
  | |- context [env_confirmTransaction ?e ?t ?x] =>
      destruct (env_confirmTransaction e t x) as [? | ?]
  | |- context [match json_error ?j with _ => _ end] =>
      destruct (json_error j) as [? |]
  | |- context [match json_result ?j with _ => _ end] =>
      destruct (json_result j) as [? |]
  | |- context [if String.eqb ?s ?t then _ else _] =>
      destruct (String.eqb s t)
  | |- context [match conf_err ?c with _ => _ end] =>
      destruct (conf_err c) as [? |] eqn:?
  end; cbv beta iota zeta.

Ltac split_trace :=
  repeat apply trace_cons; first [apply trace_nil | reflexivity].

(** The submission block ends with a confirmation without error of the
    signature it returns, awaited with the blockhash fetched right
    before, or with the call whose error it throws. *)
Lemma createPumpFunToken_submit_end
    (transaction : Transaction) (tokenMint creatorKeypair : Keypair) (tr : Trace) :
  exists ev sub,
    snd (createPumpFunToken_submit env transaction tokenMint creatorKeypair tr)
    = ev :: sub ++ tr
    /\ match fst (createPumpFunToken_submit env transaction tokenMint
                    creatorKeypair tr) with
       | Ok s =>
           exists bh c sub',
             ev = ConfirmTransaction s (Some bh) (Ok c)
             /\ sub = GetLatestBlockhash (Ok bh) :: sub'
             /\ conf_err c = None
       | Throw e => failure_message ev = Some (message_or e "Unknown error"%string)
       end.
Proof.
  unfold createPumpFunToken_submit, sendWithHelius, axios_post,
    sendRawTransaction, getLatestBlockhash, confirmTransaction,
    try_catch, bind, call, ret, throwError, throw.
  cbv beta iota zeta.
  repeat destruct_answer;
    (eexists _, _; split;
     [ cbn [snd]; refine (f_equal2 cons eq_refl _); split_trace
     | cbn [fst failure_message message_or];
       repeat match goal with
              | H : conf_err _ = _ |- _ => rewrite H
              end;
       try reflexivity;
       eexists _, _, _; repeat split; assumption ]).
Qed.

Lemma findAvailableAccounts_extends (tr : Trace) :
  exists probes, snd (findAvailableAccounts sdk env tr) = probes ++ tr.
Proof.
  destruct (findAvailableAccounts_quiet sdk env tr) as (probes & Htr & _).
  now exists probes.
Qed.

(** C9: [createPumpFunToken] never propagates an exception.  Whatever
    the request and the answers of the outside world, it returns an
    object: either [success = true] with a signature, or [success =
    false] with an error message and no signature.  Which of the two is
    fixed by the step at which the run ended.  A request that fails
    validation, a creator key that does not decode, a failed allocation,
    a rejected upload, blockhash fetch or simulation, an instruction
    that cannot be encoded and a simulation that reports an execution
    error each end the run right there, and the object returned is the
    failure with the message of that error.  Past a clean simulation the
    run ends either with a confirmation without error of the signature
    it returns with [success = true], or with the call of the submission
    block that failed (the direct send, a blockhash fetch, a
    confirmation that was rejected or reports an execution error), and
    then it returns the failure with that message. *)
Theorem createPumpFunToken_never_throws
    (req : TokenCreationRequest) (tr : Trace) :
  exists r new,
    createPumpFunToken sdk env req tr = (Ok r, new ++ tr)
    /\ ((success r = true
         /\ (exists s, signature r = Some s)
         /\ error r = None)
        \/ (success r = false
            /\ (exists msg, error r = Some msg)
            /\ signature r = None))
    /\ ((exists e, validateRequest req = Throw e /\ new = [] /\ r = caught e)
        \/ validateRequest req = Ok tt
        /\ ((exists e,
               getCreatorKeypair sdk (creatorKeypair req) = Throw e
               /\ new = [] /\ r = caught e)
            \/ exists creator,
            getCreatorKeypair sdk (creatorKeypair req) = Ok creator
        /\ ((exists e,
               findAvailableAccounts sdk env tr = (Throw e, new ++ tr)
               /\ r = caught e)
            \/ exists accounts probes,
            findAvailableAccounts sdk env tr = (Ok accounts, probes ++ tr)
        /\ ((exists e,
               new = UploadMetadata (metadata_request req) (Throw e) :: probes
               /\ r = caught e)
            \/ exists up uploaded,
            uploaded = UploadMetadata (metadata_request req) (Ok up) :: probes
        /\ ((exists e,
               new = GetLatestBlockhash (Throw e) :: uploaded /\ r = caught e)
            \/ exists bh fetched,
            fetched = GetLatestBlockhash (Ok bh) :: uploaded
        /\ ((exists e,
               createPumpFunInstruction sdk (publicKey (tokenMint accounts))
                 creator (with_uri req (up_uri up)) = Throw e
               /\ new = fetched /\ r = caught e)
            \/ exists ix tx,
            createPumpFunInstruction sdk (publicKey (tokenMint accounts))
              creator (with_uri req (up_uri up)) = Ok ix
            /\ instructions tx = [ix]
        /\ ((exists e,
               new = SimulateTransaction tx (Throw e) :: fetched /\ r = caught e)
            \/ exists sim simulated,
            simulated = SimulateTransaction tx (Ok sim) :: fetched
        /\ ((exists err,
               sim_err sim = Some err
               /\ new = simulated
               /\ r = failure ("Transaction simulation failed: " ++ err)%string)
            \/ sim_err sim = None
            /\ exists ev sub,
            new = ev :: sub ++ simulated
        /\ ((exists s bh' c,
               ev = ConfirmTransaction s (Some bh') (Ok c)
               /\ conf_err c = None
               /\ r = created s (toBase58 sdk (publicKey (tokenMint accounts))))
            \/ exists msg,
               failure_message ev = Some msg /\ r = failure msg))))))))).
Proof.
  unfold createPumpFunToken, filebase_uploadMetadata, getLatestBlockhash,
    simulateTransaction, lift, call.
  rewrite try_catch_bind. cbv beta iota zeta.
  destruct (validateRequest req) as [[] | e0].
  2: { unfold ret. eexists _, []. split; [reflexivity |].
       split; [right; cbn; eauto |]. left. eauto. }
  rewrite try_catch_bind. cbv beta iota zeta.
  destruct (getCreatorKeypair sdk (creatorKeypair req)) as [creator | e1].
  2: { unfold ret. eexists _, []. split; [reflexivity |].
       split; [right; cbn; eauto |]. right. split; [reflexivity |].
       left. eauto. }
  rewrite try_catch_bind.
  destruct (findAvailableAccounts_extends tr) as (probes & Hprobes).
  destruct (findAvailableAccounts sdk env tr) as [[accounts | e2] t1];
    cbn [snd] in Hprobes; subst t1.
  2: { unfold ret. eexists _, probes. split; [reflexivity |].
       split; [right; cbn; eauto |]. right. split; [reflexivity |].
       right. exists creator. split; [reflexivity |]. left. eauto. }
  rewrite try_catch_bind. cbv beta iota zeta.
  destruct (env_uploadMetadata env (probes ++ tr) (metadata_request req))
    as [up | e3].
  2: { unfold ret. eexists _, (_ :: probes). split; [reflexivity |].
       split; [right; cbn; eauto |]. right. split; [reflexivity |].
       right. exists creator. split; [reflexivity |]. right.
       exists accounts, probes. split; [reflexivity |]. left. eauto. }
  rewrite try_catch_bind. cbv beta iota zeta.
  match goal with
  | |- context [env_getLatestBlockhash env ?t] =>
      destruct (env_getLatestBlockhash env t) as [bh | e4]
  end.
  2: { unfold ret. eexists _, (_ :: _ :: probes). split; [reflexivity |].
       split; [right; cbn; eauto |]. right. split; [reflexivity |].
       right. exists creator. split; [reflexivity |]. right.
       exists accounts, probes. split; [reflexivity |]. right.
       eexists up, _. split; [reflexivity |]. left. eauto. }
  rewrite try_catch_bind. cbv beta iota zeta.
  destruct (createPumpFunInstruction sdk (publicKey (tokenMint accounts))
              creator (with_uri req (up_uri up))) as [ix | e5] eqn:Eix.
  2: { unfold ret. eexists _, (_ :: _ :: probes). split; [reflexivity |].
       split; [right; cbn; eauto |]. right. split; [reflexivity |].
       right. exists creator. split; [reflexivity |]. right.
       exists accounts, probes. split; [reflexivity |]. right.
       eexists up, _. split; [reflexivity |]. right.
       eexists bh, _. split; [reflexivity |]. left. eauto. }
  rewrite try_catch_bind. cbv beta iota zeta.
  match goal with
  | |- context [env_simulateTransaction env ?t ?x] =>
      set (tx := x);
      destruct (env_simulateTransaction env t tx) as [sim | e6]
  end.
  2: { unfold ret. eexists _, (_ :: _ :: _ :: probes). split; [reflexivity |].
       split; [right; cbn; eauto |]. right. split; [reflexivity |].
       right. exists creator. split; [reflexivity |]. right.
       exists accounts, probes. split; [reflexivity |]. right.
       eexists up, _. split; [reflexivity |]. right.
       eexists bh, _. split; [reflexivity |]. right.
       exists ix, tx. split; [exact Eix |]. split; [reflexivity |].
       left. eauto. }
  destruct (sim_err sim) as [err |] eqn:Eerr.
  { unfold try_catch, throwError, throw, ret. cbv beta iota zeta.
    eexists _, (_ :: _ :: _ :: probes). split; [reflexivity |].
    split; [right; cbn; eauto |]. right. split; [reflexivity |].
    right. exists creator. split; [reflexivity |]. right.
    exists accounts, probes. split; [reflexivity |]. right.
    eexists up, _. split; [reflexivity |]. right.
    eexists bh, _. split; [reflexivity |]. right.
    exists ix, tx. split; [exact Eix |]. split; [reflexivity |].
    right. eexists sim, _. split; [reflexivity |]. left. eauto. }
  rewrite try_catch_bind.
  match goal with
  | |- context [createPumpFunToken_submit env ?x ?m ?c ?t] =>
      destruct (createPumpFunToken_submit_end x m c t) as (ev & sub & Htr & Hend);
      destruct (createPumpFunToken_submit env x m c t) as [[s | e7] t2];
      cbn [fst snd] in Htr, Hend; subst t2
  end.
  - destruct Hend as (bh' & c & sub' & -> & -> & Hc).
    unfold try_catch, ret. cbv beta iota zeta.
    eexists _, (_ :: (_ :: sub') ++ _ :: _ :: _ :: probes).
    split; [cbn [app]; now rewrite <- app_assoc |].
    split; [left; cbn; eauto |]. right. split; [reflexivity |].
    right. exists creator. split; [reflexivity |]. right.
    exists accounts, probes. split; [reflexivity |]. right.
    eexists up, _. split; [reflexivity |]. right.
    eexists bh, _. split; [reflexivity |]. right.
    exists ix, tx. split; [exact Eix |]. split; [reflexivity |].
    right. eexists sim, _. split; [reflexivity |]. right.
    split; [exact Eerr |]. eexists _, _. split; [reflexivity |].
    left. eauto 10.
  - unfold ret. cbv beta iota zeta.
    eexists _, (ev :: sub ++ _ :: _ :: _ :: probes).
    split; [cbn [app]; now rewrite <- app_assoc |].
    split; [right; cbn; eauto |]. right. split; [reflexivity |].
    right. exists creator. split; [reflexivity |]. right.
    exists accounts, probes. split; [reflexivity |]. right.
    eexists up, _. split; [reflexivity |]. right.
    eexists bh, _. split; [reflexivity |]. right.
    exists ix, tx. split; [exact Eix |]. split; [reflexivity |].
    right. eexists sim, _. split; [reflexivity |]. right.
    split; [exact Eerr |]. eexists _, _. split; [reflexivity |].
    right. eauto.
Qed.

End NeverThrows.

(* ================================================================== *)
(** * Further properties of the code *)
(* ================================================================== *)

Import Inspect.

(* ------------------------------------------------------------------ *)
(** ** The encoder on arbitrary strings *)
(* ------------------------------------------------------------------ *)

Section EncoderAllStrings.
Import Pumpfun.

Lemma length_utf8_of_code_point (cp : Z) :
  (1 <= length (utf8_of_code_point cp) <= 4)%nat.
Proof.
  unfold utf8_of_code_point.
  destruct (cp <? 128); [cbn; lia |].
  destruct (cp <? 2048); [cbn; lia |].
  destruct (cp <? 65536); cbn; lia.
Qed.

(** One unfolding of the encoder, by the kind of the first code unit. *)
Lemma utf8_chars_cons (c : Z) (s : JsString) :
  utf8_chars (c :: s)
  = if is_high_surrogate c then
      match s with
      | d :: s' =>
          if is_low_surrogate d
          then utf8_of_code_point (65536 + (c - 55296) * 1024 + (d - 56320))
               :: utf8_chars s'
          else replacement :: utf8_chars s
      | [] => [replacement]
      end
    else if is_low_surrogate c then replacement :: utf8_chars s
    else utf8_of_code_point c :: utf8_chars s.
Proof. reflexivity. Qed.

(** Every character is written as one to four bytes. *)
Lemma utf8_chars_groups (s : JsString) :
  Forall (fun ch => (1 <= length ch <= 4)%nat) (utf8_chars s).
Proof.
  enough (H : Forall (fun ch => (1 <= length ch <= 4)%nat) (utf8_chars s)
              /\ forall c, Forall (fun ch => (1 <= length ch <= 4)%nat)
                             (utf8_chars (c :: s))) by apply H.
  induction s as [| d s' [IH1 IH2]].
  - split; [constructor |]. intros c. rewrite utf8_chars_cons.
    destruct (is_high_surrogate c); [repeat constructor; cbn; lia |].
    destruct (is_low_surrogate c); constructor; try constructor;
      try (cbn; lia); apply length_utf8_of_code_point.
  - split; [apply IH2 |]. intros c. rewrite utf8_chars_cons.
    destruct (is_high_surrogate c).
    + destruct (is_low_surrogate d).
      * constructor; [apply length_utf8_of_code_point | exact IH1].
      * constructor; [cbn; lia | apply IH2].
    + destruct (is_low_surrogate c).
      * constructor; [cbn; lia | apply IH2].
      * constructor; [apply length_utf8_of_code_point | apply IH2].
Qed.

Lemma length_utf8_pair (c d : Z) :
  is_high_surrogate c = true -> is_low_surrogate d = true ->
  length (utf8_of_code_point (65536 + (c - 55296) * 1024 + (d - 56320))) = 4%nat.
Proof.
  unfold is_high_surrogate, is_low_surrogate, utf8_of_code_point.
  intros Hc Hd. apply andb_true_iff in Hc, Hd.
  destruct Hc as [Hc1 Hc2], Hd as [Hd1 Hd2].
  apply Z.leb_le in Hc1, Hc2, Hd1, Hd2.
  replace (65536 + (c - 55296) * 1024 + (d - 56320) <? 128) with false
    by (symmetry; apply Z.ltb_ge; lia).
  replace (65536 + (c - 55296) * 1024 + (d - 56320) <? 2048) with false
    by (symmetry; apply Z.ltb_ge; lia).
  replace (65536 + (c - 55296) * 1024 + (d - 56320) <? 65536) with false
    by (symmetry; apply Z.ltb_ge; lia).
  reflexivity.
Qed.

(** The encoding is never shorter than the string, and as long only for
    ASCII. *)
Lemma length_utf8 (s : JsString) :
  (length s <= length (utf8 s))%nat
  /\ (Forall is_code_unit s -> length (utf8 s) = length s -> Forall is_ascii s).
Proof.
  enough (H : ((length s <= length (utf8 s))%nat
               /\ (Forall is_code_unit s -> length (utf8 s) = length s ->
                   Forall is_ascii s))
              /\ forall c,
                  (length (c :: s) <= length (utf8 (c :: s)))%nat
                  /\ (Forall is_code_unit (c :: s) ->
                      length (utf8 (c :: s)) = length (c :: s) ->
                      Forall is_ascii (c :: s))) by apply H.
  unfold utf8.
  induction s as [| d s' [[IH1 IH1'] IH2]].
  - split; [split; [cbn; lia | constructor] |].
    intros c. rewrite utf8_chars_cons.
    destruct (is_high_surrogate c) eqn:Hh; [cbn; split; [lia | intros; lia] |].
    destruct (is_low_surrogate c) eqn:Hl; [cbn; split; [lia | intros; lia] |].
    cbn [concat utf8_chars]. rewrite app_nil_r.
    pose proof (length_utf8_of_code_point c) as Hlen.
    split; [cbn [length]; lia |].
    intros Hu He. constructor; [| constructor].
    inversion Hu as [| ? ? Hc _]; subst. unfold is_code_unit in Hc.
    unfold is_ascii. unfold utf8_of_code_point in He.
    destruct (c <? 128) eqn:E1; [apply Z.ltb_lt in E1; lia |].
    destruct (c <? 2048); [discriminate He |].
    destruct (c <? 65536); discriminate He.
  - split; [apply IH2 |]. intros c. rewrite utf8_chars_cons.
    destruct (IH2 d) as [IHd IHd'].
    destruct (is_high_surrogate c) eqn:Hh.
    + destruct (is_low_surrogate d) eqn:Hl.
      * cbn [concat]. rewrite length_app, (length_utf8_pair c d Hh Hl).
        cbn [length] in *. split; [lia | intros; lia].
      * cbn [concat]. rewrite length_app. cbn [length replacement] in *.
        split; [lia | intros; lia].
    + destruct (is_low_surrogate c) eqn:Hl.
      * cbn [concat]. rewrite length_app. cbn [length replacement] in *.
        split; [lia | intros; lia].
      * cbn [concat]. rewrite length_app.
        pose proof (length_utf8_of_code_point c) as Hlen.
        cbn [length] in *. split; [lia |].
        intros Hu He. inversion Hu as [| ? ? Hc Hu']; subst.
        assert (H1 : length (utf8_of_code_point c) = 1%nat) by lia.
        constructor.
        -- unfold is_code_unit in Hc. unfold is_ascii.
           unfold utf8_of_code_point in H1.
           destruct (c <? 128) eqn:E1; [apply Z.ltb_lt in E1; lia |].
           destruct (c <? 2048); [discriminate H1 |].
           destruct (c <? 65536); discriminate H1.
        -- apply IHd'; [assumption | lia].
Qed.

(** With three bytes of slack the first [n] bytes written are the first
    [n] bytes of the encoding, and at least [n] bytes are written when
    the encoding has that many. *)
Lemma take_fitting_prefix (chars : list (list Z)) :
  Forall (fun ch => (1 <= length ch <= 4)%nat) chars ->
  forall n capacity,
    (n + 3 <= capacity)%nat ->
    firstn n (take_fitting chars capacity) = firstn n (concat chars)
    /\ ((n <= length (concat chars))%nat ->
        (n <= length (take_fitting chars capacity))%nat).
Proof.
  induction 1 as [| ch rest Hch _ IH]; intros n capacity Hcap.
  - cbn. auto.
  - cbn [take_fitting concat].
    destruct (length ch <=? capacity)%nat eqn:E.
    + apply Nat.leb_le in E. rewrite !firstn_app, !length_app.
      destruct (Nat.le_gt_cases n (length ch)) as [Hn | Hn].
      * replace (n - length ch)%nat with 0%nat by lia.
        rewrite !firstn_O. split; [reflexivity | lia].
      * destruct (IH (n - length ch)%nat (capacity - length ch)%nat) as [H1 H2];
          [lia |].
        rewrite H1. split; [reflexivity |]. intros Hl.
        specialize (H2 ltac:(lia)). lia.
    + apply Nat.leb_gt in E. assert (n = 0%nat) by lia. subst n.
      cbn. split; [reflexivity | lia].
Qed.

Lemma blit_prefix (p rest w : list Z) (off : nat) :
  off = length p -> (length w <= length rest)%nat ->
  blit (p ++ rest) off w = p ++ w ++ skipn (length w) rest.
Proof.
  intros -> Hw. unfold blit.
  rewrite firstn_app, firstn_all, Nat.sub_diag, firstn_O, app_nil_r.
  rewrite skipn_app, (skipn_all2 p) by lia.
  replace (length p + length w - length p)%nat with (length w) by lia.
  reflexivity.
Qed.

Lemma writeUInt32LE_after (p rest : list Z) (v : Z) (off : nat) :
  off = length p -> (4 <= length rest)%nat -> 0 <= v < 4294967296 ->
  exists rest',
    writeUInt32LE (p ++ rest) v off = Some ((p ++ le32 v) ++ rest')
    /\ length rest' = (length rest - 4)%nat.
Proof.
  intros Hoff Hr Hv. unfold writeUInt32LE.
  replace ((0 <=? v) && (v <=? 4294967295)) with true
    by (symmetry; apply andb_true_iff; lia).
  replace (off + 4 <=? length (p ++ rest))%nat with true
    by (symmetry; apply Nat.leb_le; rewrite length_app; lia).
  cbn [andb]. exists (skipn 4 rest). split.
  - rewrite blit_prefix by (cbn [length le32]; lia || assumption).
    now rewrite <- app_assoc.
  - apply length_skipn.
Qed.

Lemma writeUInt8_after (p rest : list Z) (v : Z) (off : nat) :
  off = length p -> (1 <= length rest)%nat -> 0 <= v <= 255 ->
  exists rest',
    writeUInt8 (p ++ rest) v off = Some ((p ++ [v]) ++ rest')
    /\ length rest' = (length rest - 1)%nat.
Proof.
  intros Hoff Hr Hv. unfold writeUInt8.
  replace ((0 <=? v) && (v <=? 255)) with true
    by (symmetry; apply andb_true_iff; lia).
  replace (off + 1 <=? length (p ++ rest))%nat with true
    by (symmetry; apply Nat.leb_le; rewrite length_app; lia).
  cbn [andb]. exists (skipn 1 rest). split.
  - rewrite blit_prefix by (cbn [length]; lia || assumption).
    now rewrite <- app_assoc.
  - apply length_skipn.
Qed.

Lemma write_utf8_after (p rest : list Z) (s : JsString) (off : nat) :
  off = length p -> (length s + 3 <= length rest)%nat ->
  exists rest',
    write_utf8 (p ++ rest) s off
    = Some ((p ++ firstn (length s) (utf8 s)) ++ rest')
    /\ length rest' = (length rest - length s)%nat.
Proof.
  intros Hoff Hr. unfold write_utf8.
  assert (Hlen : length (p ++ rest) = (off + length rest)%nat)
    by (rewrite length_app; lia).
  rewrite Hlen.
  replace (off <=? off + length rest)%nat with true
    by (symmetry; apply Nat.leb_le; lia).
  replace (off + length rest - off)%nat with (length rest) by lia.
  set (w := take_fitting (utf8_chars s) (length rest)).
  destruct (take_fitting_prefix (utf8_chars s) (utf8_chars_groups s)
              (length s) (length rest) Hr) as [H1 H2].
  fold w in H1, H2. fold (utf8 s) in H1, H2.
  specialize (H2 (proj1 (length_utf8 s))).
  pose proof (length_take_fitting (utf8_chars s) (length rest)) as Hw.
  fold w in Hw.
  exists (skipn (length s) w ++ skipn (length w) rest). split.
  - rewrite blit_prefix by assumption. rewrite <- H1, <- !app_assoc.
    now rewrite (app_assoc (firstn _ w)), firstn_skipn.
  - rewrite length_app, !length_skipn. lia.
Qed.

Lemma write_hex_of_after (p rest bytes : list Z) (off : nat) :
  off = length p -> (length bytes <= length rest)%nat ->
  exists rest',
    write_hex_of (p ++ rest) bytes off = Some ((p ++ bytes) ++ rest')
    /\ length rest' = (length rest - length bytes)%nat.
Proof.
  intros Hoff Hr. unfold write_hex_of.
  assert (Hlen : length (p ++ rest) = (off + length rest)%nat)
    by (rewrite length_app; lia).
  rewrite Hlen.
  replace (off <=? off + length rest)%nat with true
    by (symmetry; apply Nat.leb_le; lia).
  rewrite firstn_all2 by lia.
  exists (skipn (length bytes) rest). split.
  - rewrite blit_prefix by assumption. now rewrite <- app_assoc.
  - apply length_skipn.
Qed.

End EncoderAllStrings.

Section InstructionDataAllStrings.
Import Pumpfun.

Ltac len' :=
  rewrite ?length_app, ?length_le32, ?length_discriminator, ?length_firstn;
  cbn [length]; lia.

(** For every request the data is the discriminator, then for name,
    symbol and uri the length in UTF-16 code units followed by that many
    bytes of the UTF-8 encoding (its first bytes, whatever follows in the
    encoding is lost), then the creator key and the flag. *)
Theorem createPumpFunInstruction_data_every_string
    (creatorKeypair : Keypair) (req : TokenCreationRequest) :
  js_length_ok (name req) -> js_length_ok (symbol req) ->
  js_length_ok (or_default (uri req) []) ->
  length (toBuffer (publicKey creatorKeypair)) = 32%nat ->
  createPumpFunInstruction_data creatorKeypair req
  = Some (written_layout creatorKeypair req).
Proof.
  unfold js_length_ok. intros Ln Ls Lu Lk.
  unfold createPumpFunInstruction_data, written_layout, written_field.
  fold (mayhem_byte req).
  set (nm := name req) in *. set (sy := symbol req) in *.
  set (u := or_default (uri req) []) in *.
  set (pk := toBuffer (publicKey creatorKeypair)) in *.
  pose proof (proj1 (length_utf8 nm)) as Un.
  pose proof (proj1 (length_utf8 sy)) as Us.
  pose proof (proj1 (length_utf8 u)) as Uu.
  cbv zeta.
  rewrite (write_discriminator_zeros _ (45 + length nm + length sy + length u))
    by lia.
  cbn [obind fst snd].
  destruct (writeUInt32LE_after discriminator
              (repeat 0 (45 + length nm + length sy + length u))
              (Z.of_nat (length nm)) 8) as (r1 & E1 & L1);
    [reflexivity | rewrite repeat_length; lia | lia |].
  rewrite E1. cbn [obind]. rewrite repeat_length in L1.
  match goal with
  | |- context [write_utf8 (?p ++ ?r) ?x ?off] =>
      destruct (write_utf8_after p r x off) as (r2 & E2 & L2); [len' | lia |]
  end.
  rewrite E2. cbn [obind].
  match goal with
  | |- context [writeUInt32LE (?p ++ ?r) ?x ?off] =>
      destruct (writeUInt32LE_after p r x off) as (r3 & E3 & L3);
        [len' | lia | lia |]
  end.
  rewrite E3. cbn [obind].
  match goal with
  | |- context [write_utf8 (?p ++ ?r) ?x ?off] =>
      destruct (write_utf8_after p r x off) as (r4 & E4 & L4); [len' | lia |]
  end.
  rewrite E4. cbn [obind].
  match goal with
  | |- context [writeUInt32LE (?p ++ ?r) ?x ?off] =>
      destruct (writeUInt32LE_after p r x off) as (r5 & E5 & L5);
        [len' | lia | lia |]
  end.
  rewrite E5. cbn [obind].
  match goal with
  | |- context [write_utf8 (?p ++ ?r) ?x ?off] =>
      destruct (write_utf8_after p r x off) as (r6 & E6 & L6); [len' | lia |]
  end.
  rewrite E6. cbn [obind].
  match goal with
  | |- context [write_hex_of (?p ++ ?r) ?x ?off] =>
      destruct (write_hex_of_after p r x off) as (r7 & E7 & L7); [len' | lia |]
  end.
  rewrite E7. cbn [obind].
  match goal with
  | |- context [writeUInt8 (?p ++ ?r) ?x ?off] =>
      destruct (writeUInt8_after p r x off) as (r8 & E8 & L8);
        [len' | lia | apply mayhem_byte_range |]
  end.
  rewrite E8. cbn [obind].
  assert (r8 = []) by (destruct r8; [reflexivity | cbn [length] in L8; lia]).
  subst r8. rewrite app_nil_r, <- !app_assoc. reflexivity.
Qed.

Lemma createPumpFunInstruction_data_every_string_witness :
  js_length_ok (name Samples.request_accent)
  /\ length (toBuffer (publicKey Samples.creator)) = 32%nat
  /\ createPumpFunInstruction_data Samples.creator Samples.request_accent
     = Some (written_layout Samples.creator Samples.request_accent).
Proof.
  split; [unfold js_length_ok; vm_compute; reflexivity |].
  split; [reflexivity |].
  apply (createPumpFunInstruction_data_every_string
           Samples.creator Samples.request_accent).
  - unfold js_length_ok. vm_compute. reflexivity.
  - unfold js_length_ok. vm_compute. reflexivity.
  - unfold js_length_ok. vm_compute. reflexivity.
  - reflexivity.
Defined.

Lemma length_written_layout (creatorKeypair : Keypair) (req : TokenCreationRequest) :
  length (written_layout creatorKeypair req)
  = (21 + length (name req) + length (symbol req)
     + length (or_default (uri req) [])
     + length (toBuffer (publicKey creatorKeypair)))%nat.
Proof.
  unfold written_layout, written_field.
  pose proof (proj1 (length_utf8 (name req))).
  pose proof (proj1 (length_utf8 (symbol req))).
  pose proof (proj1 (length_utf8 (or_default (uri req) []))).
  rewrite !length_app, !length_firstn, !length_le32, length_discriminator.
  cbn [length]. lia.
Qed.

Lemma length_claimed_layout (creatorKeypair : Keypair) (req : TokenCreationRequest) :
  length (claimed_layout creatorKeypair req)
  = (21 + length (utf8 (name req)) + length (utf8 (symbol req))
     + length (utf8 (or_default (uri req) []))
     + length (toBuffer (publicKey creatorKeypair)))%nat.
Proof.
  unfold claimed_layout.
  rewrite !length_app, !length_le32, length_discriminator.
  cbn [length]. lia.
Qed.

(** The data is the length-prefixed layout with the complete UTF-8
    encodings exactly when name, symbol and uri are ASCII: any other
    character makes the encoder cut the field. *)
Theorem createPumpFunInstruction_data_complete_iff_ascii
    (creatorKeypair : Keypair) (req : TokenCreationRequest) :
  js_length_ok (name req) -> js_length_ok (symbol req) ->
  js_length_ok (or_default (uri req) []) ->
  length (toBuffer (publicKey creatorKeypair)) = 32%nat ->
  Forall is_code_unit (name req) -> Forall is_code_unit (symbol req) ->
  Forall is_code_unit (or_default (uri req) []) ->
  (createPumpFunInstruction_data creatorKeypair req
   = Some (claimed_layout creatorKeypair req)
   <-> Forall is_ascii (name req) /\ Forall is_ascii (symbol req)
       /\ Forall is_ascii (or_default (uri req) [])).
Proof.
  intros Ln Ls Lu Lk Cn Cs Cu. split.
  - intros H.
    rewrite (createPumpFunInstruction_data_every_string _ _ Ln Ls Lu Lk) in H.
    apply (f_equal (fun o => match o with
                             | Some l => length l
                             | None => 0%nat
                             end)) in H.
    cbv beta iota in H.
    rewrite length_written_layout, length_claimed_layout in H.
    destruct (length_utf8 (name req)) as [Gn An].
    destruct (length_utf8 (symbol req)) as [Gs As].
    destruct (length_utf8 (or_default (uri req) [])) as [Gu Au].
    repeat split; [apply An | apply As | apply Au]; try assumption; lia.
  - intros (An & As & Au).
    now apply createPumpFunInstruction_data_ascii.
Qed.

Lemma createPumpFunInstruction_data_complete_iff_ascii_witness :
  Forall is_code_unit (name Samples.request_accent)
  /\ (createPumpFunInstruction_data Samples.creator Samples.request_accent
      = Some (claimed_layout Samples.creator Samples.request_accent)
      <-> Forall is_ascii (name Samples.request_accent)
          /\ Forall is_ascii (symbol Samples.request_accent)
          /\ Forall is_ascii (or_default (uri Samples.request_accent) [])).
Proof.
  split; [repeat constructor; unfold is_code_unit; lia |].
  apply (createPumpFunInstruction_data_complete_iff_ascii
           Samples.creator Samples.request_accent).
  - unfold js_length_ok. vm_compute. reflexivity.
  - unfold js_length_ok. vm_compute. reflexivity.
  - unfold js_length_ok. vm_compute. reflexivity.
  - reflexivity.
  - repeat constructor; unfold is_code_unit; lia.
  - repeat constructor; unfold is_code_unit; lia.
  - repeat constructor; unfold is_code_unit; lia.
Defined.

End InstructionDataAllStrings.

(* ------------------------------------------------------------------ *)
(** ** What validateRequest accepts *)
(* ------------------------------------------------------------------ *)

Section Accepted.
Import Pumpfun.

Lemma truthy_length (s : JsString) : truthy s = true <-> (1 <= length s)%nat.
Proof. destruct s; cbn; split; intros; (lia || congruence). Qed.

Lemma buyAmount_checks (n : JsNumber) :
  num_truthy n && (num_le n 0 || isNaN n) = false
  /\ num_truthy n && num_gt n MAX_SAFE_INTEGER = false
  <-> buyAmount_accepted n.
Proof.
  destruct n as [| neg | q]; cbn.
  - tauto.
  - destruct neg; cbn; split; (tauto || intros [? ?]; discriminate).
  - rewrite orb_false_r. destruct (Qeq_bool q 0) eqn:E0; cbn.
    + apply Qeq_bool_iff in E0. tauto.
    + assert (Hne : ~ (q == 0)%Q)
        by (intros H; apply Qeq_bool_iff in H; congruence).
      split.
      * intros [H1 H2]. right. split.
        -- apply Qnot_le_lt. intros H. apply Qle_bool_iff in H.
           change (inject_Z 0) with 0%Q in H1. congruence.
        -- apply Qle_bool_iff. now apply negb_false_iff in H2.
      * intros [H | [H1 H2]]; [contradiction |]. split.
        -- destruct (Qle_bool q (inject_Z 0)) eqn:E; [| reflexivity].
           apply Qle_bool_iff in E. change (inject_Z 0) with 0%Q in E.
           exfalso. apply (Qlt_not_le _ _ H1 E).
        -- apply negb_false_iff. now apply Qle_bool_iff.
Qed.

(** [validateRequest] accepts a request exactly when: name, symbol and
    creator key are non-empty; name has at most 32 and symbol at most 8
    code units; a non-empty uri or an image is given; the uri has at most
    200 code units; the image at most 100,000,000 bytes; a non-empty
    external_url starts with http:// or https://; and buyAmount, when
    given, is NaN, zero, or positive and at most 2^53 - 1.  (NaN and
    zero pass: the checks are guarded by the truthiness of the
    amount.) *)
Theorem validateRequest_accepts_exactly (req : TokenCreationRequest) :
  validateRequest req = Ok tt
  <-> (1 <= length (name req) <= 32)%nat
      /\ (1 <= length (symbol req) <= 8)%nat
      /\ (1 <= length (creatorKeypair req))%nat
      /\ (truthy_opt (uri req) = true \/ imageBuffer req <> None)
      /\ (forall u, uri req = Some u -> (length u <= 200)%nat)
      /\ (forall b, imageBuffer req = Some b -> Z.of_nat (length b) <= 100000000)
      /\ (forall u, external_url req = Some u ->
                    u = [] \/ urlPattern_test u = true)
      /\ (forall n, buyAmount req = Some n -> buyAmount_accepted n).
Proof.
  unfold validateRequest.
  destruct (negb (truthy (name req)) || negb (truthy (symbol req))
            || negb (truthy (creatorKeypair req))
            || negb (truthy_opt (uri req)) && is_null (imageBuffer req)) eqn:E1.
  { split; [discriminate |]. intros (Hn & Hs & Hc & Hu & _). exfalso.
    apply orb_true_iff in E1 as [E1 | E1];
      [apply orb_true_iff in E1 as [E1 | E1];
       [apply orb_true_iff in E1 as [E1 | E1] |] |].
    - apply negb_true_iff in E1.
      assert (truthy (name req) = true) by (apply truthy_length; lia). congruence.
    - apply negb_true_iff in E1.
      assert (truthy (symbol req) = true) by (apply truthy_length; lia). congruence.
    - apply negb_true_iff in E1.
      assert (truthy (creatorKeypair req) = true) by (apply truthy_length; lia).
      congruence.
    - apply andb_true_iff in E1 as [E1 E2]. apply negb_true_iff in E1.
      destruct Hu as [Hu | Hu]; [congruence |].
      destruct (imageBuffer req); [discriminate E2 | now apply Hu]. }
  apply orb_false_iff in E1 as [E1 E1d]. apply orb_false_iff in E1 as [E1 E1c].
  apply orb_false_iff in E1 as [E1a E1b].
  apply negb_false_iff in E1a, E1b, E1c.
  apply truthy_length in E1a, E1b, E1c.
  assert (Hui : truthy_opt (uri req) = true \/ imageBuffer req <> None).
  { apply andb_false_iff in E1d as [E | E].
    - left. now apply negb_false_iff in E.
    - right. destruct (imageBuffer req); [discriminate | discriminate E]. }
  destruct (32 <? length (name req))%nat eqn:E2.
  { apply Nat.ltb_lt in E2. split; [discriminate | intros (Hn & _); lia]. }
  apply Nat.ltb_ge in E2.
  destruct (8 <? length (symbol req))%nat eqn:E3.
  { apply Nat.ltb_lt in E3. split; [discriminate | intros (_ & Hs & _); lia]. }
  apply Nat.ltb_ge in E3.
  destruct (match uri req with
            | Some u => truthy u && (200 <? length u)%nat
            | None => false
            end) eqn:E4.
  { split; [discriminate |]. intros (_ & _ & _ & _ & Hu & _). exfalso.
    destruct (uri req) as [u |]; [| discriminate E4].
    apply andb_true_iff in E4 as [_ E4]. apply Nat.ltb_lt in E4.
    specialize (Hu u eq_refl). lia. }
  assert (Hu : forall u, uri req = Some u -> (length u <= 200)%nat).
  { intros u Hu. rewrite Hu in E4. apply andb_false_iff in E4 as [E | E].
    - destruct u; [cbn; lia | discriminate E].
    - apply Nat.ltb_ge in E. exact E. }
  destruct (match imageBuffer req with
            | Some b => 100000000 <? Z.of_nat (length b)
            | None => false
            end) eqn:E5.
  { split; [discriminate |]. intros (_ & _ & _ & _ & _ & Hb & _). exfalso.
    destruct (imageBuffer req) as [b |]; [| discriminate E5].
    apply Z.ltb_lt in E5. specialize (Hb b eq_refl). lia. }
  assert (Hb : forall b, imageBuffer req = Some b ->
                         Z.of_nat (length b) <= 100000000).
  { intros b Hb. rewrite Hb in E5. now apply Z.ltb_ge in E5. }
  destruct (match external_url req with
            | Some u => truthy u && negb (urlPattern_test u)
            | None => false
            end) eqn:E6.
  { split; [discriminate |]. intros (_ & _ & _ & _ & _ & _ & He & _). exfalso.
    destruct (external_url req) as [u |]; [| discriminate E6].
    apply andb_true_iff in E6 as [E6 E6']. apply negb_true_iff in E6'.
    destruct (He u eq_refl) as [-> | H]; [discriminate E6 | congruence]. }
  assert (He : forall u, external_url req = Some u ->
                         u = [] \/ urlPattern_test u = true).
  { intros u He. rewrite He in E6. apply andb_false_iff in E6 as [E | E].
    - left. destruct u; [reflexivity | discriminate E].
    - right. now apply negb_false_iff in E. }
  destruct (match buyAmount req with
            | Some n => num_truthy n && (num_le n 0 || isNaN n)
            | None => false
            end) eqn:E7.
  { split; [discriminate |]. intros (_ & _ & _ & _ & _ & _ & _ & Ha). exfalso.
    destruct (buyAmount req) as [n |]; [| discriminate E7].
    apply (buyAmount_checks n) in Ha; [| reflexivity]. destruct Ha. congruence. }
  destruct (match buyAmount req with
            | Some n => num_truthy n && num_gt n MAX_SAFE_INTEGER
            | None => false
            end) eqn:E8.
  { split; [discriminate |]. intros (_ & _ & _ & _ & _ & _ & _ & Ha). exfalso.
    destruct (buyAmount req) as [n |]; [| discriminate E8].
    apply (buyAmount_checks n) in Ha; [| reflexivity]. destruct Ha. congruence. }
  split; [intros _ | reflexivity].
  repeat split; try assumption; try lia.
  intros n Hn. rewrite Hn in E7, E8. apply buyAmount_checks. auto.
Qed.

End Accepted.

(* ------------------------------------------------------------------ *)
(** ** What the direct-submission loop reports *)
(* ------------------------------------------------------------------ *)

Section DirectSubmissionReport.

Variable env : Env.
Variables (creatorKeypair tokenMint : Keypair) (latestBlockhash : BlockhashInfo).

Lemma failed_signature_app (a b : Trace) :
  failed_signature (a ++ b) = or_else (failed_signature a) (failed_signature b).
Proof.
  induction a as [| e a IH]; [reflexivity |].
  destruct e as [| | | | | | s st [c | x] | | | | | | |]; cbn; try exact IH.
  destruct (conf_err c); [reflexivity | exact IH].
Qed.

Lemma or_else_assoc {A} (a b c : option A) :
  or_else (or_else a b) c = or_else a (or_else b c).
Proof. destruct a; reflexivity. Qed.

Lemma surfaced_error_app (a b : Trace) :
  a <> [] -> surfaced_error (a ++ b) = surfaced_error a.
Proof. destruct a as [| e a]; [congruence | reflexivity]. Qed.

Lemma confirm_strategies_app (a b : Trace) :
  confirm_strategies (a ++ b) = confirm_strategies a ++ confirm_strategies b.
Proof. apply flat_map_app. Qed.

(** One iteration: what it leaves in [result] when the loop goes on. *)
Lemma fallbackDirectSubmission_attempt_report (attempt : nat)
    (transaction : Transaction) (result : SubmitResult) (tr : Trace) :
  exists tx' step evs,
    Pumpfun.fallbackDirectSubmission_attempt env attempt transaction
      creatorKeypair latestBlockhash tokenMint result tr
    = (Ok (tx', step), evs ++ tr)
    /\ evs <> []
    /\ Forall (fun st => st = Some latestBlockhash) (confirm_strategies evs)
    /\ match step with
       | Pumpfun.Return r => confirmed r = true
       | Pumpfun.Continue result' =>
           confirmed result' = false
           /\ res_error result' = surfaced_error evs
           /\ res_signature result'
              = or_else (failed_signature evs) (res_signature result)
       end.
Proof.
  unfold Pumpfun.fallbackDirectSubmission_attempt,
    Pumpfun.getLatestBlockhash, Pumpfun.sendRawTransaction,
    Pumpfun.confirmTransaction, try_catch, bind, call, ret.
  cbv beta iota zeta.
  destruct (1 <? attempt)%nat; cbv beta iota zeta.
  - destruct (env_getLatestBlockhash env tr) as [bh | e]; cbv beta iota zeta.
    + match goal with
      | |- context [env_sendRawTransaction env ?t ?x] =>
          destruct (env_sendRawTransaction env t x) as [s | e]
      end; cbv beta iota zeta.
      * match goal with
        | |- context [env_confirmTransaction env ?t s] =>
            destruct (env_confirmTransaction env t s) as [c | e]
        end; cbv beta iota zeta.
        -- destruct (conf_err c) as [err |] eqn:Eerr; cbv beta iota zeta;
             eexists _, _, [_; _; _]; (split; [reflexivity |]);
             (split; [discriminate |]); cbn; rewrite ?Eerr;
             repeat constructor.
        -- eexists _, _, [_; _; _]. split; [reflexivity |].
           split; [discriminate |]. cbn. repeat constructor.
      * eexists _, _, [_; _]. split; [reflexivity |].
        split; [discriminate |]. cbn. repeat constructor.
    + eexists _, _, [_]. split; [reflexivity |].
      split; [discriminate |]. cbn. repeat constructor.
  - destruct (env_sendRawTransaction env tr transaction) as [s | e];
      cbv beta iota zeta.
    + match goal with
      | |- context [env_confirmTransaction env ?t s] =>
          destruct (env_confirmTransaction env t s) as [c | e]
      end; cbv beta iota zeta.
      * destruct (conf_err c) as [err |] eqn:Eerr; cbv beta iota zeta;
          eexists _, _, [_; _]; (split; [reflexivity |]);
          (split; [discriminate |]); cbn; rewrite ?Eerr;
          repeat constructor.
      * eexists _, _, [_; _]. split; [reflexivity |].
        split; [discriminate |]. cbn. repeat constructor.
    + eexists _, _, [_]. split; [reflexivity |].
      split; [discriminate |]. cbn. repeat constructor.
Qed.

Lemma fallbackDirectSubmission_from_report (n : nat) :
  forall attempt transaction result tr,
    confirmed result = false ->
    exists r new,
      Pumpfun.fallbackDirectSubmission_from env n attempt transaction
        creatorKeypair latestBlockhash tokenMint result tr = (Ok r, new ++ tr)
      /\ (n = 0%nat -> new = [])
      /\ (n <> 0%nat -> new <> [])
      /\ Forall (fun st => st = Some latestBlockhash) (confirm_strategies new)
      /\ (confirmed r = false ->
          res_error r = match new with
                        | [] => res_error result
                        | _ => surfaced_error new
                        end
          /\ res_signature r
             = or_else (failed_signature new) (res_signature result)).
Proof.
  induction n as [| n IH]; intros attempt transaction result tr Hc.
  - exists result, []. cbn. repeat split; auto; congruence.
  - rewrite fallbackDirectSubmission_from_S.
    destruct (fallbackDirectSubmission_attempt_report attempt transaction
                result tr) as (tx' & step & evs & E & Hne & Hst & Hend).
    rewrite (bind_ok _ _ _ _ _ E). cbn [fst snd].
    destruct step as [r | result'].
    + exists r, evs. unfold ret. split; [reflexivity |].
      split; [discriminate |]. split; [auto |]. split; [exact Hst |].
      intros Hf. congruence.
    + destruct Hend as (Hc' & He' & Hs').
      destruct (IH (S attempt) tx' result' (evs ++ tr) Hc')
        as (r & new & E2 & Hz & Hnz & Hst2 & Hrep).
      exists r, (new ++ evs). rewrite E2, app_assoc.
      split; [reflexivity |]. split; [discriminate |]. split.
      { intros _ H. apply app_eq_nil in H as [_ H]. contradiction. }
      split.
      { rewrite confirm_strategies_app. apply Forall_app. auto. }
      intros Hf. destruct (Hrep Hf) as [Herr Hsig]. split.
      * rewrite Herr. destruct new as [| e new]; [| reflexivity].
        cbn [app]. rewrite He'. destruct evs; [congruence | reflexivity].
      * rewrite Hsig, Hs', failed_signature_app. symmetry. apply or_else_assoc.
Qed.

(** What [fallbackDirectSubmission] reports when no attempt was confirmed:
    the error is the one of the newest event (the exception's message, or
    the execution error of the last confirmation); the signature is that
    of the newest confirmation that came back with an execution error,
    and there is none if no confirmation did, so that error and signature
    may stem from different attempts.  Every confirmation, also after a
    retry has put a fresh blockhash into the transaction, is asked with
    the blockhash the caller passed in. *)
Theorem fallbackDirectSubmission_failure_report
    (transaction : Transaction) (tr : Trace) :
  exists r new,
    Pumpfun.fallbackDirectSubmission env transaction creatorKeypair
      latestBlockhash tokenMint tr = (Ok r, new ++ tr)
    /\ Forall (fun st => st = Some latestBlockhash) (confirm_strategies new)
    /\ (confirmed r = false ->
        res_error r = surfaced_error new
        /\ res_signature r = failed_signature new).
Proof.
  unfold Pumpfun.fallbackDirectSubmission.
  destruct (fallbackDirectSubmission_from_report Pumpfun.maxRetries 1 transaction
              (mkSubmitResult false None (Some "Direct submission failed"%string))
              tr eq_refl) as (r & new & E & _ & Hnz & Hst & Hrep).
  exists r, new. split; [exact E |]. split; [exact Hst |].
  intros Hf. destruct (Hrep Hf) as [Herr Hsig]. split.
  - rewrite Herr. destruct new as [| e new]; [| reflexivity].
    exfalso. apply Hnz; [discriminate | reflexivity].
  - rewrite Hsig. cbn. destruct (failed_signature new); reflexivity.
Qed.

End DirectSubmissionReport.

(* ------------------------------------------------------------------ *)
(** ** The answers of the route *)
(* ------------------------------------------------------------------ *)

Section RouteAnswers.
Import Pumpfun Router.

Variable sdk : Sdk.
Variable env : Env.

(** The service resolves, and a failure carries a message. *)
Lemma createPumpFunToken_resolves (req : TokenCreationRequest) (tr : Trace) :
  exists r new,
    createPumpFunToken sdk env req tr = (Ok r, new ++ tr)
    /\ (success r = false -> exists msg, error r = Some msg).
Proof.
  destruct (createPumpFunToken_pipeline sdk env req tr) as (new & Htr & _).
  unfold createPumpFunToken in *.
  match goal with
  | |- context [try_catch ?m ?h tr] => destruct (m tr) as [[r | e] t] eqn:E
  end.
  - rewrite (try_catch_ok _ _ _ _ _ E) in Htr |- *. cbn [snd] in Htr. subst t.
    exists r, new. split; [reflexivity |]. intros Hs.
    apply bind_ok_inv in E as (? & t1 & _ & E).
    apply bind_ok_inv in E as (creatorKeypair & t2 & _ & E).
    apply bind_ok_inv in E as (accounts & t3 & _ & E).
    apply bind_ok_inv in E as (up & t4 & _ & E).
    apply bind_ok_inv in E as (latestBlockhash & t5 & _ & E).
    apply bind_ok_inv in E as (ix & t6 & _ & E).
    apply bind_ok_inv in E as (simulation & t7 & _ & E).
    destruct (sim_err simulation); [discriminate E |].
    apply bind_ok_inv in E as (s & t8 & _ & E).
    inversion E; subst. discriminate Hs.
  - rewrite (try_catch_throw _ _ _ _ _ E) in Htr |- *. unfold ret in *.
    cbn [snd] in Htr. subst t. eexists _, new. split; [reflexivity |].
    cbn. eauto.
Qed.

(** A request the service's validation rejects costs no call. *)
Lemma createPumpFunToken_invalid (req : TokenCreationRequest) (tr : Trace)
    (e : Thrown) :
  validateRequest req = Throw e ->
  createPumpFunToken sdk env req tr
  = (Ok (mkCreateResult false None None None (Some (message_or e "Unknown error"))),
     tr).
Proof.
  intros H. unfold createPumpFunToken, try_catch, bind, lift. now rewrite H.
Qed.

(** The route always answers, with status 400, 200 or 500.  A 400 is
    given before the service is called and costs no call to the outside
    world.  Otherwise the service was called once on the object the route
    built: the answer is 200 with the service's result exactly when the
    result says success, and else 500 with a non-empty error message.
    The route's own [catch] (500, "Server error") is never what
    answers. *)
Theorem post_create_token_answers
    (body : TokenCreationRequest) (file : option File) (tr : Trace) :
  exists resp new,
    post_create_token sdk env body file tr = (Ok resp, new ++ tr)
    /\ ((status resp = 400 /\ new = [] /\ exists m, Router.body resp = ErrorBody m)
        \/ exists result,
             createPumpFunToken sdk env (tokenData_of body file) tr
             = (Ok result, new ++ tr)
             /\ ((success result = true /\ status resp = 200
                  /\ Router.body resp = SuccessBody result)
                 \/ (success result = false /\ status resp = 500
                     /\ exists m, Router.body resp = ErrorBody m
                                  /\ m <> ""%string))).
Proof.
  unfold post_create_token, create_token_handler. cbv zeta.
  set (tokenData := tokenData_of body file).
  unfold try_catch.
  repeat match goal with
  | |- context [if ?c then ret (mkResponse 400 ?b) else _] =>
      destruct c;
      [ exists (mkResponse 400 b), []; split; [reflexivity |];
        left; cbn; eauto |]
  end.
  destruct (createPumpFunToken_resolves tokenData tr) as (r & new & E & Herr).
  unfold bind. rewrite E.
  destruct (success r) eqn:Es; unfold ret.
  - eexists _, new. split; [reflexivity |]. right. exists r.
    split; [reflexivity |]. left. cbn. auto.
  - eexists _, new. split; [reflexivity |]. right. exists r.
    split; [reflexivity |]. right. split; [exact Es |].
    split; [reflexivity |]. cbn [Router.body].
    destruct (Herr eq_refl) as (msg & ->).
    destruct (String.eqb msg "") eqn:Em; eexists; (split; [reflexivity |]).
    + discriminate.
    + intros ->. discriminate Em.
Qed.

(** The checks of the route let through everything the service's
    validation lets through, and two things more. *)
Lemma route_checks_cover_validation (td : TokenCreationRequest) (e : Thrown) :
  (negb (truthy (name td)) || negb (truthy (symbol td))
   || negb (truthy (creatorKeypair td))
   || negb (truthy_opt (uri td)) && is_null (imageBuffer td)) = false ->
  (32 <? length (name td))%nat = false ->
  (8 <? length (symbol td))%nat = false ->
  match uri td with
  | Some u => truthy u && (200 <? length u)%nat
  | None => false
  end = false ->
  match buyAmount td with
  | Some n => num_truthy n && (isNaN n || num_le n 0)
  | None => false
  end = false ->
  match buyAmount td with
  | Some n => num_truthy n && num_gt n MAX_SAFE_INTEGER
  | None => false
  end = false ->
  validateRequest td = Throw e ->
  e = ErrorInstance "Image file must be less than 100MB for Filebase"
  \/ e = ErrorInstance "external_url must be a valid URL".
Proof.
  intros H1 H2 H3 H4 H5 H6. unfold validateRequest.
  rewrite H1, H2, H3, H4, H6.
  assert (H5' : match buyAmount td with
                | Some n => num_truthy n && (num_le n 0 || isNaN n)
                | None => false
                end = false).
  { destruct (buyAmount td); [| reflexivity]. now rewrite orb_comm. }
  rewrite H5'.
  destruct (match imageBuffer td with Some _ => _ | None => _ end);
    [intros [= <-]; auto |].
  destruct (match external_url td with Some _ => _ | None => _ end);
    [intros [= <-]; auto | discriminate].
Qed.

(** A request that the service's [validateRequest] rejects never reaches
    the outside world through the route.  The route answers 400 where its
    own checks catch it; the two checks the route does not make, the size
    of the image and the form of the external_url, are answered with
    status 500 and the validation message. *)
Theorem post_create_token_invalid_request
    (body : TokenCreationRequest) (file : option File) (tr : Trace) (m : string) :
  validateRequest (tokenData_of body file) = Throw (ErrorInstance m) ->
  exists resp,
    post_create_token sdk env body file tr = (Ok resp, tr)
    /\ (status resp = 400
        \/ (status resp = 500 /\ Router.body resp = ErrorBody m
            /\ (m = "Image file must be less than 100MB for Filebase"%string
                \/ m = "external_url must be a valid URL"%string))).
Proof.
  intros Hv.
  unfold post_create_token, create_token_handler. cbv zeta.
  set (tokenData := tokenData_of body file) in *.
  unfold try_catch.
  destruct (negb (truthy (name tokenData)) || _ || _ || _) eqn:H1;
    [eexists; split; [reflexivity | left; reflexivity] |].
  destruct (32 <? length (name tokenData))%nat eqn:H2;
    [eexists; split; [reflexivity | left; reflexivity] |].
  destruct (8 <? length (symbol tokenData))%nat eqn:H3;
    [eexists; split; [reflexivity | left; reflexivity] |].
  destruct (match uri tokenData with Some _ => _ | None => _ end) eqn:H4;
    [eexists; split; [reflexivity | left; reflexivity] |].
  destruct (match buyAmount tokenData with
            | Some n => num_truthy n && (isNaN n || num_le n 0)
            | None => false
            end) eqn:H5;
    [eexists; split; [reflexivity | left; reflexivity] |].
  destruct (match buyAmount tokenData with
            | Some n => num_truthy n && num_gt n MAX_SAFE_INTEGER
            | None => false
            end) eqn:H6;
    [eexists; split; [reflexivity | left; reflexivity] |].
  unfold bind. rewrite (createPumpFunToken_invalid tokenData tr _ Hv).
  cbn [success error message_or]. unfold ret.
  destruct (route_checks_cover_validation tokenData _ H1 H2 H3 H4 H5 H6 Hv)
    as [E | E]; injection E as ->; cbn [String.eqb Ascii.eqb Bool.eqb];
    (eexists; split; [reflexivity |]); right; cbn; auto.
Qed.

End RouteAnswers.

Lemma post_create_token_invalid_request_witness :
  Pumpfun.validateRequest (Router.tokenData_of Cases.request_bad_url None)
  = Throw (ErrorInstance "external_url must be a valid URL")
  /\ exists resp,
       Router.post_create_token Samples.sdk (Samples.env_of Samples.fair)
         Cases.request_bad_url None [] = (Ok resp, [])
       /\ (Router.status resp = 400
           \/ (Router.status resp = 500
               /\ Router.body resp
                  = Router.ErrorBody "external_url must be a valid URL"
               /\ ("external_url must be a valid URL"%string
                   = "Image file must be less than 100MB for Filebase"%string
                   \/ "external_url must be a valid URL"%string
                      = "external_url must be a valid URL"%string))).
Proof.
  split; [reflexivity |].
  exact (post_create_token_invalid_request Samples.sdk
           (Samples.env_of Samples.fair) Cases.request_bad_url None []
           "external_url must be a valid URL" eq_refl).
Defined.

(* ------------------------------------------------------------------ *)
(** ** The transaction createPumpFunToken sends *)
(* ------------------------------------------------------------------ *)

Section CreationTransaction.
Import Pumpfun.

Variable sdk : Sdk.
Variable env : Env.

Lemma transactions_of_app (a b : Trace) :
  transactions_of (a ++ b) = transactions_of a ++ transactions_of b.
Proof. apply flat_map_app. Qed.

Lemma generated_app (a b : Trace) : generated (a ++ b) = generated a ++ generated b.
Proof. apply flat_map_app. Qed.

(** The allocation loop submits nothing; the mint it returns is the
    keypair it generated last. *)
Lemma findAvailableAccounts_mint (tr : Trace) :
  exists new,
    snd (findAvailableAccounts sdk env tr) = new ++ tr
    /\ transactions_of new = []
    /\ forall accounts,
         fst (findAvailableAccounts sdk env tr) = Ok accounts ->
         exists rest, generated new = tokenMint accounts :: rest.
Proof.
  destruct (findAvailableAccounts_from_probes sdk env maxAttempts tr)
    as (probes & Htr & _ & Hres).
  exists (flat_map (probe_events sdk) probes). split; [exact Htr |]. split.
  - clear. induction probes as [| p probes IH]; [reflexivity |].
    cbn [flat_map]. rewrite transactions_of_app, IH. reflexivity.
  - intros accounts Hok. unfold findAvailableAccounts in Hok.
    destruct probes as [| newest earlier].
    + destruct Hres as [_ H]. congruence.
    + destruct Hres as [_ [[_ H] | [(_ & _ & H) | (e & _ & H)]]];
        rewrite H in Hok; try discriminate Hok.
      injection Hok as <-. cbn [flat_map]. rewrite generated_app.
      eexists. reflexivity.
Qed.

Ltac destruct_answer :=
  match goal with
  | |- context [env_senderPost ?e ?t ?x] =>
      destruct (env_senderPost e t x) as [? | | ?]
  | |- context [env_sendRawTransaction ?e ?t ?x] =>
      destruct (env_sendRawTransaction e t x) as [? | ?]
  | |- context [env_getLatestBlockhash ?e ?t] =>
      destruct (env_getLatestBlockhash e t) as [? | ?]
  | |- context [env_confirmTransaction ?e ?t ?x] =>
      destruct (env_confirmTransaction e t x) as [? | ?]
  | |- context [match json_error ?j with _ => _ end] =>
      destruct (json_error j) as [? |]
  | |- context [match json_result ?j with _ => _ end] =>
      destruct (json_result j) as [? |]
  | |- context [if String.eqb ?s ?t then _ else _] =>
      destruct (String.eqb s t)
  | |- context [match conf_err ?c with _ => _ end] =>
      destruct (conf_err c) as [? |] eqn:?
  end; cbv beta iota zeta.

Ltac split_trace :=
  repeat apply trace_cons; first [apply trace_nil | reflexivity].

(** The submission block posts and broadcasts the signed transaction it
    was given, as it is: the direct broadcast does not change the
    blockhash. *)
Lemma createPumpFunToken_submit_transactions
    (t0 : Transaction) (tokenMint creatorKeypair : Keypair) (tr : Trace) :
  exists later,
    snd (createPumpFunToken_submit env (sign t0 [tokenMint; creatorKeypair])
           tokenMint creatorKeypair tr) = later ++ tr
    /\ Forall (fun t => t = sign t0 [tokenMint; creatorKeypair])
         (transactions_of later)
    /\ generated later = [].
Proof.
  unfold createPumpFunToken_submit, sendWithHelius,
    axios_post, sendRawTransaction, getLatestBlockhash,
    confirmTransaction, try_catch, bind, call, ret, throwError, throw.
  cbv beta iota zeta.
  repeat destruct_answer;
    (eexists; split; [cbn [snd]; split_trace |]);
    cbn; split; repeat constructor.
Qed.

(** The shape of every run of [createPumpFunToken] around its
    transaction. *)
Lemma createPumpFunToken_transaction_shape
    (req : TokenCreationRequest) (tr : Trace) :
  exists new,
    snd (createPumpFunToken sdk env req tr) = new ++ tr
    /\ (transactions_of new = []
        \/ exists creator mint rest up bh ix tx sim later earlier,
             getCreatorKeypair sdk (creatorKeypair req) = Ok creator
             /\ new = later
                      ++ SimulateTransaction tx sim
                      :: GetLatestBlockhash (Ok bh)
                      :: UploadMetadata (metadata_request req) (Ok up)
                      :: earlier
             /\ transactions_of earlier = []
             /\ generated earlier = mint :: rest
             /\ createPumpFunInstruction sdk (publicKey mint) creator
                  (with_uri req (up_uri up)) = Ok ix
             /\ feePayer tx = Some (publicKey creator)
             /\ recentBlockhash tx = Some (blockhash bh)
             /\ instructions tx = [ix]
             /\ signed_by tx [mint; creator]
             /\ Forall (fun t => t = tx) (transactions_of later)
             /\ generated later = []
             /\ forall r,
                  fst (createPumpFunToken sdk env req tr) = Ok r ->
                  success r = true ->
                  mintAddress r = Some (toBase58 sdk (publicKey mint))).
Proof.
  unfold createPumpFunToken, filebase_uploadMetadata,
    getLatestBlockhash, simulateTransaction, lift, call.
  rewrite try_catch_bind. cbv beta iota zeta.
  destruct (validateRequest req) as [[] | e0];
    [| eexists; split; [apply trace_nil | left; reflexivity]].
  rewrite try_catch_bind. cbv beta iota zeta.
  destruct (getCreatorKeypair sdk (creatorKeypair req))
    as [creator | e1] eqn:Ecreator;
    [| eexists; split; [apply trace_nil | left; reflexivity]].
  rewrite try_catch_bind.
  destruct (findAvailableAccounts_mint tr) as (new1 & Htr1 & Htx1 & Hmint).
  destruct (findAvailableAccounts sdk env tr) as [[accounts | e2] t1];
    cbn [snd fst] in Htr1, Hmint; subst t1;
    [| exists new1; split; [reflexivity | left; exact Htx1]].
  destruct (Hmint accounts eq_refl) as (rest & Hgen).
  assert (Hquiet : forall e1 e2,
             transactions_of e1 = [] -> transactions_of e2 = [] ->
             transactions_of (e1 ++ e2 ++ new1) = []).
  { intros a b Ha Hb. now rewrite !transactions_of_app, Ha, Hb, Htx1. }
  rewrite try_catch_bind. cbv beta iota zeta.
  destruct (env_uploadMetadata env (new1 ++ tr) (metadata_request req))
    as [up | e3];
    [| eexists; split; [cbn [snd]; split_trace
                       | left; apply (Hquiet [_] []); reflexivity]].
  rewrite try_catch_bind. cbv beta iota zeta.
  match goal with
  | |- context [env_getLatestBlockhash env ?t] =>
      destruct (env_getLatestBlockhash env t) as [bh | e4]
  end;
    [| eexists; split; [cbn [snd]; split_trace
                       | left; apply (Hquiet [_] [_]); reflexivity]].
  rewrite try_catch_bind. cbv beta iota zeta.
  destruct (createPumpFunInstruction sdk _ creator _) as [ix | e5] eqn:Eix;
    [| eexists; split; [cbn [snd]; split_trace
                       | left; apply (Hquiet [_] [_]); reflexivity]].
  rewrite try_catch_bind. cbv beta iota zeta.
  set (t0 := set_recentBlockhash
               (set_feePayer (add newTransaction ix) (publicKey creator))
               (blockhash bh)).
  set (tx := sign t0 [tokenMint accounts; creator]).
  assert (Hshape : feePayer tx = Some (publicKey creator)
                   /\ recentBlockhash tx = Some (blockhash bh)
                   /\ instructions tx = [ix]
                   /\ signed_by tx [tokenMint accounts; creator])
    by (repeat split).
  destruct Hshape as (Hfee & Hbh & Hix & Hsigned).
  match goal with
  | |- context [env_simulateTransaction env ?t tx] =>
      destruct (env_simulateTransaction env t tx) as [sim | e6]
  end.
  - destruct (sim_err sim) as [err |] eqn:Eerr.
    + unfold try_catch, throwError, throw, ret. cbv beta iota zeta.
      eexists. split; [cbn [snd]; split_trace |]. right.
      exists creator, (tokenMint accounts), rest, up, bh, ix, tx, (Ok sim),
        [], new1.
      cbn [fst app]. repeat split; try assumption; try constructor.
      intros r [= <-]. discriminate.
    + rewrite try_catch_bind.
      match goal with
      | |- context [createPumpFunToken_submit env tx ?m ?c ?t] =>
          destruct (createPumpFunToken_submit_transactions t0 m c t)
            as (later & Htr2 & Hsame & Hgen2);
          fold tx in Htr2, Hsame;
          destruct (createPumpFunToken_submit env tx m c t) as [[s | e7] t2];
          cbn [snd] in Htr2; subst t2
      end.
      * unfold try_catch, ret. cbv beta iota zeta. cbn [fst snd].
        exists (later ++ SimulateTransaction tx (Ok sim)
                         :: GetLatestBlockhash (Ok bh)
                         :: UploadMetadata (metadata_request req) (Ok up)
                         :: new1).
        split; [now rewrite <- app_assoc |].
        right.
        exists creator, (tokenMint accounts), rest, up, bh, ix, tx, (Ok sim),
          later, new1.
        repeat split; try assumption.
        intros r [= <-] _. reflexivity.
      * unfold ret. cbv beta iota zeta. cbn [fst snd].
        exists (later ++ SimulateTransaction tx (Ok sim)
                         :: GetLatestBlockhash (Ok bh)
                         :: UploadMetadata (metadata_request req) (Ok up)
                         :: new1).
        split; [now rewrite <- app_assoc |].
        right.
        exists creator, (tokenMint accounts), rest, up, bh, ix, tx, (Ok sim),
          later, new1.
        repeat split; try assumption.
        intros r [= <-]. discriminate.
  - unfold ret. cbv beta iota zeta.
    eexists. split; [cbn [snd]; split_trace |]. right.
    exists creator, (tokenMint accounts), rest, up, bh, ix, tx, (Throw e6),
      [], new1.
    cbn [fst app]. repeat split; try assumption; try constructor.
    intros r [= <-]. discriminate.
Qed.

(** Whatever [createPumpFunToken] simulates, posts to the relay or
    broadcasts is one and the same transaction.  It is simulated right
    after a blockhash was fetched, which it carries; its fee payer is the
    creator; its only instruction is the create instruction for the mint
    generated last, built with the uri the upload returned (not the
    request's); it is signed by the mint and the creator.  No keypair is
    generated after the simulation, and the mint address of a success is
    that of this mint. *)
Theorem createPumpFunToken_one_transaction
    (req : TokenCreationRequest) (tr : Trace) :
  exists new,
    snd (createPumpFunToken sdk env req tr) = new ++ tr
    /\ (transactions_of new = []
        \/ exists creator mint rest up bh ix tx sim later earlier,
             getCreatorKeypair sdk (creatorKeypair req) = Ok creator
             /\ new = later
                      ++ SimulateTransaction tx sim
                      :: GetLatestBlockhash (Ok bh)
                      :: UploadMetadata (metadata_request req) (Ok up)
                      :: earlier
             /\ transactions_of earlier = []
             /\ generated earlier = mint :: rest
             /\ createPumpFunInstruction sdk (publicKey mint) creator
                  (with_uri req (up_uri up)) = Ok ix
             /\ feePayer tx = Some (publicKey creator)
             /\ recentBlockhash tx = Some (blockhash bh)
             /\ instructions tx = [ix]
             /\ signed_by tx [mint; creator]
             /\ Forall (fun t => t = tx) (transactions_of later)
             /\ generated later = []
             /\ forall r,
                  fst (createPumpFunToken sdk env req tr) = Ok r ->
                  success r = true ->
                  mintAddress r = Some (toBase58 sdk (publicKey mint))).
Proof. apply createPumpFunToken_transaction_shape. Qed.

End CreationTransaction.

(* ------------------------------------------------------------------ *)
(** ** LaunchLab: the metadata upload *)
(* ------------------------------------------------------------------ *)

Section BonkMetadata.
Import Launchlab.

Variable sdk : Sdk.
Variable env : Env.

(** The four ways [createBonkFunTokenMetadata] runs. *)
Lemma createBonkFunTokenMetadata_cases (tokenData : LaunchpadRequest) (tr : Trace) :
  (exists m,
      createBonkFunTokenMetadata sdk env tokenData tr
      = (Throw (ErrorInstance m), tr))
  \/ (exists e,
        createBonkFunTokenMetadata sdk env tokenData tr
        = (Throw (ErrorInstance
                    ("Failed to upload to Filebase: "
                     ++ ("Failed to upload image to Filebase: "
                         ++ message_or e "Unknown error"))),
           UploadToFilebase "image/png" (Throw e) :: tr))
  \/ (exists img e,
        createBonkFunTokenMetadata sdk env tokenData tr
        = (Throw (ErrorInstance
                    ("Failed to upload to Filebase: "
                     ++ message_or e "Unknown error")),
           UploadToFilebase "application/json" (Throw e)
           :: UploadToFilebase "image/png" (Ok img) :: tr))
  \/ (exists img uri,
        createBonkFunTokenMetadata sdk env tokenData tr
        = (Ok (mkUploadResult uri img),
           UploadToFilebase "application/json" (Ok uri)
           :: UploadToFilebase "image/png" (Ok img) :: tr)).
Proof.
  unfold createBonkFunTokenMetadata.
  repeat match goal with
  | |- context [if ?c then throwError ?m else _] =>
      destruct c; [left; exists m; reflexivity |]
  end.
  unfold uploadImageToFilebase, filebase_uploadToFilebase,
    try_catch, bind, call, ret, throwError, throw.
  cbv beta iota zeta.
  destruct (env_uploadToFilebase env tr "image/png") as [img | e];
    cbv beta iota zeta.
  - match goal with
    | |- context [env_uploadToFilebase env ?t "application/json"] =>
        destruct (env_uploadToFilebase env t "application/json") as [uri | e]
    end; cbv beta iota zeta.
    + right. right. right. eauto.
    + right. right. left. eauto.
  - right. left. exists e. reflexivity.
Qed.

(** [createBonkFunTokenMetadata] validates before it uploads: a request
    it rejects costs no call.  It uploads the image first, as image/png,
    then the metadata, as application/json, and nothing else.  When the
    image upload fails the metadata is not uploaded and the message is
    wrapped twice; it returns exactly when both uploads succeeded, with
    the address of the second as uri and that of the first as imageUrl.
    Every rejection is an Error object. *)
Theorem createBonkFunTokenMetadata_uploads
    (tokenData : LaunchpadRequest) (tr : Trace) :
  exists new,
    snd (createBonkFunTokenMetadata sdk env tokenData tr) = new ++ tr
    /\ match fst (createBonkFunTokenMetadata sdk env tokenData tr) with
       | Ok up =>
           new = [ UploadToFilebase "application/json" (Ok (up_uri up));
                   UploadToFilebase "image/png" (Ok (up_imageUrl up)) ]
       | Throw thrown =>
           exists m,
             thrown = ErrorInstance m
             /\ (new = []
                 \/ (exists e,
                       new = [UploadToFilebase "image/png" (Throw e)]
                       /\ m = ("Failed to upload to Filebase: "
                               ++ ("Failed to upload image to Filebase: "
                                   ++ message_or e "Unknown error"))%string)
                 \/ (exists img e,
                       new = [ UploadToFilebase "application/json" (Throw e);
                               UploadToFilebase "image/png" (Ok img) ]
                       /\ m = ("Failed to upload to Filebase: "
                               ++ message_or e "Unknown error")%string))
       end.
Proof.
  destruct (createBonkFunTokenMetadata_cases tokenData tr)
    as [(m & E) | [(e & E) | [(img & e & E) | (img & uri & E)]]];
    rewrite E; cbn [fst snd].
  - exists []. split; [reflexivity |]. eauto.
  - eexists [_]. split; [reflexivity |]. eexists. split; [reflexivity |].
    right. left. eauto.
  - eexists [_; _]. split; [reflexivity |]. eexists. split; [reflexivity |].
    right. right. eauto.
  - eexists [_; _]. split; reflexivity.
Qed.

End BonkMetadata.

(* ------------------------------------------------------------------ *)
(** ** LaunchLab: createBonkTokenTx end to end *)
(* ------------------------------------------------------------------ *)

Section BonkPipeline.
Import Launchlab.

Variable sdk : Sdk.
Variable env : Env.

Lemma or_null_idem (s : option JsString) : or_null (or_null s) = or_null s.
Proof. destruct s as [[| c s] |]; reflexivity. Qed.

Lemma trace_app (a l new tr : Trace) :
  l = new ++ tr -> a ++ l = (a ++ new) ++ tr.
Proof. intros ->. apply app_assoc. Qed.

Lemma launchpads_app (a b : Trace) :
  launchpads (a ++ b) = launchpads a ++ launchpads b.
Proof. apply flat_map_app. Qed.

Ltac destruct_answer :=
  match goal with
  | |- context [env_senderPost ?e ?t ?x] =>
      destruct (env_senderPost e t x) as [? | | ?]
  | |- context [env_sendRawTransaction ?e ?t ?x] =>
      destruct (env_sendRawTransaction e t x) as [? | ?]
  | |- context [env_confirmTransaction ?e ?t ?x] =>
      destruct (env_confirmTransaction e t x) as [? | ?]
  | |- context [match json_error ?j with _ => _ end] =>
      destruct (json_error j) as [? |]
  | |- context [match json_result ?j with _ => _ end] =>
      destruct (json_result j) as [? |]
  | |- context [if String.eqb ?s ?t then _ else _] =>
      destruct (String.eqb s t)
  end; cbv beta iota zeta.

Ltac split_trace :=
  repeat apply trace_cons; first [apply trace_nil | reflexivity].

(** The submission block: the transaction it was given is what it posts
    and broadcasts; nothing is written and the SDK is not called; a
    signature is returned only from a confirmation that returned. *)
Lemma createBonkTokenTx_submit_confirmed (transaction : Transaction) (tr : Trace) :
  exists later,
    snd (createBonkTokenTx_submit env transaction tr) = later ++ tr
    /\ count is_db later = 0%nat
    /\ count is_db_update later = 0%nat
    /\ (1 <= count is_broadcast later)%nat
    /\ launchpads later = []
    /\ count is_simulation later = 0%nat
    /\ Forall (fun t => t = transaction) (transactions_of later)
    /\ forall s,
         fst (createBonkTokenTx_submit env transaction tr) = Ok s ->
         exists c rest, later = ConfirmTransaction s None (Ok c) :: rest.
Proof.
  unfold createBonkTokenTx_submit, sendWithHelius, axios_post,
    sendRawTransaction, confirmTransaction, try_catch, bind, call, ret,
    throwError, throw.
  cbv beta iota zeta.
  repeat destruct_answer;
    (eexists; split; [cbn [snd]; split_trace |]);
    cbn; repeat split; try lia; repeat constructor;
    try (intros ? [= <-]; eauto); try discriminate.
Qed.

Lemma jsstring_eqb_amm (m : JsString) :
  jsstring_eqb m (lit "amm") = true -> m = lit "amm".
Proof.
  destruct m as [| a [| b [| c [| d m]]]]; cbn; try discriminate.
  intros H. apply andb_true_iff in H as [Ha H].
  apply andb_true_iff in H as [Hb H]. apply andb_true_iff in H as [Hc _].
  apply Z.eqb_eq in Ha, Hb, Hc. now subst.
Qed.

(** What the checks at the head of [createBonkTokenTx] leave possible. *)
Lemma createBonkTokenTx_validate_ok (tokenData : LaunchpadRequest) :
  createBonkTokenTx_validate tokenData = Ok tt ->
  (1 <= length (name tokenData) <= 32)%nat
  /\ (1 <= length (symbol tokenData) <= 8)%nat
  /\ or_default (migrateType tokenData) (lit "amm") = lit "amm"
  /\ exists q,
       match decimals tokenData with
       | Some d => if num_truthy d then d else Finite 6
       | None => Finite 6
       end = Finite q
       /\ (0 < q /\ q <= 9)%Q
       /\ (decimals tokenData = Some (Finite q) \/ q = 6%Q).
Proof.
  unfold createBonkTokenTx_validate.
  destruct (negb (truthy (name tokenData)) || negb (truthy (symbol tokenData))
            || is_null (image tokenData)) eqn:E1; [discriminate |].
  apply orb_false_iff in E1 as [E1 _]. apply orb_false_iff in E1 as [En Es].
  apply negb_false_iff in En, Es. apply truthy_length in En, Es.
  destruct (32 <? length (name tokenData))%nat eqn:E2; [discriminate |].
  destruct (8 <? length (symbol tokenData))%nat eqn:E3; [discriminate |].
  apply Nat.ltb_ge in E2, E3.
  repeat match goal with
  | |- (if ?c then Throw _ else _) = _ -> _ =>
      lazymatch c with
      | context [decimals] => fail
      | _ => destruct c; [discriminate |]
      end
  end.
  destruct (match decimals tokenData with Some _ => _ | None => _ end) eqn:Ed;
    [discriminate |].
  destruct (match migrateType tokenData with Some _ => _ | None => _ end) eqn:Em;
    [discriminate |].
  intros _. split; [lia |]. split; [lia |]. split.
  - unfold or_default. destruct (migrateType tokenData) as [m |]; [| reflexivity].
    destruct (truthy m); [| reflexivity]. cbn in Em.
    apply negb_false_iff in Em. now apply jsstring_eqb_amm.
  - assert (Hsix : (0 < 6 /\ 6 <= 9)%Q) by (split; reflexivity || discriminate).
    destruct (decimals tokenData) as [d |]; [| exists 6%Q; auto].
    destruct (num_truthy d) eqn:Et; [| exists 6%Q; auto].
    cbn [andb] in Ed. apply orb_false_iff in Ed as [Ed Hgt].
    apply orb_false_iff in Ed as [_ Hlt].
    destruct d as [| neg | q]; cbn in Et, Hlt, Hgt; try discriminate.
    + destruct neg; discriminate.
    + exists q. split; [reflexivity |]. split; [| auto].
      apply negb_false_iff in Hlt, Hgt. apply Qle_bool_iff in Hlt, Hgt.
      apply negb_true_iff in Et. split; [| exact Hgt].
      apply Qle_lteq in Hlt as [Hlt | Heq]; [exact Hlt |].
      exfalso. change (inject_Z 0) with 0%Q in Heq. symmetry in Heq.
      apply Qeq_bool_iff in Heq. congruence.
Qed.

Ltac next := rewrite try_catch_bind; cbv beta iota zeta.

(** Runs [createBonkTokenTx] up to the simulation; [early] closes the
    runs that stop before. *)
Ltac run_to_simulation tokenData tr early :=
  unfold createBonkTokenTx, initSdk, getAccountInfo, getTokenInfo,
    createLaunchpad, getLatestBlockhash, simulateTransaction, lift, call;
  next;
  destruct (createBonkTokenTx_validate tokenData) as [[] | ?] eqn:Hvalid;
    [| early];
  rewrite try_catch_bind;
  let E := fresh "E" in
  destruct (createBonkFunTokenMetadata_cases sdk env tokenData tr)
    as [(? & E) | [(? & E) | [(? & ? & E) | (?img & ?uri & E)]]];
    rewrite E; clear E; [early | early | early |];
  cbn [up_uri up_imageUrl];
  match goal with
  | |- context [if negb (truthy ?u) then _ else _] =>
      let Hu := fresh "Huri" in
      destruct (truthy u) eqn:Hu; cbn [negb]; [| unfold try_catch; early]
  end;
  next;
  match goal with
  | |- context [env_initSdk env ?t] => destruct (env_initSdk env t) as [[] | ?]
  end; [| early];
  next;
  match goal with
  | |- context [env_getAccountInfo env ?t ?a] =>
      destruct (env_getAccountInfo env t a) as [[?configData |] | ?]
  end; [| unfold try_catch; early | early];
  next;
  match goal with
  | |- context [LaunchpadConfig_decode sdk ?d] =>
      destruct (LaunchpadConfig_decode sdk d) as [[] | ?]
  end; [| early];
  next;
  match goal with
  | |- context [env_getTokenInfo env ?t] =>
      destruct (env_getTokenInfo env t) as [?mintBInfo | ?]
  end; [| early];
  next;
  match goal with
  | |- context [BN_new sdk ?n] => destruct (BN_new sdk n) as [[] | ?]
  end; [| early];
  next;
  match goal with
  | |- context [match ?o with Ok a => _ | Throw e => _ end] =>
      destruct o as [?platform | ?] eqn:Hplatform
  end; [| early];
  next;
  match goal with
  | |- context [env_createLaunchpad env ?t ?p] =>
      destruct (env_createLaunchpad env t p) as [?ixs | ?]
  end; [| early];
  next;
  match goal with
  | |- context [env_getLatestBlockhash env ?t] =>
      destruct (env_getLatestBlockhash env t) as [?bh | ?]
  end; [| early];
  next.

Ltac stops_without_record :=
  unfold throw, throwError; cbv beta iota zeta;
  eexists _, _; split; [apply f_equal; split_trace |];
  split; [reflexivity |];
  left; split; [reflexivity | eexists; reflexivity].

(** What [createBonkTokenTx] records.  It never updates a row and writes
    at most one, as the last thing it does, right after a confirmation
    of a broadcast returned.  The row carries the addresses of the given
    mint and creator keypairs, the addresses the two uploads returned,
    the standard supply, status "active" and an empty signature: the
    signature of the broadcast is not stored.  The call returns exactly
    when that write succeeded; when the write fails the call rejects
    with "Failed to store token data: ..." although the transaction has
    been broadcast. *)
Theorem createBonkTokenTx_record
    (mainKp mintKp : Keypair) (tokenData : LaunchpadRequest) (tr : Trace) :
  exists out new,
    createBonkTokenTx sdk env mainKp mintKp tokenData tr = (out, new ++ tr)
    /\ count is_db_update new = 0%nat
    /\ ((count is_db new = 0%nat /\ exists e, out = Throw e)
        \/ exists img uri r s c older,
             new = DbCreate LaunchlabTokens
                     (mkTokenRow (toBase58 sdk (publicKey mintKp))
                        (name tokenData) (symbol tokenData)
                        (toBase58 sdk (publicKey mainKp))
                        uri (or_null (Some img))
                        (or_null (description tokenData))
                        1000000000 1000000000 ""%string "active"%string) r
                   :: ConfirmTransaction s None (Ok c) :: older
             /\ In (UploadToFilebase "application/json"%string (Ok uri)) older
             /\ In (UploadToFilebase "image/png"%string (Ok img)) older
             /\ count is_db older = 0%nat
             /\ (1 <= count is_broadcast older)%nat
             /\ match r with
                | Ok _ => exists tx, out = Ok tx
                | Throw e =>
                    out = Throw (ErrorInstance
                                   ("Failed to store token data: "
                                    ++ message_or e "Unknown error")%string)
                end).
Proof.
  run_to_simulation tokenData tr stops_without_record.
  match goal with
  | |- context [env_simulateTransaction env ?t ?x] =>
      destruct (env_simulateTransaction env t x) as [sim | e9]
  end; [| stops_without_record].
  rewrite try_catch_bind.
  match goal with
  | |- context [createBonkTokenTx_submit env ?x ?t] =>
      destruct (createBonkTokenTx_submit_confirmed x t)
        as (later & Htr & Hdb & Hup & Hbc & _ & _ & _ & Hconf);
      destruct (createBonkTokenTx_submit env x t) as [[s | e10] t2];
      cbn [fst snd] in Htr, Hconf; subst t2
  end.
  - destruct (Hconf s eq_refl) as (c & rest & ->). clear Hconf.
    unfold storeTokenData, LaunchlabTokens_create, try_catch, bind, call, ret,
      throwError, throw.
    cbv beta iota zeta. rewrite or_null_idem.
    match goal with
    | |- context [env_dbCreate env ?t ?a ?row] =>
        destruct (env_dbCreate env t a row) as [[] | e11]
    end;
      (eexists _, _; split;
       [apply f_equal; apply trace_cons; rewrite <- app_comm_cons;
        apply trace_cons; apply trace_app; split_trace |]);
      (split; [unfold count in *; cbn [filter is_db_update] in *;
               rewrite filter_app, length_app, Hup; reflexivity |]);
      right; exists img, uri; do 4 eexists;
      (split; [reflexivity |]);
      (split; [apply in_or_app; right; cbn; tauto |]);
      (split; [apply in_or_app; right; cbn; tauto |]);
      (split; [rewrite count_app; unfold count in *; cbn in *;
               rewrite Hdb; reflexivity |]);
      (split; [rewrite count_app; unfold count in *; cbn in *; lia |]);
      eauto.
  - unfold throw. eexists _, _.
    split; [apply f_equal; apply trace_app; split_trace |].
    split; [rewrite count_app, Hup; reflexivity |].
    left. split; [rewrite count_app, Hdb; reflexivity | eauto].
Qed.

Ltac stops_before_simulation :=
  unfold throw, throwError; cbv beta iota zeta;
  eexists _, _; split; [apply f_equal; split_trace |];
  left; reflexivity.

(** Whatever [createBonkTokenTx] simulates, posts to the relay or
    broadcasts is one and the same transaction, and it is the one the
    call returns.  It is built from the instructions the SDK returned and
    the blockhash fetched right before the simulation, paid by the
    creator and signed by the creator and the mint.  It is simulated
    once, whatever the simulation answers. *)
Theorem createBonkTokenTx_one_transaction
    (mainKp mintKp : Keypair) (tokenData : LaunchpadRequest) (tr : Trace) :
  exists out new,
    createBonkTokenTx sdk env mainKp mintKp tokenData tr = (out, new ++ tr)
    /\ (transactions_of new = []
        \/ exists p ixs bh tx sim later earlier,
             new = later
                   ++ SimulateTransaction tx sim
                   :: GetLatestBlockhash (Ok bh)
                   :: CreateLaunchpad p (Ok ixs)
                   :: earlier
             /\ transactions_of earlier = []
             /\ feePayer tx = Some (publicKey mainKp)
             /\ recentBlockhash tx = Some (blockhash bh)
             /\ instructions tx = ixs
             /\ signed_by tx [mainKp; mintKp]
             /\ count is_simulation later = 0%nat
             /\ Forall (fun t => t = tx) (transactions_of later)
             /\ forall t, out = Ok t -> t = tx).
Proof.
  run_to_simulation tokenData tr stops_before_simulation.
  match goal with
  | |- context [env_simulateTransaction env ?t ?x] =>
      destruct (env_simulateTransaction env t x) as [sim | e9]
  end.
  - rewrite try_catch_bind.
    match goal with
    | |- context [createBonkTokenTx_submit env ?x ?t] =>
        destruct (createBonkTokenTx_submit_confirmed x t)
          as (later & Htr & _ & _ & _ & _ & Hsim & Hsame & _);
        destruct (createBonkTokenTx_submit env x t) as [[s | e10] t2];
        cbn [fst snd] in Htr; subst t2
    end.
    + unfold storeTokenData, LaunchlabTokens_create, try_catch, bind, call,
        ret, throwError, throw.
      cbv beta iota zeta.
      match goal with
      | |- context [env_dbCreate env ?t ?a ?row] =>
          destruct (env_dbCreate env t a row) as [[] | e11]
      end;
        (eexists _, _; split;
         [apply f_equal; apply trace_cons; apply trace_app; split_trace |]);
        right; do 5 eexists; eexists (_ :: later); eexists;
        (split; [rewrite <- app_comm_cons; reflexivity |]);
        (split; [reflexivity |]);
        repeat split; try assumption;
        try (intros ? [= <-]; reflexivity); try discriminate.
    + unfold throw. eexists _, _.
      split; [apply f_equal; apply trace_app; split_trace |].
      right. do 5 eexists. exists later. eexists.
      split; [reflexivity |]. split; [reflexivity |].
      repeat split; try assumption; try discriminate.
  - unfold throw. eexists _, _.
    split; [apply f_equal; split_trace |].
    right. do 5 eexists. exists []. eexists.
    split; [reflexivity |]. split; [reflexivity |].
    repeat split; try constructor; try discriminate.
Qed.

Lemma launch_parameters_checked
    (mainKp mintKp : Keypair) (tokenData : LaunchpadRequest)
    (uri : JsString) (platform : PublicKey) :
  createBonkTokenTx_validate tokenData = Ok tt ->
  truthy uri = true ->
  match platformId tokenData with
  | Some p => if truthy p then PublicKey_parse sdk p else Ok (BONK_PLATFROM_ID sdk)
  | None => Ok (BONK_PLATFROM_ID sdk)
  end = Ok platform ->
  launch_as_requested sdk mainKp mintKp tokenData
    (mkLaunchpadParams (publicKey mintKp)
       (match decimals tokenData with
        | Some d => if num_truthy d then d else Finite 6
        | None => Finite 6
        end)
       (name tokenData) (symbol tokenData)
       (or_default (migrateType tokenData) (lit "amm"))
       uri (getPdaLaunchpadConfigId sdk) platform (publicKey mainKp) [mintKp]).
Proof.
  intros Hv Hu Hp.
  destruct (createBonkTokenTx_validate_ok tokenData Hv)
    as (Hn & Hs & Hm & q & Hq & Hrange & Hfrom).
  unfold launch_as_requested. cbn.
  repeat split; try assumption; try lia.
  - intros ->. discriminate Hu.
  - exists q. auto.
  - unfold or_null. destruct (platformId tokenData) as [s |].
    + destruct (truthy s); [exact Hp | congruence].
    + congruence.
Qed.

Ltac stops_with_parameters :=
  unfold throw, throwError; cbv beta iota zeta;
  eexists _, _; split; [apply f_equal; split_trace |];
  cbn [launchpads flat_map app length];
  split; [lia |];
  lazymatch goal with
  | |- Forall _ [] => constructor
  | |- Forall _ [_] =>
      constructor;
      [ split; [cbn; tauto | apply launch_parameters_checked; assumption]
      | constructor ]
  end.

(** [createBonkTokenTx] calls the SDK's [createLaunchpad] at most once,
    and only with parameters that passed the checks: the mint, fee payer
    and extra signer are the given keypairs; name and symbol are the
    request's, of 1 to 32 and 1 to 8 code units; migrateType is "amm";
    the uri is non-empty and is the address the metadata upload
    returned; decimals is the request's when that is a number above 0 and
    at most 9, and 6 otherwise (also when 0 was asked for); the platform
    is the parsed platformId, or the default platform when none was
    given. *)
Theorem createBonkTokenTx_launchpad_parameters
    (mainKp mintKp : Keypair) (tokenData : LaunchpadRequest) (tr : Trace) :
  exists out new,
    createBonkTokenTx sdk env mainKp mintKp tokenData tr = (out, new ++ tr)
    /\ (length (launchpads new) <= 1)%nat
    /\ Forall (fun p =>
                 In (UploadToFilebase "application/json"%string (Ok (lp_uri p)))
                    new
                 /\ launch_as_requested sdk mainKp mintKp tokenData p)
         (launchpads new).
Proof.
  run_to_simulation tokenData tr stops_with_parameters.
  match goal with
  | |- context [env_simulateTransaction env ?t ?x] =>
      destruct (env_simulateTransaction env t x) as [sim | e9]
  end; [| stops_with_parameters].
  rewrite try_catch_bind.
  match goal with
  | |- context [createBonkTokenTx_submit env ?x ?t] =>
      destruct (createBonkTokenTx_submit_confirmed x t)
        as (later & Htr & _ & _ & _ & Hlp & _);
      destruct (createBonkTokenTx_submit env x t) as [[s | e10] t2];
      cbn [fst snd] in Htr; subst t2
  end.
  - unfold storeTokenData, LaunchlabTokens_create, try_catch, bind, call,
      ret, throwError, throw.
    cbv beta iota zeta.
    match goal with
    | |- context [env_dbCreate env ?t ?a ?row] =>
        destruct (env_dbCreate env t a row) as [[] | e11]
    end;
      (eexists _, _; split;
       [apply f_equal; apply trace_cons; apply trace_app; split_trace |]);
      cbn [launchpads flat_map app]; fold (launchpads);
      rewrite launchpads_app, Hlp; cbn [launchpads flat_map app length];
      (split; [lia |]);
      (constructor;
       [ split; [right; apply in_or_app; right; cbn; tauto
                | apply launch_parameters_checked; assumption]
       | constructor ]).
  - unfold throw. eexists _, _.
    split; [apply f_equal; apply trace_app; split_trace |].
    rewrite launchpads_app, Hlp. cbn [launchpads flat_map app length].
    split; [lia |]. constructor; [split | constructor].
    + apply in_or_app. right. cbn. tauto.
    + apply launch_parameters_checked; assumption.
Qed.

End BonkPipeline.

(* ------------------------------------------------------------------ *)
(** ** The accounts of the create instruction *)
(* ------------------------------------------------------------------ *)

Section InstructionAccounts.
Import Pumpfun.

Variable sdk : Sdk.

(** The create instruction is for the pump.fun program and lists 16
    accounts; those marked as signers are the mint and the creator, the
    two keys [createPumpFunToken] signs with.  Its bonding curve is the
    address the allocation probed.  Its associated bonding curve is not:
    the instruction derives it with the id of the Token-2022 program as
    the middle seed, the allocation with a constant that is the id of the
    original Token program, so the address probed for being unoccupied is
    derived from other seeds than the address used.  (The constructor
    [new PublicKey(string)] decodes Base58.) *)
Theorem createPumpFunInstruction_accounts
    (tokenMint creatorKeypair : Keypair) (req : TokenCreationRequest)
    (ix : TransactionInstruction) :
  Some (toBuffer (tokenProgramId sdk))
  = Base58.decode "TokenzQdBNbLqP5VEhdkAS6EPFLC1PHnBqCXEpPxuEb" ->
  createPumpFunInstruction sdk (publicKey tokenMint) creatorKeypair req = Ok ix ->
  ix_programId ix = programId sdk
  /\ length (ix_keys ix) = 16%nat
  /\ map pubkey (filter isSigner (ix_keys ix))
     = map publicKey [tokenMint; creatorKeypair]
  /\ nth_error (ix_keys ix) 2
     = Some (mkAccountMeta (bondingCurve (derive_accounts sdk tokenMint))
               false true)
  /\ nth_error (ix_keys ix) 3
     = Some (mkAccountMeta
               (findProgramAddress sdk
                  [ toBuffer (bondingCurve (derive_accounts sdk tokenMint));
                    toBuffer (tokenProgramId sdk);
                    toBuffer (publicKey tokenMint) ]
                  (associatedTokenProgramId sdk))
               false true)
  /\ associatedBondingCurve (derive_accounts sdk tokenMint)
     = findProgramAddress sdk
         [ toBuffer (bondingCurve (derive_accounts sdk tokenMint));
           SEEDS_ASSOCIATED_BONDING_CURVE_CONSTANT;
           toBuffer (publicKey tokenMint) ]
         (associatedTokenProgramId sdk)
  /\ Some SEEDS_ASSOCIATED_BONDING_CURVE_CONSTANT
     = Base58.decode "TokenkegQfeZyiNwAJbNbGKPFXCWuBvf9Ss623VQ5DA"
  /\ toBuffer (tokenProgramId sdk) <> SEEDS_ASSOCIATED_BONDING_CURVE_CONSTANT.
Proof.
  intros Hdecode Hix. unfold createPumpFunInstruction in Hix.
  cbv zeta in Hix.
  destruct (lift_range (createPumpFunInstruction_data creatorKeypair req))
    as [data | e]; [| discriminate Hix].
  injection Hix as <-. cbn [ix_programId ix_keys].
  repeat split.
  intros Heq. rewrite Heq in Hdecode. vm_compute in Hdecode.
  discriminate Hdecode.
Qed.

End InstructionAccounts.

Lemma createPumpFunInstruction_accounts_witness :
  Some (toBuffer (Pumpfun.tokenProgramId Cases.sdk58))
  = Base58.decode "TokenzQdBNbLqP5VEhdkAS6EPFLC1PHnBqCXEpPxuEb"
  /\ exists ix,
       Pumpfun.createPumpFunInstruction Cases.sdk58 (publicKey Samples.mint)
         Samples.creator Samples.request_with_uri = Ok ix
       /\ map pubkey (filter isSigner (ix_keys ix))
          = map publicKey [Samples.mint; Samples.creator]
       /\ toBuffer (Pumpfun.tokenProgramId Cases.sdk58)
          <> Pumpfun.SEEDS_ASSOCIATED_BONDING_CURVE_CONSTANT.
Proof.
  assert (H1 : Some (toBuffer (Pumpfun.tokenProgramId Cases.sdk58))
               = Base58.decode "TokenzQdBNbLqP5VEhdkAS6EPFLC1PHnBqCXEpPxuEb")
    by (vm_compute; reflexivity).
  split; [exact H1 |].
  eexists. split; [vm_compute; reflexivity |].
  match goal with
  | |- context [ix_keys ?ix] =>
      pose proof (createPumpFunInstruction_accounts Cases.sdk58 Samples.mint
                    Samples.creator Samples.request_with_uri ix H1) as H
  end.
  split; apply H; vm_compute; reflexivity.
Defined.

(* ------------------------------------------------------------------ *)
(** ** The two ways through the submission block *)
(* ------------------------------------------------------------------ *)

Section SubmissionPaths.
Import Pumpfun.

Variable env : Env.

Ltac destruct_answer :=
  match goal with
  | |- context [env_senderPost ?e ?t ?x] =>
      destruct (env_senderPost e t x) as [? | | ?]
  | |- context [env_sendRawTransaction ?e ?t ?x] =>
      destruct (env_sendRawTransaction e t x) as [? | ?]
  | |- context [env_getLatestBlockhash ?e ?t] =>
      destruct (env_getLatestBlockhash e t) as [? | ?]
  | |- context [env_confirmTransaction ?e ?t ?x] =>
      destruct (env_confirmTransaction e t x) as [? | ?]
  | |- context [match json_error ?j with _ => _ end] =>
      destruct (json_error j) as [? |] eqn:?
  | |- context [match json_result ?j with _ => _ end] =>
      destruct (json_result j) as [? |] eqn:?
  | |- context [if String.eqb ?s ?t then _ else _] =>
      destruct (String.eqb s t) eqn:?
  | |- context [match conf_err ?c with _ => _ end] =>
      destruct (conf_err c) as [? |] eqn:?
  end; cbv beta iota zeta.

Ltac split_trace :=
  repeat apply trace_cons; first [apply trace_nil | reflexivity].

(** The submission block of [createPumpFunToken] runs in one of two
    ways.  Either the relay accepted the signed transaction, its
    confirmation inside [sendWithHelius] returned (whatever it reported),
    a blockhash was fetched and the second confirmation came back without
    error: four calls, and the relay's signature is returned.  Or the
    same signed transaction is sent directly, with preflight, right after
    the relay path gave up, which it does also when the relay had
    accepted the transaction and only its confirmation failed: the
    transaction is then broadcast a second time.  A signature from the
    direct path is returned only after a blockhash fetch and a
    confirmation without error. *)
Theorem createPumpFunToken_submit_paths
    (transaction : Transaction) (tokenMint creatorKeypair : Keypair) (tr : Trace) :
  exists out later,
    createPumpFunToken_submit env transaction tokenMint creatorKeypair tr
    = (out, later ++ tr)
    /\ ((exists s j bh c1 c2,
           later = [ ConfirmTransaction s (Some bh) (Ok c2);
                     GetLatestBlockhash (Ok bh);
                     ConfirmTransaction s None (Ok c1);
                     SenderPost (sign transaction [tokenMint; creatorKeypair])
                       (Response j) ]
           /\ json_error j = None /\ json_result j = Some s /\ s <> ""%string
           /\ conf_err c2 = None
           /\ out = Ok s)
        \/ (exists r direct relay,
              later = direct
                      ++ SendRawTransaction
                           (sign transaction [tokenMint; creatorKeypair])
                           (Some false) r
                      :: relay
              /\ (exists a rest,
                    relay = rest
                            ++ [SenderPost
                                  (sign transaction [tokenMint; creatorKeypair])
                                  a])
              /\ count is_broadcast relay = 1%nat
              /\ count is_broadcast direct = 0%nat
              /\ forall s, out = Ok s ->
                   r = Ok s
                   /\ exists bh c,
                        direct = [ ConfirmTransaction s (Some bh) (Ok c);
                                   GetLatestBlockhash (Ok bh) ]
                        /\ conf_err c = None)).
Proof.
  unfold createPumpFunToken_submit, sendWithHelius,
    axios_post, sendRawTransaction, getLatestBlockhash,
    confirmTransaction, try_catch, bind, call, ret, throwError, throw.
  cbv beta iota zeta.
  repeat destruct_answer;
    (eexists _, _; split; [apply f_equal; split_trace |]);
    first
      [ solve [ left; do 5 eexists; repeat split; try eassumption;
                try reflexivity; apply String.eqb_neq; assumption ]
      | right;
        first [ eexists _, [], _; split; [reflexivity |]
              | eexists _, [_], _; split; [reflexivity |]
              | eexists _, [_; _], _; split; [reflexivity |] ];
        (split;
         [ first [ eexists _, []; reflexivity
                 | eexists _, [_]; reflexivity
                 | eexists _, [_; _]; reflexivity
                 | eexists _, [_; _; _]; reflexivity ] |]);
        (split; [reflexivity |]); (split; [reflexivity |]);
        intros ? [= <-];
        (split; [reflexivity |]); do 2 eexists;
        (split; [reflexivity | assumption]) ].
Qed.

End SubmissionPaths.

(* ------------------------------------------------------------------ *)
(** ** submitTransaction: bundler first, direct submission second *)
(* ------------------------------------------------------------------ *)

Section BundlerThenFallback.
Import Pumpfun Bundler.

Variable sdk : Sdk.
Variable env : Env.
Variable executeAndConfirm :
  Transaction -> Keypair -> BlockhashInfo -> list Keypair ->
  Trace -> Outcome SubmitResult * Transaction * Trace.





End BundlerThenFallback.

(** The bundler confirms and the database is down: the transaction is
    sent once more, directly, and the signature reported is that of the
    second submission. *)
Example submitTransaction_resubmits_after_failed_record :
  Bundler.submitTransaction Samples.sdk Bundler.database_down
    Bundler.confirming_bundler Samples.signed_tx Samples.creator
    Samples.latest Samples.mint []
  = (Ok (Bundler.mkSubmission true (Some "sig-direct"%string)
           (toBase58 Samples.sdk (publicKey Samples.mint)) None),
     [ ConfirmTransaction "sig-direct"%string (Some Samples.latest)
         (Ok Samples.clean_confirmation);
       SendRawTransaction Samples.signed_tx None (Ok "sig-direct"%string);
       DbUpdateSignature PumpfunTokens
         (toBase58 Samples.sdk (publicKey Samples.mint)) "sig-jito"%string
         (Throw (ErrorInstance "connection refused")) ]).
Proof. vm_compute. reflexivity. Qed.

(* ------------------------------------------------------------------ *)
(** ** FilebaseService *)
(* ------------------------------------------------------------------ *)

Section FilebaseUploads.
Import Filebase.

Variable world : World.

Lemma object_key_not_empty (ms : N) (random filename : JsString) :
  object_key ms random filename <> [].
Proof. discriminate. Qed.

Lemma finalHash_not_empty (h : HeadObjectOutput) (key : JsString) :
  key <> [] -> finalHash h key <> [].
Proof.
  intros Hk. unfold finalHash. cbv zeta.
  match goal with
  | |- or_default ?o key <> [] => destruct o as [[| c x] |]
  end; cbn; (exact Hk || discriminate).
Qed.

Lemma finalHash_without_identifier (h : HeadObjectOutput) (key : JsString) :
  head_Metadata h = None -> head_ETag h = None -> finalHash h key = key.
Proof. unfold finalHash. intros -> ->. reflexivity. Qed.

Lemma uploads_app (a b : Filebase.Trace) : uploads (a ++ b) = uploads b ++ uploads a.
Proof. unfold uploads. now rewrite flat_map_app, rev_app_distr. Qed.

Lemma gateway_address_not_empty (hash : JsString) :
  (filebaseGateway ++ lit "/" ++ hash) <> [].
Proof. discriminate. Qed.

(** [uploadToFilebase] uploads the content once, under a key made of the
    time, a random text and what follows the last dot of the file name
    (the whole name if it has no dot).  It asks for the object's head
    only after the upload resolved with an ETag, and under the same key.
    It returns exactly when both requests resolved; the address is then
    the gateway, a slash and a non-empty name for the object, which is
    the object key itself when the head carries neither metadata nor an
    ETag, so that the address need not hold a content identifier.  Every
    rejection is an Error whose message starts with "Failed to upload to
    Filebase S3: ", also the one for a missing ETag. *)
Theorem uploadToFilebase_outcome
    (content : Body) (filename contentType : JsString) (tr : Filebase.Trace) :
  exists out new key,
    uploadToFilebase world content filename contentType tr = (out, new ++ tr)
    /\ (exists ms random, key = object_key ms random filename)
    /\ uploads new = [(content, contentType)]
    /\ match out with
       | Ok url =>
           requests new = [(true, key, true); (false, key, true)]
           /\ exists h older,
                new = HeadObject key (Resolved h) :: older
                /\ url = filebaseGateway ++ lit "/" ++ finalHash h key
                /\ finalHash h key <> []
                /\ (head_Metadata h = None -> head_ETag h = None ->
                    url = filebaseGateway ++ lit "/" ++ key)
       | Throw e =>
           (exists m,
              e = ErrorInstance ("Failed to upload to Filebase S3: " ++ m)%string)
           /\ (requests new = [(true, key, false)]
               \/ (requests new = [(true, key, true)]
                   /\ e = ErrorInstance
                            "Failed to upload to Filebase S3: Invalid response from Filebase S3: Missing ETag")
               \/ requests new = [(true, key, true); (false, key, false)])
       end.
Proof.
  unfold uploadToFilebase, Date_now, Math_random_toString36, send,
    Eff.try_catch, Eff.bind, Eff.ret, Eff.throwError.
  cbv beta iota zeta.
  set (ms := world_now world tr).
  set (random := world_random world (Now ms :: tr)).
  set (key := object_key ms random filename).
  assert (Hkey : exists ms random, key = object_key ms random filename)
    by (exists ms, random; reflexivity).
  destruct (world_put world (Random random :: Now ms :: tr) key content
              contentType filename) as [m | response]; cbv beta iota zeta.
  - eexists _, [_; _; _], key. split; [reflexivity |]. split; [exact Hkey |].
    split; [reflexivity |]. split; [eexists; reflexivity |]. left. reflexivity.
  - destruct (truthy_opt (put_ETag response)); cbn [negb].
    + match goal with
      | |- context [world_head world ?t key] =>
          destruct (world_head world t key) as [m | h]
      end; cbv beta iota zeta.
      * eexists _, [_; _; _; _], key. split; [reflexivity |].
        split; [exact Hkey |]. split; [reflexivity |].
        split; [eexists; reflexivity |]. right. right. reflexivity.
      * eexists _, [_; _; _; _], key. split; [reflexivity |].
        split; [exact Hkey |]. split; [reflexivity |]. split; [reflexivity |].
        eexists _, _. split; [reflexivity |]. split; [reflexivity |].
        split; [apply finalHash_not_empty, object_key_not_empty |].
        intros Hm He. now rewrite finalHash_without_identifier.
    + eexists _, [_; _; _], key. split; [reflexivity |]. split; [exact Hkey |].
      split; [reflexivity |]. split; [eexists; reflexivity |]. right. left.
      split; reflexivity.
Qed.

(** What a caller of [uploadToFilebase] relies on. *)
Lemma uploadToFilebase_summary
    (content : Body) (filename contentType : JsString) (tr : Filebase.Trace) :
  exists out new,
    uploadToFilebase world content filename contentType tr = (out, new ++ tr)
    /\ uploads new = [(content, contentType)]
    /\ match out with
       | Ok url => url <> []
       | Throw e =>
           exists m,
             e = ErrorInstance ("Failed to upload to Filebase S3: " ++ m)%string
       end.
Proof.
  unfold uploadToFilebase, Date_now, Math_random_toString36, send,
    Eff.try_catch, Eff.bind, Eff.ret, Eff.throwError.
  cbv beta iota zeta.
  set (ms := world_now world tr).
  set (random := world_random world (Now ms :: tr)).
  set (key := object_key ms random filename).
  destruct (world_put world (Random random :: Now ms :: tr) key content
              contentType filename) as [m | response]; cbv beta iota zeta.
  - eexists _, [_; _; _]. split; [reflexivity |]. split; [reflexivity | eexists; reflexivity].
  - destruct (truthy_opt (put_ETag response)); cbn [negb].
    + match goal with
      | |- context [world_head world ?t key] =>
          destruct (world_head world t key) as [m | h]
      end; cbv beta iota zeta.
      * eexists _, [_; _; _; _]. split; [reflexivity |].
        split; [reflexivity | eexists; reflexivity].
      * eexists _, [_; _; _; _]. split; [reflexivity |].
        split; [reflexivity | apply gateway_address_not_empty].
    + eexists _, [_; _; _]. split; [reflexivity |]. split; [reflexivity | eexists; reflexivity].
Qed.

(** [uploadMetadata] uploads the image only when the request has both a
    buffer and a non-empty file name (a buffer without a name is passed
    over in silence), always as image/jpeg, and before the metadata.  The
    metadata document names as image the address of the uploaded image
    and, without one, the request's external_url (or nothing); its
    description defaults to the name followed by " token".  A failed
    image upload stops the call before the metadata is uploaded.  The
    call returns exactly when every upload it made returned, with an
    empty imageUrl exactly when no image was uploaded; every rejection is
    the Error of [uploadToFilebase]. *)
Theorem uploadMetadata_outcome
    (req : Pumpfun.TokenCreationRequest) (tr : Filebase.Trace) :
  exists out new,
    uploadMetadata world req tr = (out, new ++ tr)
    /\ match out with
       | Ok up =>
           (up_imageUrl up = [] <-> image_of req = None)
           /\ uploads new
              = image_upload req
                ++ [(Json (document_for req (up_imageUrl up)),
                     lit "application/json")]
           /\ up_uri up <> []
       | Throw e =>
           (exists m,
              e = ErrorInstance ("Failed to upload to Filebase S3: " ++ m)%string)
           /\ ((image_of req <> None /\ uploads new = image_upload req)
               \/ exists imageUrl,
                    (imageUrl = [] <-> image_of req = None)
                    /\ uploads new
                       = image_upload req
                         ++ [(Json (document_for req imageUrl),
                              lit "application/json")])
       end.
Proof.
  assert (Hdoc : forall imageUrl (t : Filebase.Trace),
             exists out new,
               uploadMetadata_document world req imageUrl t = (out, new ++ t)
               /\ uploads new
                  = [(Json (document_for req imageUrl), lit "application/json")]
               /\ match out with
                  | Ok up => up_imageUrl up = imageUrl /\ up_uri up <> []
                  | Throw e =>
                      exists m,
                        e = ErrorInstance
                              ("Failed to upload to Filebase S3: " ++ m)%string
                  end).
  { intros imageUrl t. unfold uploadMetadata_document. cbv zeta.
    unfold Eff.bind, Date_now, Math_random_toString36.
    cbv beta iota zeta.
    match goal with
    | |- context [uploadToFilebase world ?c ?f ?ct ?t0] =>
        destruct (uploadToFilebase_summary c f ct t0)
          as (out2 & new2 & E2 & Hup2 & Hout2)
    end.
    rewrite E2.
    destruct out2 as [uri | e]; unfold Eff.ret;
      (eexists _, (new2 ++ [_; _]); rewrite <- app_assoc;
       split; [reflexivity |]; rewrite uploads_app, Hup2;
       split; [reflexivity |]).
    - split; [reflexivity | exact Hout2].
    - exact Hout2. }
  assert (Hskip : image_of req = None ->
             exists out new,
               Eff.bind (Eff.ret []) (uploadMetadata_document world req)
                 tr = (out, new ++ tr)
               /\ match out with
                  | Ok up =>
                      (up_imageUrl up = [] <-> image_of req = None)
                      /\ uploads new
                         = [] ++ [(Json (document_for req (up_imageUrl up)),
                                   lit "application/json")]
                      /\ up_uri up <> []
                  | Throw e =>
                      (exists m,
                         e = ErrorInstance
                               ("Failed to upload to Filebase S3: " ++ m)%string)
                      /\ ((image_of req <> None /\ uploads new = [])
                          \/ exists imageUrl,
                               (imageUrl = [] <-> image_of req = None)
                               /\ uploads new
                                  = [] ++ [(Json (document_for req imageUrl),
                                            lit "application/json")])
                  end).
  { intros Himg. unfold Eff.bind at 1. unfold Eff.ret at 1.
    destruct (Hdoc [] tr) as (out & new & E & Hup & Hout).
    exists out, new. split; [exact E |].
    destruct out as [up | e].
    - destruct Hout as [-> Huri]. split; [tauto |]. split; assumption.
    - split; [exact Hout |]. right. exists []. split; [tauto | exact Hup]. }
  unfold uploadMetadata, image_upload.
  destruct (image_of req) as [buffer |] eqn:Himage.
  2: {
    unfold image_of in Himage.
    destruct (Pumpfun.imageBuffer req) as [imageBuffer |];
      [destruct (Pumpfun.imageFileName req) as [imageFileName |];
       [destruct (truthy imageFileName); [discriminate Himage |] |] |];
      apply Hskip; reflexivity. }
  clear Hskip. unfold image_of in Himage.
  destruct (Pumpfun.imageBuffer req) as [imageBuffer |]; [| discriminate Himage].
  destruct (Pumpfun.imageFileName req) as [imageFileName |];
    [| discriminate Himage].
  destruct (truthy imageFileName); [| discriminate Himage].
  injection Himage as ->.
  unfold Eff.bind, Date_now. cbv beta iota zeta.
  match goal with
  | |- context [uploadToFilebase world ?c ?f ?ct ?t] =>
      destruct (uploadToFilebase_summary c f ct t)
        as (out1 & new1 & E1 & Hup1 & Hout1)
  end.
  rewrite E1. destruct out1 as [imageUrl | e].
  - destruct (Hdoc imageUrl (new1 ++ Now (world_now world tr) :: tr))
      as (out & new & E & Hup & Hout).
    rewrite E. exists out, (new ++ new1 ++ [Now (world_now world tr)]).
    split; [now rewrite <- !app_assoc |].
    rewrite !uploads_app, Hup1, Hup. cbn [uploads flat_map rev app].
    destruct out as [up | e].
    + destruct Hout as [-> Huri].
      split; [split; [contradiction | discriminate] |].
      split; [reflexivity | exact Huri].
    + split; [exact Hout |]. right. exists imageUrl.
      split; [split; [contradiction | discriminate] | reflexivity].
  - exists (Throw e), (new1 ++ [Now (world_now world tr)]).
    rewrite <- app_assoc. split; [reflexivity |]. split; [exact Hout1 |].
    left. split; [discriminate |]. rewrite uploads_app, Hup1. reflexivity.
Qed.

End FilebaseUploads.

(** No content identifier in the head of the object: the address ends in
    the object key. *)
Example uploadToFilebase_address_of_the_key :
  fst (Filebase.uploadToFilebase (Filebase.calm None) (Filebase.Bytes [1; 2; 3])
         (lit "images/1700000000000-logo.png") (lit "image/jpeg") [])
  = Ok (lit "https://agricultural-gray-ocelot.myfilebase.com/ipfs/file-1700000000000-4fzyo8.png").
Proof. vm_compute. reflexivity. Qed.

(** A file name without a dot: the whole path becomes the extension. *)
Example uploadToFilebase_name_without_dot :
  fst (Filebase.uploadToFilebase (Filebase.calm None) (Filebase.Bytes [1; 2; 3])
         (lit "images/1700000000000-logo") (lit "image/jpeg") [])
  = Ok (lit "https://agricultural-gray-ocelot.myfilebase.com/ipfs/file-1700000000000-4fzyo8.images/1700000000000-logo").
Proof. vm_compute. reflexivity. Qed.

(** The content identifier of the metadata wins over the key. *)
Example uploadToFilebase_address_of_the_identifier :
  fst (Filebase.uploadToFilebase
         (Filebase.calm (Some [(lit "cid", lit "QmHash")]))
         (Filebase.Bytes [1; 2; 3]) (lit "a.png") (lit "image/jpeg") [])
  = Ok (lit "https://agricultural-gray-ocelot.myfilebase.com/ipfs/QmHash").
Proof. vm_compute. reflexivity. Qed.

(* ------------------------------------------------------------------ *)
(** ** PinataService *)
(* ------------------------------------------------------------------ *)

Section PinataUploads.
Import Pinata.

Variable sdk : Sdk.
Variable world : World.
Variable pinataGateway : JsString.

Lemma sliced_name_bounds (s : option JsString) (n : nat) (d : JsString) :
  (1 <= length d <= n)%nat ->
  (1 <= length (or_default (slice s n) d) <= n)%nat.
Proof.
  intros Hd. destruct s as [u |]; cbn; [| exact Hd].
  destruct (firstn n u) as [| c x] eqn:E; cbn [truthy]; [exact Hd |].
  rewrite <- E. rewrite length_firstn.
  assert (1 <= length (firstn n u))%nat by (rewrite E; cbn; lia).
  rewrite length_firstn in H. lia.
Qed.

(** [PinataService.uploadMetadata] rejects a request without an image
    buffer or without a file name with a message of its own, before any
    call.  Otherwise the image is pinned first; every later failure is
    reported as "Failed to upload metadata: ...".  The creator key is
    read only after the image was pinned, and only when the request names
    no owner: a key that does not decode then fails the call with the
    image already pinned and no metadata pinned.  On success exactly two
    pins were made, the file and then the metadata; the addresses
    returned are the gateway, a slash and the hashes; the document's
    image is the image address, its name has 1 to 32 code units and its
    symbol 1 to 8, and its creator is the owner if the request names one
    and the address of the creator key otherwise. *)
Theorem pinata_uploadMetadata_outcome (req : Request) (tr : Pinata.Trace) :
  exists out new,
    uploadMetadata sdk world pinataGateway req tr = (out, new ++ tr)
    /\ if has_image req then
         exists buffer fileName a rest,
           imageBuffer req = Some buffer
           /\ imageFileName req = Some fileName
           /\ new = rest ++ [PinFile buffer fileName a]
           /\ match out with
              | Ok up =>
                  exists h1 h2 n doc,
                    a = Pinned h1
                    /\ rest = [PinJSON n doc (Pinned h2)]
                    /\ up_imageUrl up = pinataGateway ++ lit "/" ++ text h1
                    /\ up_uri up = pinataGateway ++ lit "/" ++ text h2
                    /\ doc_image doc = up_imageUrl up
                    /\ (1 <= length (doc_name doc) <= 32)%nat
                    /\ (1 <= length (doc_symbol doc) <= 8)%nat
                    /\ (if truthy_opt (owner req)
                        then Some (doc_creator_address doc) = owner req
                        else exists kp,
                               getCreatorKeypair sdk (creatorKeypair req) = Ok kp
                               /\ doc_creator_address doc
                                  = toBase58 sdk (publicKey kp))
              | Throw e =>
                  (exists m,
                     e = ErrorInstance ("Failed to upload metadata: " ++ m)%string)
                  /\ (rest = []
                      \/ exists n doc details,
                           rest = [PinJSON n doc (PinRejected details)])
              end
           /\ (truthy_opt (owner req) = false ->
               forall e h,
                 getCreatorKeypair sdk (creatorKeypair req) = Throw e ->
                 a = Pinned h ->
                 rest = []
                 /\ out = Throw (ErrorInstance
                                   ("Failed to upload metadata: "
                                    ++ Eff.message_of e)%string))
       else
         new = []
         /\ out = Throw (ErrorInstance
                           "Image buffer and filename are required for metadata upload").
Proof.
  unfold uploadMetadata, has_image.
  destruct (imageBuffer req) as [buffer |]; cbn [is_null negb andb];
    [| exists (Throw (ErrorInstance
                 "Image buffer and filename are required for metadata upload")),
         []; split; [reflexivity | split; reflexivity]].
  destruct (imageFileName req) as [fileName |]; cbn [truthy_opt];
    [| eexists _, []; split; [reflexivity | split; reflexivity]].
  destruct (truthy fileName); cbn [negb];
    [| eexists _, []; split; [reflexivity | split; reflexivity]].
  unfold pinToIPFS, Eff.try_catch, Eff.bind, Eff.lift, Eff.ret, Eff.throwError.
  cbv beta iota zeta.
  destruct (world_pinFile world tr buffer fileName) as [details | h1];
    cbv beta iota zeta.
  - eexists _, [_]. split; [reflexivity |].
    exists buffer, fileName. eexists _, [].
    repeat split; try reflexivity; eauto; discriminate.
  - destruct (truthy_opt (owner req)) eqn:Howner; cbv beta iota zeta.
    + match goal with
      | |- context [world_pinJSON world ?t ?n ?d] =>
          destruct (world_pinJSON world t n d) as [details | h2] eqn:Epin
      end; cbv beta iota zeta.
      * eexists _, [_; _]. split; [reflexivity |].
        exists buffer, fileName. eexists _, [_].
        repeat split; try reflexivity; eauto; discriminate.
      * eexists _, [_; _]. split; [reflexivity |].
        exists buffer, fileName. eexists _, [_].
        split; [reflexivity |]. split; [reflexivity |]. split; [reflexivity |].
        split; [| discriminate].
        exists h1, h2. eexists _, _. split; [reflexivity |].
        split; [reflexivity |]. cbn.
        repeat split;
          try (apply (sliced_name_bounds _ _ _); cbn; lia).
        destruct (owner req) as [[| c o] |]; cbn in *;
          (discriminate || reflexivity).
    + destruct (getCreatorKeypair sdk (creatorKeypair req)) as [kp | e] eqn:Ekey;
        cbv beta iota zeta.
      * match goal with
        | |- context [world_pinJSON world ?t ?n ?d] =>
            destruct (world_pinJSON world t n d) as [details | h2] eqn:Epin
        end; cbv beta iota zeta.
        -- eexists _, [_; _]. split; [reflexivity |].
           exists buffer, fileName. eexists _, [_].
           repeat split; try reflexivity; eauto; discriminate.
        -- eexists _, [_; _]. split; [reflexivity |].
           exists buffer, fileName. eexists _, [_].
           split; [reflexivity |]. split; [reflexivity |]. split; [reflexivity |].
           split; [| discriminate].
           exists h1, h2. eexists _, _. split; [reflexivity |].
           split; [reflexivity |]. cbn.
           repeat split;
             try (apply (sliced_name_bounds _ _ _); cbn; lia).
           exists kp. split; reflexivity.
      * eexists _, [_]. split; [reflexivity |].
        exists buffer, fileName. eexists _, [].
        split; [reflexivity |]. split; [reflexivity |]. split; [reflexivity |].
        split; [split; [eexists; reflexivity | left; reflexivity] |].
        intros _ e' h [= <-] _. split; reflexivity.
Qed.

End PinataUploads.

(** A creator key that does not decode to 64 bytes: the image is pinned,
    then the call fails. *)
Example pinata_uploadMetadata_pins_image_before_key :
  Pinata.uploadMetadata Pinata.sdk_short_key Pinata.pins_everything
    (lit "https://gateway.pinata.cloud/ipfs") Pinata.request_bad_key []
  = (Throw (ErrorInstance
              "Failed to upload metadata: Invalid creatorKeypair: must be 64 bytes"),
     [Pinata.PinFile [1; 2; 3] (lit "t.png") (Pinata.Pinned (Some (lit "QmImage")))]).
Proof. vm_compute. reflexivity. Qed.

(* ------------------------------------------------------------------ *)
(** ** storeTokenData: what reaches the table *)
(* ------------------------------------------------------------------ *)

Section StoredRow.
Import Records.

Variable sdk : Sdk.
Variable create : Records.Trace -> Row -> Outcome unit.

Lemma accepted_amount_stored (n : JsNumber) :
  buyAmount_accepted n ->
  refused_amount (Some n) = false
  /\ match stored_amount (Some n) with
     | Some z => 0 <= z <= MAX_SAFE_INTEGER
     | None => True
     end.
Proof.
  destruct n as [| neg | q]; cbn; try tauto.
  intros [H0 | [Hpos Hmax]].
  - apply Qeq_bool_iff in H0. rewrite H0. auto.
  - split; [reflexivity |]. destruct (Qeq_bool q 0); [exact I |].
    split.
    + apply Qlt_le_weak in Hpos. apply Qfloor_resp_le in Hpos. exact Hpos.
    + apply Qfloor_resp_le in Hmax. now rewrite Qfloor_Z in Hmax.
Qed.

(** [storeTokenData] makes at most one call, the insertion, and every
    rejection is an Error "Failed to store token data: ...".  An
    infinite buy amount and a creator key that does not decode are
    refused before the insertion.  The row inserted has status
    "bonding", the standard supply, the creator's address made from the
    key, and as initial buy amount nothing when the amount is absent,
    zero or NaN and the amount rounded down otherwise; for an amount that
    passed [validateRequest] that is an integer from 0 to 2^53 - 1, and 0
    for an amount below one. *)
Theorem storeTokenData_outcome (data : TokenData) (tr : Records.Trace) :
  exists out new,
    storeTokenData sdk create data tr = (out, new ++ tr)
    /\ (forall e, out = Throw e ->
        exists m, e = ErrorInstance ("Failed to store token data: " ++ m)%string)
    /\ (if refused_amount (buyAmount data) then new = []
        else match Pumpfun.getCreatorKeypair sdk (creatorKeypair data) with
             | Throw _ => new = []
             | Ok creator =>
                 exists row r,
                   new = [Create row r]
                   /\ (out = Ok tt <-> r = Ok tt)
                   /\ row_creatorAddress row = toBase58 sdk (publicKey creator)
                   /\ row_initialBuyAmount row = stored_amount (buyAmount data)
                   /\ row_status row = "bonding"%string
                   /\ row_initialSupply row = 1000000000
                   /\ row_currentSupply row = 1000000000
                   /\ row_signature row = signature data
                   /\ row_tokenMint row = tokenMint data
             end)
    /\ (forall n, buyAmount data = Some n -> buyAmount_accepted n ->
        refused_amount (buyAmount data) = false
        /\ match stored_amount (buyAmount data) with
           | Some z => 0 <= z <= MAX_SAFE_INTEGER
           | None => True
           end).
Proof.
  cut (exists out new,
          storeTokenData sdk create data tr = (out, new ++ tr)
          /\ (forall e, out = Throw e ->
              exists m,
                e = ErrorInstance ("Failed to store token data: " ++ m)%string)
          /\ (if refused_amount (buyAmount data) then new = []
              else match Pumpfun.getCreatorKeypair sdk (creatorKeypair data) with
                   | Throw _ => new = []
                   | Ok creator =>
                       exists row r,
                         new = [Create row r]
                         /\ (out = Ok tt <-> r = Ok tt)
                         /\ row_creatorAddress row
                            = toBase58 sdk (publicKey creator)
                         /\ row_initialBuyAmount row
                            = stored_amount (buyAmount data)
                         /\ row_status row = "bonding"%string
                         /\ row_initialSupply row = 1000000000
                         /\ row_currentSupply row = 1000000000
                         /\ row_signature row = signature data
                         /\ row_tokenMint row = tokenMint data
                   end)).
  { intros (out & new & E & H1 & H2). exists out, new.
    split; [exact E |]. split; [exact H1 |]. split; [exact H2 |].
    intros n -> Hn. now apply accepted_amount_stored. }
  unfold storeTokenData, PumpfunTokens_create, Eff.try_catch, Eff.bind,
    Eff.lift, Eff.throwError.
  cbv zeta.
  destruct (buyAmount data) as [[| neg | q] |];
    cbn [num_truthy isFinite negb refused_amount stored_amount];
    [ | eexists _, []; split; [reflexivity |];
        split; [intros ? [= <-]; eexists; reflexivity | reflexivity]
      | destruct (Qeq_bool q 0); cbn [negb isFinite floor] | ];
    (destruct (Pumpfun.getCreatorKeypair sdk (creatorKeypair data))
       as [creator | e];
     [ match goal with
       | |- context [create tr ?row] => destruct (create tr row) as [[] | ?]
       end;
       (eexists _, [_]; split; [reflexivity |];
        split; [first [discriminate | intros ? [= <-]; eexists; reflexivity] |];
        eexists _, _; split; [reflexivity |]; cbn;
        repeat split; first [reflexivity | discriminate])
     | eexists _, []; split; [reflexivity |];
       split; [intros ? [= <-]; eexists; reflexivity | reflexivity] ]).
Qed.

End StoredRow.

(** Half a unit passes validation and is stored as 0. *)
Example storeTokenData_rounds_down :
  Records.storeTokenData Samples.sdk (fun _ _ => Ok tt) Records.half_a_unit []
  = (Ok tt,
     [Records.Create
        (Records.mkRow (lit "mint") (lit "Test") (lit "TST")
           (toBase58 Samples.sdk (mkPublicKey (repeat 1 32)))
           (lit "https://ipfs/meta") None None None 1000000000 1000000000
           (lit "curve") (lit "associated") "sig"%string "bonding"%string
           (Some 0) false)
        (Ok tt)]).
Proof. vm_compute. reflexivity. Qed.

(* ------------------------------------------------------------------ *)
(** ** What the checks of createBonkTokenTx accept *)
(* ------------------------------------------------------------------ *)

Section BonkAccepted.
Import Launchlab.

Lemma bad_url_false (field : option JsString) :
  bad_url field = false <-> link_accepted field.
Proof.
  unfold bad_url, link_accepted. destruct field as [u |].
  - split.
    + intros H v [= <-]. apply andb_false_iff in H as [H | H].
      * left. destruct u; [reflexivity | discriminate H].
      * right. now apply negb_false_iff in H.
    + intros H. destruct (H u eq_refl) as [-> | Hu]; [reflexivity |].
      rewrite Hu. apply andb_false_r.
  - split; [intros _ u H; discriminate H | reflexivity].
Qed.

Lemma description_too_long_false (d : option JsString) :
  description_too_long d = false
  <-> forall u, d = Some u -> (length u <= 200)%nat.
Proof.
  unfold description_too_long. destruct d as [u |].
  - split.
    + intros H v [= <-]. apply andb_false_iff in H as [H | H].
      * destruct u; [cbn; lia | discriminate H].
      * now apply Nat.ltb_ge in H.
    + intros H. specialize (H u eq_refl). apply andb_false_iff. right.
      now apply Nat.ltb_ge.
  - split; [intros _ u H; discriminate H | reflexivity].
Qed.

Lemma decimals_check_false (d : option JsNumber) :
  match d with
  | Some n => num_truthy n && (isNaN n || num_lt n 0 || num_gt n 9)
  | None => false
  end = false
  <-> forall n, d = Some n -> decimals_accepted n.
Proof.
  destruct d as [n |]; [| split; [intros _ n H; discriminate H | reflexivity]].
  split.
  - intros H m [= <-]. destruct n as [| neg | q]; cbn in *.
    + exact I.
    + destruct neg; discriminate H.
    + destruct (Qeq_bool q 0) eqn:E0; cbn in H.
      * left. now apply Qeq_bool_iff.
      * right. apply orb_false_iff in H as [Hlt Hgt].
        apply negb_false_iff in Hlt, Hgt. apply Qle_bool_iff in Hlt, Hgt.
        split; [| exact Hgt].
        apply Qle_lteq in Hlt as [Hlt | Heq]; [exact Hlt |].
        symmetry in Heq. apply Qeq_bool_iff in Heq.
        change (inject_Z 0) with 0%Q in Heq. congruence.
  - intros H. specialize (H n eq_refl). destruct n as [| neg | q]; cbn in *.
    + reflexivity.
    + contradiction.
    + destruct (Qeq_bool q 0) eqn:E0; [reflexivity |]. cbn.
      destruct H as [H | [Hpos Hmax]].
      * apply Qeq_bool_iff in H. congruence.
      * apply orb_false_iff. split; apply negb_false_iff; apply Qle_bool_iff.
        -- now apply Qlt_le_weak.
        -- exact Hmax.
Qed.

Lemma migrateType_check_false (m : option JsString) :
  match m with
  | Some t => truthy t && negb (jsstring_eqb t (lit "amm"))
  | None => false
  end = false
  <-> forall t, m = Some t -> t = [] \/ t = lit "amm".
Proof.
  destruct m as [t |]; [| split; [intros _ t H; discriminate H | reflexivity]].
  split.
  - intros H v [= <-]. apply andb_false_iff in H as [H | H].
    + left. destruct t; [reflexivity | discriminate H].
    + right. apply negb_false_iff in H.
      destruct t as [| a [| b [| c [| d t]]]]; cbn in H; try discriminate H.
      apply andb_true_iff in H as [Ha H]. apply andb_true_iff in H as [Hb H].
      apply andb_true_iff in H as [Hc _].
      apply Z.eqb_eq in Ha, Hb, Hc. now subst.
  - intros H. destruct (H t eq_refl) as [-> | ->]; reflexivity.
Qed.

(** The checks at the head of [createBonkTokenTx] accept a request
    exactly when name and symbol are non-empty, of at most 32 and 8 code
    units, an image is given, the description has at most 200 code
    units, each of createdOn, website, twitter and telegram is absent,
    empty or starts with http:// or https://, decimals is absent, NaN,
    zero or a number above 0 and at most 9 (not necessarily whole), and
    migrateType is absent, empty or "amm". *)
Theorem createBonkTokenTx_validate_accepts_exactly (tokenData : LaunchpadRequest) :
  createBonkTokenTx_validate tokenData = Ok tt
  <-> (1 <= length (name tokenData) <= 32)%nat
      /\ (1 <= length (symbol tokenData) <= 8)%nat
      /\ image tokenData <> None
      /\ (forall u, description tokenData = Some u -> (length u <= 200)%nat)
      /\ link_accepted (createdOn tokenData)
      /\ link_accepted (website tokenData)
      /\ link_accepted (twitter tokenData)
      /\ link_accepted (telegram tokenData)
      /\ (forall n, decimals tokenData = Some n -> decimals_accepted n)
      /\ (forall t, migrateType tokenData = Some t -> t = [] \/ t = lit "amm").
Proof.
  rewrite <- !bad_url_false, <- description_too_long_false,
    <- decimals_check_false, <- migrateType_check_false.
  unfold createBonkTokenTx_validate.
  destruct (negb (truthy (name tokenData)) || negb (truthy (symbol tokenData))
            || is_null (image tokenData)) eqn:E1.
  { split; [discriminate |]. intros (Hn & Hs & Hi & _). exfalso.
    apply orb_true_iff in E1 as [E1 | E1];
      [apply orb_true_iff in E1 as [E1 | E1] |].
    - apply negb_true_iff in E1.
      assert (truthy (name tokenData) = true) by (apply truthy_length; lia).
      congruence.
    - apply negb_true_iff in E1.
      assert (truthy (symbol tokenData) = true) by (apply truthy_length; lia).
      congruence.
    - destruct (image tokenData); [discriminate E1 | now apply Hi]. }
  apply orb_false_iff in E1 as [E1 Ei]. apply orb_false_iff in E1 as [En Es].
  apply negb_false_iff in En, Es. apply truthy_length in En, Es.
  assert (Hi : image tokenData <> None)
    by (destruct (image tokenData); [discriminate | discriminate Ei]).
  destruct (32 <? length (name tokenData))%nat eqn:E2.
  { apply Nat.ltb_lt in E2. split; [discriminate | intros (Hn & _); lia]. }
  destruct (8 <? length (symbol tokenData))%nat eqn:E3.
  { apply Nat.ltb_lt in E3. split; [discriminate | intros (_ & Hs & _); lia]. }
  apply Nat.ltb_ge in E2, E3.
  destruct (description_too_long (description tokenData));
    [split; [discriminate | intros (_ & _ & _ & H & _); discriminate H] |].
  destruct (bad_url (createdOn tokenData));
    [split; [discriminate | intros (_ & _ & _ & _ & H & _); discriminate H] |].
  destruct (bad_url (website tokenData));
    [split; [discriminate | intros (_ & _ & _ & _ & _ & H & _); discriminate H] |].
  destruct (bad_url (twitter tokenData));
    [split; [discriminate
            | intros (_ & _ & _ & _ & _ & _ & H & _); discriminate H] |].
  destruct (bad_url (telegram tokenData));
    [split; [discriminate
            | intros (_ & _ & _ & _ & _ & _ & _ & H & _); discriminate H] |].
  destruct (match decimals tokenData with Some _ => _ | None => _ end);
    [split; [discriminate
            | intros (_ & _ & _ & _ & _ & _ & _ & _ & H & _); discriminate H] |].
  destruct (match migrateType tokenData with Some _ => _ | None => _ end);
    [split; [discriminate
            | intros (_ & _ & _ & _ & _ & _ & _ & _ & _ & H); discriminate H] |].
  split; [intros _ | reflexivity].
  repeat split; try assumption; try lia.
Qed.

End BonkAccepted.

(* ------------------------------------------------------------------ *)
(** ** The mayhem flag, from the route to the instruction data *)
(* ------------------------------------------------------------------ *)

Section MayhemOnChain.
Import Pumpfun.

Variable sdk : Sdk.
Variable env : Env.

Lemma writeUInt32LE_kept (buf buf' : Buffer) (v : Z) (off : nat) :
  writeUInt32LE buf v off = Some buf' -> length buf' = length buf.
Proof.
  unfold writeUInt32LE.
  destruct ((0 <=? v) && (v <=? 4294967295)); [| discriminate].
  destruct (off + 4 <=? length buf)%nat eqn:E; [| discriminate].
  intros [= <-]. apply Nat.leb_le in E. apply length_blit. cbn. lia.
Qed.

Lemma write_utf8_kept (buf buf' : Buffer) (s : JsString) (off : nat) :
  write_utf8 buf s off = Some buf' -> length buf' = length buf.
Proof.
  unfold write_utf8. destruct (off <=? length buf)%nat eqn:E; [| discriminate].
  intros [= <-]. apply Nat.leb_le in E. apply length_blit.
  pose proof (length_take_fitting (utf8_chars s) (length buf - off)). lia.
Qed.

Lemma write_hex_of_kept (buf buf' : Buffer) (bytes : list Z) (off : nat) :
  write_hex_of buf bytes off = Some buf' -> length buf' = length buf.
Proof.
  unfold write_hex_of. destruct (off <=? length buf)%nat eqn:E; [| discriminate].
  intros [= <-]. apply Nat.leb_le in E. apply length_blit.
  rewrite length_firstn. lia.
Qed.

Lemma writeUInt8_last (buf buf' : Buffer) (v : Z) (off : nat) :
  length buf = S off ->
  writeUInt8 buf v off = Some buf' ->
  length buf' = length buf /\ last buf' 0 = v.
Proof.
  intros Hlen. unfold writeUInt8.
  destruct ((0 <=? v) && (v <=? 255) && (off + 1 <=? length buf)%nat);
    [| discriminate].
  intros [= <-]. split.
  - apply length_blit. cbn. lia.
  - unfold blit. cbn [length app].
    rewrite (skipn_all2 buf) by lia.
    apply last_last.
Qed.

(** Whenever the encoder returns a buffer, it has the size computed for
    it and its last byte is the mayhem flag. *)
Lemma createPumpFunInstruction_data_flag
    (creatorKeypair : Keypair) (req : TokenCreationRequest) (data : Buffer) :
  createPumpFunInstruction_data creatorKeypair req = Some data ->
  length data = claimed_size req /\ last data 0 = mayhem_byte req.
Proof.
  unfold createPumpFunInstruction_data, claimed_size.
  set (nm := name req). set (sy := symbol req).
  set (u := or_default (uri req) []).
  cbv zeta.
  rewrite (write_discriminator_zeros _ (45 + length nm + length sy + length u))
    by lia.
  cbn [obind fst snd].
  set (b0 := discriminator ++ repeat 0 (45 + length nm + length sy + length u)).
  assert (L0 : length b0 = (53 + length nm + length sy + length u)%nat)
    by (unfold b0; rewrite length_app, repeat_length, length_discriminator; lia).
  destruct (writeUInt32LE b0 _ _) as [b1 |] eqn:E1; [| discriminate].
  apply writeUInt32LE_kept in E1. cbn [obind].
  destruct (write_utf8 b1 _ _) as [b2 |] eqn:E2; [| discriminate].
  apply write_utf8_kept in E2. cbn [obind].
  destruct (writeUInt32LE b2 _ _) as [b3 |] eqn:E3; [| discriminate].
  apply writeUInt32LE_kept in E3. cbn [obind].
  destruct (write_utf8 b3 _ _) as [b4 |] eqn:E4; [| discriminate].
  apply write_utf8_kept in E4. cbn [obind].
  destruct (writeUInt32LE b4 _ _) as [b5 |] eqn:E5; [| discriminate].
  apply writeUInt32LE_kept in E5. cbn [obind].
  destruct (write_utf8 b5 _ _) as [b6 |] eqn:E6; [| discriminate].
  apply write_utf8_kept in E6. cbn [obind].
  destruct (write_hex_of b6 _ _) as [b7 |] eqn:E7; [| discriminate].
  apply write_hex_of_kept in E7. cbn [obind].
  fold (mayhem_byte req).
  destruct (writeUInt8 b7 _ _) as [b8 |] eqn:E8; [| discriminate].
  apply writeUInt8_last in E8; [| lia]. cbn [obind].
  intros [= <-]. destruct E8 as [L8 Hlast]. split; [lia | exact Hlast].
Qed.

(** Every transaction the route has simulated, posted or broadcast
    consists of one instruction for the pump.fun program, and the data of
    that instruction ends with the mayhem flag set, whatever the request
    body said about mayhemMode. *)
Theorem post_create_token_mayhem_on_chain
    (body : TokenCreationRequest) (file : option Router.File) (tr : Trace) :
  exists resp new,
    Router.post_create_token sdk env body file tr = (Ok resp, new ++ tr)
    /\ forall tx,
         In tx (transactions_of new) ->
         exists ix,
           instructions tx = [ix]
           /\ ix_programId ix = programId sdk
           /\ last (ix_data ix) 0 = 1.
Proof.
  unfold Router.post_create_token, Router.create_token_handler. cbv zeta.
  set (tokenData := Router.tokenData_of body file).
  assert (Hflag : mayhemMode tokenData = Some true)
    by (unfold tokenData, Router.tokenData_of; destruct file; reflexivity).
  unfold try_catch.
  repeat match goal with
  | |- context [if ?c then ret (Router.mkResponse 400 ?b) else _] =>
      destruct c;
      [ exists (Router.mkResponse 400 b), []; split; [reflexivity |];
        intros tx [] |]
  end.
  destruct (createPumpFunToken_transaction_shape sdk env tokenData tr)
    as (new & Htr & Hshape).
  destruct (createPumpFunToken_resolves sdk env tokenData tr)
    as (r & new' & E & _).
  rewrite E in Htr. cbn [snd] in Htr. apply app_inv_tail in Htr. subst new'.
  unfold bind. rewrite E.
  assert (Hall : forall tx,
             In tx (transactions_of new) ->
             exists ix,
               instructions tx = [ix]
               /\ ix_programId ix = programId sdk
               /\ last (ix_data ix) 0 = 1).
  { destruct Hshape as [Hnone | Hsome].
    - rewrite Hnone. intros tx [].
    - destruct Hsome as (creator & mint & rest & up & bh & ix & tx0 & sim
                         & later & earlier & _ & -> & Hearlier & _ & Hix
                         & _ & _ & Hins & _ & Hsame & _).
      assert (Hgood : ix_programId ix = programId sdk /\ last (ix_data ix) 0 = 1).
      { unfold createPumpFunInstruction in Hix. cbv zeta in Hix.
        destruct (createPumpFunInstruction_data creator _) as [data |] eqn:Ed;
          [| discriminate Hix].
        cbn [lift_range] in Hix. injection Hix as <-. cbn [ix_programId ix_data].
        split; [reflexivity |].
        apply createPumpFunInstruction_data_flag in Ed as [_ ->].
        unfold mayhem_byte, with_uri. cbn [mayhemMode]. now rewrite Hflag. }
      intros tx Hin. rewrite transactions_of_app in Hin.
      cbn [transactions_of flat_map app] in Hin.
      fold (transactions_of earlier) in Hin. rewrite Hearlier in Hin.
      apply in_app_or in Hin as [Hin | [<- | []]].
      + rewrite Forall_forall in Hsame. rewrite (Hsame tx Hin).
        exists ix. tauto.
      + exists ix. tauto. }
  destruct (success r); unfold ret; eexists _, new; (split; [reflexivity |]);
    exact Hall.
Qed.

End MayhemOnChain.

(* ------------------------------------------------------------------ *)
(** ** What createPumpFunToken does not read *)
(* ------------------------------------------------------------------ *)

Section Unread.
Import Pumpfun.

Variable sdk : Sdk.
Variable env : Env.

(** [FilebaseService.uploadMetadata] reads of a request the fields of
    its parameter type and no other. *)
Lemma uploadMetadata_reads (world : Filebase.World)
    (req1 req2 : TokenCreationRequest) :
  metadata_request req1 = metadata_request req2 ->
  Filebase.uploadMetadata world req1 = Filebase.uploadMetadata world req2.
Proof.
  unfold metadata_request. intros H.
  injection H as Hname Hsymbol Hdescription Hurl Hbuffer Hfile.
  unfold Filebase.uploadMetadata, Filebase.uploadMetadata_document.
  now rewrite Hname, Hsymbol, Hdescription, Hurl, Hbuffer, Hfile.
Qed.

(** Beyond validation, [createPumpFunToken] reads neither the uri nor
    the buyAmount of the request: two requests that pass validation and
    differ in these two fields only make the same calls and get the same
    result, and [FilebaseService.uploadMetadata] makes the same requests
    to the storage for both.  The uri of the instruction is the one the
    upload returns and no buy is added to the transaction.  (The other
    fields are read: see [createPumpFunToken_reads_description].) *)
Theorem createPumpFunToken_ignores_uri_and_buyAmount
    (req : TokenCreationRequest) (uri : option JsString)
    (buyAmount : option JsNumber) (tr : Trace) :
  validateRequest req = Ok tt ->
  validateRequest (with_uri_and_amount req uri buyAmount) = Ok tt ->
  createPumpFunToken sdk env (with_uri_and_amount req uri buyAmount) tr
  = createPumpFunToken sdk env req tr
  /\ forall (world : Filebase.World) (t : Filebase.Trace),
       Filebase.uploadMetadata world (with_uri_and_amount req uri buyAmount) t
       = Filebase.uploadMetadata world req t.
Proof.
  intros H1 H2. split.
  - unfold createPumpFunToken.
    rewrite !try_catch_bind. unfold lift. rewrite H1, H2. reflexivity.
  - intros world t.
    now rewrite (uploadMetadata_reads world (with_uri_and_amount req uri buyAmount) req).
Qed.

End Unread.

Lemma createPumpFunToken_ignores_uri_and_buyAmount_witness :
  Pumpfun.validateRequest Samples.request = Ok tt
  /\ Pumpfun.validateRequest
       (with_uri_and_amount Samples.request (Some (lit "https://x.io/m.json"))
          (Some (Finite 5))) = Ok tt
  /\ Pumpfun.createPumpFunToken Samples.sdk (Samples.env_of Samples.fair)
       (with_uri_and_amount Samples.request (Some (lit "https://x.io/m.json"))
          (Some (Finite 5))) []
     = Pumpfun.createPumpFunToken Samples.sdk (Samples.env_of Samples.fair)
         Samples.request [].
Proof.
  split; [reflexivity |]. split; [reflexivity |].
  exact (proj1 (createPumpFunToken_ignores_uri_and_buyAmount Samples.sdk
                  (Samples.env_of Samples.fair) Samples.request
                  (Some (lit "https://x.io/m.json")) (Some (Finite 5)) []
                  eq_refl eq_refl)).
Defined.

(** The description is read: with a storage that refuses a document
    without one, two valid requests that differ in the description only
    end differently. *)
Example createPumpFunToken_reads_description :
  Pumpfun.validateRequest Samples.request = Ok tt
  /\ Pumpfun.validateRequest Cases.request_described = Ok tt
  /\ fst (Pumpfun.createPumpFunToken Samples.sdk Cases.strict_storage
            Samples.request [])
     = Ok (failure "description required"%string)
  /\ fst (Pumpfun.createPumpFunToken Samples.sdk Cases.strict_storage
            Cases.request_described [])
     = Ok (created "sig-relay"%string
             (toBase58 Samples.sdk (publicKey Samples.mint))).
Proof. repeat split; vm_compute; reflexivity. Qed.
